(** * Invoice normalisation, validation and routing

    A shallow embedding of [schema.py], [normalizer.py] and [validator.py]:
    the canonical invoice schema with its pydantic constraints, the two
    vendor normalisers, the six validation checks and the routing decision.

    Python objects received from the vendor are values of [PyVal]; a call
    that can raise returns a [result].  Python floats are kept behind an
    interface, the type [num] with the operations of [PyFloatOps], which
    has two instances: IEEE binary64 (the arithmetic Python runs) and
    exact rationals; the bounds [PyFloatLaws] that the aggregate
    confidence relies on are proved for both.
    The data types depend on [num] alone, so that results compute without
    unfolding the operations. *)

From Stdlib Require Import ZArith List String Ascii Bool Lia DecimalString.
From Stdlib Require Import QArith Qcanon.
From Stdlib Require Import PrimFloat FloatOps SpecFloat.
From Corelib Require FloatAxioms.
Import ListNotations.

Set Warnings "-register-all".
Local Open Scope string_scope.
Local Open Scope list_scope.

(* ================================================================== *)
(** ** Exceptions and results *)

(** The exception classes the modelled code can raise.
    [ValidationError] is pydantic's. *)
Inductive exn : Type :=
| AttributeError
| TypeError
| ValueError
| KeyError
| OverflowError
| ValidationError.

Inductive result (A : Type) : Type :=
| Ok (a : A)
| Raise (e : exn).

Arguments Ok {A} a.
Arguments Raise {A} e.

Definition bind {A B : Type} (r : result A) (k : A -> result B) : result B :=
  match r with
  | Ok a => k a
  | Raise e => Raise e
  end.

Notation "x <- r ;; k" := (bind r (fun x => k))
  (at level 61, r at next level, right associativity).
Notation "' p <- r ;; k" := (bind r (fun x => match x with p => k end))
  (at level 61, p pattern, r at next level, right associativity).

Definition returns {A : Type} (r : result A) : Prop := exists a, r = Ok a.

Definition raises {A : Type} (r : result A) : Prop := exists e, r = Raise e.

Definition result_map {A B : Type} (f : A -> B) (r : result A) : result B :=
  match r with
  | Ok a => Ok (f a)
  | Raise e => Raise e
  end.

(** [try: ... except (ValueError, TypeError): handler]. *)
Definition except_value_type {A : Type} (r : result A) (handler : result A)
  : result A :=
  match r with
  | Raise ValueError | Raise TypeError => handler
  | other => other
  end.

(* ================================================================== *)
(** ** Python floats *)

(** The type of floats. *)
Class Carrier : Type := num : Type.

(** The float operations the code uses.  [f_of_Z] is [float(int)], which
    raises [OverflowError] ([None]) on an int too large; [f_of_string] is
    [float(str)], [None] standing for [ValueError]; [f_dec m e] is the
    decimal literal of mantissa [m] with [e] digits after the point, as
    the source spells it ([0.7] is [f_dec 7 1]). *)
Class PyFloatOps {C : Carrier} : Type := {
  f_zero : num;
  f_one : num;
  f_of_Z : Z -> option num;
  f_dec : Z -> nat -> num;
  f_of_string : string -> option num;
  f_add : num -> num -> num;
  f_sub : num -> num -> num;
  f_div : num -> num -> num;
  f_abs : num -> num;
  f_eqb : num -> num -> bool;
  f_ltb : num -> num -> bool;
  f_leb : num -> num -> bool
}.

Section Runtime.

Context {C : Carrier} {F : PyFloatOps}.

(** [a > b] and [a >= b] on floats. *)
Definition f_gtb (a b : num) : bool := f_ltb b a.
Definition f_geb (a b : num) : bool := f_leb b a.

(** [Field(ge=0.0, le=1.0)]. *)
Definition in_unit (x : num) : bool := f_leb f_zero x && f_leb x f_one.

(** [len(xs)] used as a float operand.  The lists here have at most
    three elements, far below the overflow bound of [f_of_Z]. *)
Definition f_of_len (n : nat) : num :=
  match f_of_Z (Z.of_nat n) with
  | Some x => x
  | None => f_zero
  end.

(** [sum(xs)]: the builtin starts from the int [0] and adds left to
    right. *)
Definition py_sum (xs : list num) : num :=
  fold_left f_add xs (f_of_len 0).

(* ================================================================== *)
(** ** Python values *)

Definition datetime : Type := Z.

(** What a vendor mapping can hold.  Dict keys are strings
    ([Dict[str, Any]]); a dict keeps its insertion order. *)
Inductive PyVal : Type :=
| PyNone
| PyBool (b : bool)
| PyInt (z : Z)
| PyFloat (x : num)
| PyStr (s : string)
| PyDateTime (t : datetime)
| PyList (l : list PyVal)
| PyDict (d : list (string * PyVal)).

Definition pydict : Type := list (string * PyVal).

Fixpoint dict_get {V : Type} (d : list (string * V)) (k : string) : option V :=
  match d with
  | [] => None
  | (k', v) :: d' => if String.eqb k' k then Some v else dict_get d' k
  end.

Definition dict_has {V : Type} (d : list (string * V)) (k : string) : bool :=
  match dict_get d k with
  | Some _ => true
  | None => false
  end.

(** [d[k] = v]: overwrite in place, or append a new key. *)
Fixpoint dict_set {V : Type} (d : list (string * V)) (k : string) (v : V)
  : list (string * V) :=
  match d with
  | [] => [(k, v)]
  | (k', v') :: d' =>
      if String.eqb k' k then (k', v) :: d' else (k', v') :: dict_set d' k v
  end.

(** [d.get(k, default)] on a dict. *)
Definition dict_get_default (d : pydict) (k : string) (default : PyVal) : PyVal :=
  match dict_get d k with
  | Some v => v
  | None => default
  end.

(** [x is None]. *)
Definition is_none (v : PyVal) : bool :=
  match v with
  | PyNone => true
  | _ => false
  end.

(** Truth value of an object ([if v:], [a or b]). *)
Definition truthy (v : PyVal) : bool :=
  match v with
  | PyNone => false
  | PyBool b => b
  | PyInt z => negb (Z.eqb z 0)
  | PyFloat x => negb (f_eqb x f_zero)
  | PyStr s => negb (String.eqb s "")
  | PyDateTime _ => true
  | PyList l => match l with [] => false | _ => true end
  | PyDict d => match d with [] => false | _ => true end
  end.

(** [a or b]. *)
Definition py_or (a b : PyVal) : PyVal := if truthy a then a else b.

(** [float(v)]. *)
Definition py_float (v : PyVal) : result num :=
  match v with
  | PyFloat x => Ok x
  | PyInt z =>
      match f_of_Z z with
      | Some x => Ok x
      | None => Raise OverflowError
      end
  | PyBool b => Ok (if b then f_one else f_zero)
  | PyStr s =>
      match f_of_string s with
      | Some x => Ok x
      | None => Raise ValueError
      end
  | PyNone | PyDateTime _ | PyList _ | PyDict _ => Raise TypeError
  end.

(** [v.get(k, default)]: only a dict has the method. *)
Definition py_get (v : PyVal) (k : string) (default : PyVal) : result PyVal :=
  match v with
  | PyDict d => Ok (dict_get_default d k default)
  | _ => Raise AttributeError
  end.

Definition is_substring (k s : string) : bool :=
  match String.index 0 k s with
  | Some _ => true
  | None => false
  end.

Definition is_str (k : string) (v : PyVal) : bool :=
  match v with
  | PyStr s => String.eqb s k
  | _ => false
  end.

(** [k in c] for a string [k]: key membership on a dict, element
    membership on a list, substring test on a str; the other objects are
    not iterable. *)
Definition py_contains (k : string) (c : PyVal) : result bool :=
  match c with
  | PyDict d => Ok (dict_has d k)
  | PyList l => Ok (existsb (is_str k) l)
  | PyStr s => Ok (is_substring k s)
  | _ => Raise TypeError
  end.

(** [c[k]] for a string [k]. *)
Definition py_getitem (c : PyVal) (k : string) : result PyVal :=
  match c with
  | PyDict d =>
      match dict_get d k with
      | Some v => Ok v
      | None => Raise KeyError
      end
  | _ => Raise TypeError
  end.

Fixpoint chars (s : string) : list PyVal :=
  match s with
  | EmptyString => []
  | String c s' => PyStr (String c EmptyString) :: chars s'
  end.

(** The items [for item in c] visits. *)
Definition py_iter (c : PyVal) : result (list PyVal) :=
  match c with
  | PyList l => Ok l
  | PyDict d => Ok (map (fun kv => PyStr (fst kv)) d)
  | PyStr s => Ok (chars s)
  | _ => Raise TypeError
  end.

Fixpoint mapM {A B : Type} (f : A -> result B) (l : list A) : result (list B) :=
  match l with
  | [] => Ok []
  | a :: l' => b <- f a ;; bs <- mapM f l' ;; Ok (b :: bs)
  end.

(** [s.upper()] on ASCII text, where it maps a-z to A-Z and leaves every
    other character: the case of the field names of the reason codes,
    which are literals of the source. *)
Definition upper_ascii (c : ascii) : ascii :=
  let n := nat_of_ascii c in
  if (97 <=? n)%nat && (n <=? 122)%nat then ascii_of_nat (n - 32) else c.

Fixpoint upper (s : string) : string :=
  match s with
  | EmptyString => EmptyString
  | String c s' => String (upper_ascii c) (upper s')
  end.

(** [s.replace("Z", "+00:00")]. *)
Fixpoint replace_Z (s : string) : string :=
  match s with
  | EmptyString => EmptyString
  | String c s' =>
      if Ascii.eqb c "Z"%char then "+00:00" ++ replace_Z s'
      else String c (replace_Z s')
  end.

(** [sep.join(xs)]. *)
Definition join (sep : string) (xs : list string) : string :=
  String.concat sep xs.

(** What the libraries decide: [str(v)] of an object that is not already
    a str, [s.upper()] of a text that is not all ASCII (Unicode case
    mapping), the two date parsers of the standard library ([true] when
    they return, [false] when they raise [ValueError]), and the names of
    the attributes every pydantic model inherits from [BaseModel]. *)
Class PyBuiltins : Type := {
  str_other : PyVal -> string;
  upper_other : string -> string;
  fromisoformat_ok : string -> bool;
  strptime_ymd_ok : string -> bool;
  inherited_attribute : string -> bool
}.

Definition str_in (s : string) (l : list string) : bool :=
  existsb (String.eqb s) l.

Context {B : PyBuiltins}.

(** [str(v)]. *)
Definition py_str (v : PyVal) : string :=
  match v with
  | PyStr s => s
  | other => str_other other
  end.

(** [s.isascii()]: every byte of the text is below 128. *)
Fixpoint is_ascii (s : string) : bool :=
  match s with
  | EmptyString => true
  | String c s' => (nat_of_ascii c <? 128)%nat && is_ascii s'
  end.

(** [s.upper()] on any text: the a-z map on ASCII text, the library's
    case mapping on text with other characters. *)
Definition str_upper (s : string) : string :=
  if is_ascii s then upper s else upper_other s.

(* ================================================================== *)
(** ** schema.py *)

Record Evidence : Type := {
  page_number : Z;
  bbox : option (list (string * num));
  text_anchor : option string
}.

Record FieldAudit : Type := {
  value : PyVal;
  confidence : num;
  evidence : option Evidence;
  pipeline_version : string;
  vendor_version : string;
  vendor_field_name : option string
}.

Record LineItem : Type := {
  description : string;
  quantity : option num;
  unit_price : option num;
  amount : num;
  audit : FieldAudit
}.

Record InvoiceSchema : Type := {
  invoice_number : option FieldAudit;
  invoice_date : option FieldAudit;
  supplier_name : option FieldAudit;
  supplier_id : option FieldAudit;
  currency : option FieldAudit;
  subtotal : option FieldAudit;
  tax : option FieldAudit;
  total : option FieldAudit;
  po_number : option FieldAudit;
  line_items : option (list LineItem);
  doc_id : string;
  extraction_timestamp : datetime;
  vendor_name : string;
  raw_vendor_output : pydict
}.

(** Error and warning texts, kept structured: each constructor is one
    f-string of validator.py with the values it interpolates. *)
Inductive message : Type :=
| MissingRequiredFields (missing : list string)
| InvalidDateFormat (date_value : string)
| DateWrongType (date_value : PyVal)
| UnrecognizedCurrency (currency : string)
| ReconciliationFailed
    (subtotal tax calculated_total total difference tolerance : num)
| HighTotalAmount (total threshold : num)
| PONumberMissing.

Record ValidationResult : Type := {
  passed : bool;
  checks : list (string * bool);
  errors : list message;
  warnings : list message
}.

Record RoutingDecision : Type := {
  outcome : string;
  reason_codes : list string;
  confidence_score : num
}.

(** pydantic's validation of a [float] field: a float is taken as it is,
    an int, a bool or a numeric str is converted, anything else is
    rejected. *)
Definition pydantic_float (v : PyVal) : result num :=
  match v with
  | PyFloat _ | PyInt _ | PyBool _ | PyStr _ =>
      match py_float v with
      | Ok x => Ok x
      | Raise _ => Raise ValidationError
      end
  | _ => Raise ValidationError
  end.

(** An [Optional[float]] field. *)
Definition pydantic_opt_float (v : PyVal) : result (option num) :=
  match v with
  | PyNone => Ok None
  | _ => x <- pydantic_float v ;; Ok (Some x)
  end.

(** A [str] field: only a str is accepted. *)
Definition pydantic_str (v : PyVal) : result string :=
  match v with
  | PyStr s => Ok s
  | _ => Raise ValidationError
  end.

(** [Evidence(page_number=1)]. *)
Definition Evidence_page (n : Z) : Evidence :=
  {| page_number := n; bbox := None; text_anchor := None |}.

(** [FieldAudit(value=..., confidence=..., ...)]: [confidence] must
    validate as a float within [0, 1]. *)
Definition new_FieldAudit (value confidence : PyVal) (evidence : option Evidence)
    (pipeline_version vendor_version : string)
    (vendor_field_name : option string) : result FieldAudit :=
  c <- pydantic_float confidence ;;
  if in_unit c then
    Ok {| value := value; confidence := c; evidence := evidence;
          pipeline_version := pipeline_version;
          vendor_version := vendor_version;
          vendor_field_name := vendor_field_name |}
  else Raise ValidationError.

(** [LineItem(description=..., quantity=..., unit_price=..., amount=...,
    audit=...)]. *)
Definition new_LineItem (description quantity unit_price amount : PyVal)
    (audit : FieldAudit) : result LineItem :=
  d <- pydantic_str description ;;
  q <- pydantic_opt_float quantity ;;
  u <- pydantic_opt_float unit_price ;;
  a <- pydantic_float amount ;;
  Ok {| description := d; quantity := q; unit_price := u; amount := a;
        audit := audit |}.

(** [RoutingDecision(outcome=..., reason_codes=..., confidence_score=...)]:
    the score must lie within [0, 1]. *)
Definition new_RoutingDecision (outcome : string) (reason_codes : list string)
    (confidence_score : num) : result RoutingDecision :=
  if in_unit confidence_score then
    Ok {| outcome := outcome; reason_codes := reason_codes;
          confidence_score := confidence_score |}
  else Raise ValidationError.

(** [InvoiceSchema(doc_id=..., ...)]: the slots are built model
    instances already, the vendor name is the caller's str, the raw
    output is a dict with str keys; [doc_id] is whatever the vendor
    mapping held and must validate as a str. *)
Definition new_InvoiceSchema (doc_id : PyVal) (extraction_timestamp : datetime)
    (vendor_name : string) (raw_vendor_output : pydict)
    (invoice_number invoice_date supplier_name supplier_id currency
       subtotal tax total po_number : option FieldAudit)
    (line_items : option (list LineItem)) : result InvoiceSchema :=
  d <- pydantic_str doc_id ;;
  Ok {| invoice_number := invoice_number; invoice_date := invoice_date;
        supplier_name := supplier_name; supplier_id := supplier_id;
        currency := currency; subtotal := subtotal; tax := tax;
        total := total; po_number := po_number; line_items := line_items;
        doc_id := d; extraction_timestamp := extraction_timestamp;
        vendor_name := vendor_name; raw_vendor_output := raw_vendor_output |}.

(** The names of the nine [FieldAudit] slots. *)
Definition slot_names : list string :=
  ["invoice_number"; "invoice_date"; "supplier_name"; "supplier_id";
   "currency"; "subtotal"; "tax"; "total"; "po_number"].

(** [getattr(invoice, field, None)] on the nine [FieldAudit] slots. *)
Definition slot (invoice : InvoiceSchema) (field : string) : option FieldAudit :=
  if String.eqb field "invoice_number" then invoice_number invoice
  else if String.eqb field "invoice_date" then invoice_date invoice
  else if String.eqb field "supplier_name" then supplier_name invoice
  else if String.eqb field "supplier_id" then supplier_id invoice
  else if String.eqb field "currency" then currency invoice
  else if String.eqb field "subtotal" then subtotal invoice
  else if String.eqb field "tax" then tax invoice
  else if String.eqb field "total" then total invoice
  else if String.eqb field "po_number" then po_number invoice
  else None.

(** What [getattr(invoice, field, None)] can give for any name: a
    [FieldAudit]; [None], for an empty slot and as the default for a name
    the model does not have; or another object (the line items, the
    metadata, an inherited attribute), which has no [.value]. *)
Inductive attr : Type :=
| AttrAudit (a : FieldAudit)
| AttrNone
| AttrOther.

Definition getattr (invoice : InvoiceSchema) (field : string) : attr :=
  if str_in field slot_names then
    match slot invoice field with
    | Some a => AttrAudit a
    | None => AttrNone
    end
  else if String.eqb field "line_items" then
    match line_items invoice with
    | Some _ => AttrOther
    | None => AttrNone
    end
  else if str_in field ["doc_id"; "extraction_timestamp"; "vendor_name";
                        "raw_vendor_output"]
  then AttrOther
  else if inherited_attribute field then AttrOther
  else AttrNone.

End Runtime.

(* ================================================================== *)
(** ** validator.py *)

Section ValidatorPy.

Context {C : Carrier} {F : PyFloatOps} {B : PyBuiltins}.

(** The configuration [Validator.__init__] stores. *)
Record Validator : Type := {
  currency_tolerance : list (string * num);
  high_total_threshold : num;
  low_confidence_threshold : num;
  required_fields : list string
}.

Definition default_currency_tolerance : list (string * num) :=
  [("USD", f_dec 1 2); ("EUR", f_dec 1 2); ("GBP", f_dec 1 2)].

Definition default_required_fields : list string :=
  ["invoice_number"; "invoice_date"; "supplier_name"; "total"].

Definition default_high_total_threshold : num := f_dec 100000 0.

Definition default_low_confidence_threshold : num := f_dec 7 1.

(** [Validator.__init__]: [x or default] also replaces an empty dict or
    list by the default. *)
Definition Validator_init (currency_tolerance : option (list (string * num)))
    (high_total_threshold low_confidence_threshold : num)
    (required_fields : option (list string)) : Validator :=
  {| currency_tolerance :=
       match currency_tolerance with
       | Some (e :: d) => e :: d
       | _ => default_currency_tolerance
       end;
     high_total_threshold := high_total_threshold;
     low_confidence_threshold := low_confidence_threshold;
     required_fields :=
       match required_fields with
       | Some (f :: l) => f :: l
       | _ => default_required_fields
       end |}.

(** [Validator()]. *)
Definition default_Validator : Validator :=
  Validator_init None default_high_total_threshold
    default_low_confidence_threshold None.

Variable self : Validator.

(** One turn of the loop of [_check_required_fields]. *)
Definition required_step (invoice : InvoiceSchema) (missing : list string)
    (field : string) : result (list string) :=
  match getattr invoice field with
  | AttrNone => Ok (missing ++ [field])
  | AttrAudit a =>
      if is_none (value a) then Ok (missing ++ [field]) else Ok missing
  | AttrOther => Raise AttributeError
  end.

Fixpoint required_loop (invoice : InvoiceSchema) (fields missing : list string)
  : result (list string) :=
  match fields with
  | [] => Ok missing
  | field :: rest =>
      missing' <- required_step invoice missing field ;;
      required_loop invoice rest missing'
  end.

(** Each check takes the accumulator list it appends to and gives back
    its boolean with the list as it leaves it. *)
Definition _check_required_fields (invoice : InvoiceSchema)
    (errors : list message) : result (bool * list message) :=
  missing <- required_loop invoice (required_fields self) [] ;;
  match missing with
  | [] => Ok (true, errors)
  | _ => Ok (false, errors ++ [MissingRequiredFields missing])
  end.

Definition _check_date_format (invoice : InvoiceSchema)
    (errors : list message) : result (bool * list message) :=
  match invoice_date invoice with
  | None => Ok (true, errors)
  | Some a =>
      match value a with
      | PyNone => Ok (true, errors)
      | PyStr date_value =>
          if fromisoformat_ok (replace_Z date_value) then Ok (true, errors)
          else if strptime_ymd_ok date_value then Ok (true, errors)
          else Ok (false, errors ++ [InvalidDateFormat date_value])
      | PyDateTime _ => Ok (true, errors)
      | other => Ok (false, errors ++ [DateWrongType other])
      end
  end.

Definition valid_currencies : list string :=
  ["USD"; "EUR"; "GBP"; "CAD"; "AUD"; "JPY"; "CNY"; "INR"].

Definition _check_currency (invoice : InvoiceSchema)
    (errors : list message) : result (bool * list message) :=
  match currency invoice with
  | None => Ok (true, errors)
  | Some a =>
      if is_none (value a) then Ok (true, errors)
      else
        let currency := str_upper (py_str (value a)) in
        if negb (str_in currency valid_currencies) then
          Ok (false, errors ++ [UnrecognizedCurrency currency])
        else Ok (true, errors)
  end.

(** [float(v) if v else 0.0]. *)
Definition float_or_zero (v : PyVal) : result num :=
  if truthy v then py_float v else Ok f_zero.

(** The currency code [_check_reconciliation] looks the tolerance up
    with. *)
Definition reconciliation_currency (invoice : InvoiceSchema) : string :=
  match currency invoice with
  | Some a =>
      if truthy (value a) then str_upper (py_str (value a)) else "USD"
  | None => "USD"
  end.

(** [self.currency_tolerance.get(currency, 0.01)]. *)
Definition tolerance_for (currency : string) : num :=
  match dict_get (currency_tolerance self) currency with
  | Some t => t
  | None => f_dec 1 2
  end.

Definition _check_reconciliation (invoice : InvoiceSchema)
    (errors : list message) : result (bool * list message) :=
  match subtotal invoice, tax invoice, total invoice with
  | Some s, Some t, Some tot =>
      subtotal <- float_or_zero (value s) ;;
      tax <- float_or_zero (value t) ;;
      total <- float_or_zero (value tot) ;;
      let currency := reconciliation_currency invoice in
      let tolerance := tolerance_for currency in
      let calculated_total := f_add subtotal tax in
      let difference := f_abs (f_sub calculated_total total) in
      if f_gtb difference tolerance then
        Ok (false,
            errors ++ [ReconciliationFailed subtotal tax calculated_total
                         total difference tolerance])
      else Ok (true, errors)
  | _, _, _ => Ok (true, errors)
  end.

Definition _check_total_threshold (invoice : InvoiceSchema)
    (warnings : list message) : result (bool * list message) :=
  match total invoice with
  | None => Ok (true, warnings)
  | Some a =>
      if is_none (value a) then Ok (true, warnings)
      else
        total <- py_float (value a) ;;
        if f_gtb total (high_total_threshold self) then
          Ok (false,
              warnings ++ [HighTotalAmount total (high_total_threshold self)])
        else Ok (true, warnings)
  end.

Definition _check_po_present (invoice : InvoiceSchema)
    (warnings : list message) : result (bool * list message) :=
  match po_number invoice with
  | None => Ok (false, warnings ++ [PONumberMissing])
  | Some a =>
      if is_none (value a) then Ok (false, warnings ++ [PONumberMissing])
      else Ok (true, warnings)
  end.

Definition validate (invoice : InvoiceSchema) : result ValidationResult :=
  let checks := [] in
  let errors := [] in
  let warnings := [] in
  '(b, errors) <- _check_required_fields invoice errors ;;
  let checks := dict_set checks "required_fields_present" b in
  '(b, errors) <- _check_date_format invoice errors ;;
  let checks := dict_set checks "date_format_valid" b in
  '(b, errors) <- _check_currency invoice errors ;;
  let checks := dict_set checks "currency_valid" b in
  '(b, errors) <- _check_reconciliation invoice errors ;;
  let checks := dict_set checks "reconciliation_pass" b in
  '(b, warnings) <- _check_total_threshold invoice warnings ;;
  let checks := dict_set checks "total_within_threshold" b in
  '(b, warnings) <- _check_po_present invoice warnings ;;
  let checks := dict_set checks "po_present" b in
  let passed := Nat.eqb (List.length errors) 0 in
  Ok {| passed := passed; checks := checks; errors := errors;
        warnings := warnings |}.

(** ["name" in validation.checks and not validation.checks["name"]]. *)
Definition check_failed (validation : ValidationResult) (name : string) : bool :=
  match dict_get (checks validation) name with
  | Some b => negb b
  | None => false
  end.

Definition critical_fields : list string :=
  ["invoice_number"; "total"; "invoice_date"].

(** Reason codes of the first block of [route] (validation errors). *)
Definition validation_reason_codes (validation : ValidationResult)
    (reason_codes : list string) : list string :=
  if negb (passed validation) then
    let reason_codes := reason_codes ++ ["VALIDATION_FAILED"] in
    let reason_codes :=
      if check_failed validation "reconciliation_pass"
      then reason_codes ++ ["TOTAL_MISMATCH"] else reason_codes in
    let reason_codes :=
      if check_failed validation "required_fields_present"
      then reason_codes ++ ["MISSING_REQUIRED_FIELDS"] else reason_codes in
    reason_codes
  else reason_codes.

(** [field_audit and field_audit.confidence < self.low_confidence_threshold]:
    a model instance is always true, [None] never. *)
Definition is_low_confidence (invoice : InvoiceSchema) (field : string) : bool :=
  match slot invoice field with
  | Some field_audit =>
      f_ltb (confidence field_audit) (low_confidence_threshold self)
  | None => false
  end.

(** The list the first loop over [critical_fields] builds. *)
Definition low_confidence_fields (invoice : InvoiceSchema) : list string :=
  filter (is_low_confidence invoice) critical_fields.

Definition low_conf_code (fields : list string) : string :=
  "LOW_CONF_" ++ upper (join "_" fields).

Definition confidence_reason_codes (invoice : InvoiceSchema)
    (reason_codes : list string) : list string :=
  match low_confidence_fields invoice with
  | [] => reason_codes
  | fields => reason_codes ++ ["LOW_CONFIDENCE"] ++ [low_conf_code fields]
  end.

Definition warning_reason_codes (validation : ValidationResult)
    (reason_codes : list string) : list string :=
  let reason_codes :=
    if check_failed validation "total_within_threshold"
    then reason_codes ++ ["HIGH_TOTAL"] else reason_codes in
  if check_failed validation "po_present"
  then reason_codes ++ ["MISSING_PO"] else reason_codes.

(** [reason_codes] as [route] has it when it reaches the decision. *)
Definition route_reason_codes (invoice : InvoiceSchema)
    (validation : ValidationResult) : list string :=
  warning_reason_codes validation
    (confidence_reason_codes invoice
       (validation_reason_codes validation [])).

(** The list the second loop over [critical_fields] builds. *)
Definition confidence_scores (invoice : InvoiceSchema) : list num :=
  flat_map
    (fun field =>
       match slot invoice field with
       | Some field_audit => [confidence field_audit]
       | None => []
       end)
    critical_fields.

Definition overall_confidence (invoice : InvoiceSchema) : num :=
  match confidence_scores invoice with
  | [] => f_zero
  | scores => f_div (py_sum scores) (f_of_len (List.length scores))
  end.

Definition route_outcome (invoice : InvoiceSchema)
    (validation : ValidationResult) : string :=
  if Nat.eqb (List.length (route_reason_codes invoice validation)) 0
     && f_geb (overall_confidence invoice) (low_confidence_threshold self)
  then "AUTO_POST" else "NEEDS_REVIEW".

Definition route (invoice : InvoiceSchema) (validation : ValidationResult)
  : result RoutingDecision :=
  new_RoutingDecision
    (route_outcome invoice validation)
    (route_reason_codes invoice validation)
    (overall_confidence invoice).

End ValidatorPy.

(* ================================================================== *)
(** ** normalizer.py *)

Section NormalizerPy.

Context {C : Carrier} {F : PyFloatOps} {B : PyBuiltins}.

(** [Normalizer.__init__] stores the pipeline version. *)
Record Normalizer : Type := {
  self_pipeline_version : string
}.

(** [Normalizer()]. *)
Definition default_Normalizer : Normalizer :=
  {| self_pipeline_version := "1.0.0" |}.

Variable self : Normalizer.

(** What [datetime.now()] returns during the call. *)
Variable now : datetime.

Definition numeric_fields : list string := ["subtotal"; "tax"; "total"].

(** [vendor_field_name or field_name]. *)
Definition name_or (vendor_field_name : option string) (field_name : string)
  : string :=
  match vendor_field_name with
  | Some n => if String.eqb n "" then field_name else n
  | None => field_name
  end.

(** [create_field_audit] of [_normalize_vendor_a]; [fields] is the
    enclosing function's local. *)
Definition create_field_audit_a (fields : PyVal) (vendor_version : string)
    (field_name : string) (vendor_field_name : option string)
  : result (option FieldAudit) :=
  present <- py_contains field_name fields ;;
  if negb present then Ok None
  else
    field_data <- py_getitem fields field_name ;;
    value <- py_get field_data "value" PyNone ;;
    confidence <- py_get field_data "confidence" (PyFloat f_zero) ;;
    a <- new_FieldAudit value confidence (Some (Evidence_page 1))
           (self_pipeline_version self) vendor_version
           (Some (name_or vendor_field_name field_name)) ;;
    Ok (Some a).

(** One [LineItem(...)] of a line-item loop; the two vendors differ in
    the keys they read. *)
Definition line_item_of (k_description k_quantity k_unit_price k_amount
    k_confidence : string) (vendor_version : string) (item : PyVal)
  : result LineItem :=
  description <- py_get item k_description (PyStr "") ;;
  quantity <- py_get item k_quantity PyNone ;;
  unit_price <- py_get item k_unit_price PyNone ;;
  amount <- py_get item k_amount (PyFloat f_zero) ;;
  confidence <- py_get item k_confidence (PyFloat f_zero) ;;
  audit <- new_FieldAudit item confidence (Some (Evidence_page 1))
             (self_pipeline_version self) vendor_version (Some "line_item") ;;
  new_LineItem description quantity unit_price amount audit.

Definition line_item_a : string -> PyVal -> result LineItem :=
  line_item_of "description" "quantity" "unit_price" "amount" "confidence".

Definition line_item_b : string -> PyVal -> result LineItem :=
  line_item_of "desc" "qty" "price" "line_total" "score".

Definition _normalize_vendor_a (output : pydict) (doc_id : PyVal)
    (vendor_name vendor_version : string) : result InvoiceSchema :=
  let fields := dict_get_default output "fields" (PyDict []) in
  let create_field_audit field_name :=
    create_field_audit_a fields vendor_version field_name None in
  line_items <-
    (if dict_has output "line_items" then
       container <- py_getitem (PyDict output) "line_items" ;;
       items <- py_iter container ;;
       l <- mapM (line_item_a vendor_version) items ;;
       Ok (Some l)
     else Ok None) ;;
  invoice_number <- create_field_audit "invoice_number" ;;
  invoice_date <- create_field_audit "invoice_date" ;;
  supplier_name <- create_field_audit "supplier_name" ;;
  supplier_id <- create_field_audit "supplier_id" ;;
  currency <- create_field_audit "currency" ;;
  subtotal <- create_field_audit "subtotal" ;;
  tax <- create_field_audit "tax" ;;
  total <- create_field_audit "total" ;;
  po_number <- create_field_audit "po_number" ;;
  new_InvoiceSchema doc_id now vendor_name output
    invoice_number invoice_date supplier_name supplier_id currency
    subtotal tax total po_number line_items.

(** [create_field_audit] of [_normalize_vendor_b]; [financial] is the
    enclosing function's local. *)
Definition create_field_audit_b (financial : PyVal) (vendor_version : string)
    (vendor_field canonical_field : string) : result (option FieldAudit) :=
  present <- py_contains vendor_field financial ;;
  if negb present then Ok None
  else
    field_data <- py_getitem financial vendor_field ;;
    value <- py_get field_data "text" PyNone ;;
    confidence <- py_get field_data "score" (PyFloat f_zero) ;;
    let build value :=
      a <- new_FieldAudit value confidence (Some (Evidence_page 1))
             (self_pipeline_version self) vendor_version (Some vendor_field) ;;
      Ok (Some a) in
    if str_in canonical_field numeric_fields then
      coerced <- except_value_type
                   (x <- py_float value ;; Ok (Some x))
                   (Ok None) ;;
      match coerced with
      | Some x => build (PyFloat x)
      | None => Ok None
      end
    else build value.

Definition field_mapping : list (string * string) :=
  [("invoice_num", "invoice_number");
   ("date", "invoice_date");
   ("vendor_name", "supplier_name");
   ("vendor_id", "supplier_id");
   ("currency_code", "currency");
   ("amount_before_tax", "subtotal");
   ("tax_amount", "tax");
   ("amount_due", "total");
   ("purchase_order", "po_number")].

(** The loop filling [normalized_fields]. *)
Fixpoint normalized_fields_loop (financial : PyVal) (vendor_version : string)
    (mapping : list (string * string))
    (normalized_fields : list (string * FieldAudit))
  : result (list (string * FieldAudit)) :=
  match mapping with
  | [] => Ok normalized_fields
  | (vendor_field, canonical_field) :: rest =>
      audit <- create_field_audit_b financial vendor_version
                 vendor_field canonical_field ;;
      normalized_fields_loop financial vendor_version rest
        match audit with
        | Some a => dict_set normalized_fields canonical_field a
        | None => normalized_fields
        end
  end.

Definition _normalize_vendor_b (output : pydict) (doc_id : PyVal)
    (vendor_name vendor_version : string) : result InvoiceSchema :=
  financial <-
    py_get (dict_get_default output "extracted_data" (PyDict []))
      "financial" (PyDict []) ;;
  normalized_fields <-
    normalized_fields_loop financial vendor_version field_mapping [] ;;
  items <-
    py_get (dict_get_default output "extracted_data" (PyDict []))
      "items" (PyList []) ;;
  line_items <-
    (if truthy items then
       items' <- py_iter items ;;
       l <- mapM (line_item_b vendor_version) items' ;;
       Ok (Some l)
     else Ok None) ;;
  new_InvoiceSchema doc_id now vendor_name output
    (dict_get normalized_fields "invoice_number")
    (dict_get normalized_fields "invoice_date")
    (dict_get normalized_fields "supplier_name")
    (dict_get normalized_fields "supplier_id")
    (dict_get normalized_fields "currency")
    (dict_get normalized_fields "subtotal")
    (dict_get normalized_fields "tax")
    (dict_get normalized_fields "total")
    (dict_get normalized_fields "po_number")
    line_items.

Definition normalize (vendor_output : pydict)
    (vendor_name vendor_version : string) : result InvoiceSchema :=
  let doc_id :=
    py_or (dict_get_default vendor_output "document_id" PyNone)
      (dict_get_default vendor_output "id" (PyStr "unknown")) in
  if String.eqb vendor_name "vendor_a" then
    _normalize_vendor_a vendor_output doc_id vendor_name vendor_version
  else if String.eqb vendor_name "vendor_b" then
    _normalize_vendor_b vendor_output doc_id vendor_name vendor_version
  else
    _normalize_vendor_a vendor_output doc_id vendor_name vendor_version.

End NormalizerPy.

(* ================================================================== *)
(** ** Reading decimal text *)

Definition digit_of (c : ascii) : option Z :=
  let n := nat_of_ascii c in
  if (48 <=? n)%nat && (n <=? 57)%nat then Some (Z.of_nat (n - 48)) else None.

(** Digits with at most one point and at least one digit: the mantissa
    as an integer and the number of digits after the point. *)
Fixpoint scan_decimal (s : string) (mantissa : Z) (frac : option nat)
    (seen_digit : bool) : option (Z * nat) :=
  match s with
  | EmptyString =>
      if seen_digit then
        Some (mantissa, match frac with Some k => k | None => O end)
      else None
  | String c s' =>
      if Ascii.eqb c "."%char then
        match frac with
        | None => scan_decimal s' mantissa (Some O) seen_digit
        | Some _ => None
        end
      else
        match digit_of c with
        | Some d =>
            scan_decimal s' (10 * mantissa + d) (option_map S frac) true
        | None => None
        end
  end.

(** A plain decimal literal: sign, mantissa, fractional digits. *)
Definition parse_decimal (s : string) : option (bool * Z * nat) :=
  match s with
  | String "-"%char s' =>
      option_map (fun mk => (true, fst mk, snd mk)) (scan_decimal s' 0 None false)
  | String "+"%char s' =>
      option_map (fun mk => (false, fst mk, snd mk)) (scan_decimal s' 0 None false)
  | _ =>
      option_map (fun mk => (false, fst mk, snd mk)) (scan_decimal s 0 None false)
  end.

(** A run of digits read as a number, with its length. *)
Fixpoint scan_digits (s : string) (acc : Z) (n : nat) : option (Z * nat) :=
  match s with
  | EmptyString => Some (acc, n)
  | String c s' =>
      match digit_of c with
      | Some d => scan_digits s' (10 * acc + d) (S n)
      | None => None
      end
  end.

(** Between [lo] and [hi] digits, read as a number. *)
Definition digits_between (lo hi : nat) (s : string) : option Z :=
  match scan_digits s 0 O with
  | Some (z, n) => if (lo <=? n)%nat && (n <=? hi)%nat then Some z else None
  | None => None
  end.

Fixpoint split_on (sep : ascii) (s : string) (cur : string) : list string :=
  match s with
  | EmptyString => [cur]
  | String c s' =>
      if Ascii.eqb c sep then cur :: split_on sep s' EmptyString
      else split_on sep s' (cur ++ String c EmptyString)
  end.

Definition is_leap (y : Z) : bool :=
  ((y mod 4 =? 0) && negb (y mod 100 =? 0) || (y mod 400 =? 0))%Z.

Definition days_in_month (y m : Z) : Z :=
  if (m =? 2)%Z then (if is_leap y then 29 else 28)
  else if ((m =? 4) || (m =? 6) || (m =? 9) || (m =? 11))%Z then 30
  else 31.

(** A calendar date [Y-M-D]: a four-digit year from 1, and month and day
    of [lo] to two digits. *)
Definition calendar_date (lo : nat) (s : string) : bool :=
  match split_on "-"%char s EmptyString with
  | [ys; ms; ds] =>
      match digits_between 4 4 ys, digits_between lo 2 ms, digits_between lo 2 ds with
      | Some y, Some m, Some d =>
          ((1 <=? y) && (1 <=? m) && (m <=? 12) && (1 <=? d)
           && (d <=? days_in_month y m))%Z
      | _, _, _ => false
      end
  | _ => false
  end.

(* ================================================================== *)
(** ** Instance: IEEE binary64 *)

(** The binary64 value nearest to an integer (ties to even), infinite
    when the integer is out of range. *)
Definition f64_round_Z (z : Z) : float :=
  SF2Prim (binary_normalize prec emax z 0 false).

(** [m] / 10^[e], correctly rounded when [|m| < 2^53] and [e <= 22] (both
    operands are then exact and the division rounds once). *)
Definition f64_dec (m : Z) (e : nat) : float :=
  PrimFloat.div (f64_round_Z m) (f64_round_Z (10 ^ Z.of_nat e)).

Definition binary64 : Carrier := float.

(** Python's floats.  [f_of_string] reads plain decimal literals (sign,
    digits, at most one point); the other spellings [float] accepts
    (exponents, inf, nan, surrounding blanks) are outside this
    instance. *)
Definition Float64 : PyFloatOps (C:=binary64) := {|
  f_zero := PrimFloat.zero;
  f_one := PrimFloat.one;
  f_of_Z := fun z =>
    let x := f64_round_Z z in
    if PrimFloat.is_infinity x then None else Some x;
  f_dec := f64_dec;
  f_of_string := fun s =>
    match parse_decimal s with
    | Some (neg, m, e) =>
        Some (if neg then PrimFloat.opp (f64_dec m e) else f64_dec m e)
    | None => None
    end;
  f_add := PrimFloat.add;
  f_sub := PrimFloat.sub;
  f_div := PrimFloat.div;
  f_abs := PrimFloat.abs;
  f_eqb := PrimFloat.eqb;
  f_ltb := PrimFloat.ltb;
  f_leb := PrimFloat.leb
|}.

(* ================================================================== *)
(** ** Instance: exact rationals *)

Definition Qc_dec (m : Z) (e : nat) : Qc :=
  Q2Qc (inject_Z m / inject_Z (10 ^ Z.of_nat e)).

Definition Qc_leb (x y : Qc) : bool := Qle_bool x y.

Definition rational : Carrier := Qc.

(** Exact arithmetic on the same literals. *)
Definition Exact : PyFloatOps (C:=rational) := {|
  f_zero := Q2Qc 0;
  f_one := Q2Qc 1;
  f_of_Z := fun z => Some (Q2Qc (inject_Z z));
  f_dec := Qc_dec;
  f_of_string := fun s =>
    match parse_decimal s with
    | Some (neg, m, e) => Some (if neg then Qcopp (Qc_dec m e) else Qc_dec m e)
    | None => None
    end;
  f_add := Qcplus;
  f_sub := Qcminus;
  f_div := Qcdiv;
  f_abs := fun x => if Qc_leb (Q2Qc 0) x then x else Qcopp x;
  f_eqb := Qc_eq_bool;
  f_ltb := fun x y => negb (Qc_leb y x);
  f_leb := Qc_leb
|}.

(* ================================================================== *)
(** ** Instance: the text builtins on the inputs of the examples *)

Definition string_of_Z (z : Z) : string :=
  NilZero.string_of_int (Z.to_int z).

(** [str(v)] for [None], bools and ints as Python prints them; for the
    other objects only the bracketed type name (Python prints their
    contents). *)
Definition str_of_scalar {C : Carrier} (v : PyVal) : string :=
  match v with
  | PyNone => "None"
  | PyBool true => "True"
  | PyBool false => "False"
  | PyInt z => string_of_Z z
  | PyStr s => s
  | PyFloat _ => "<float>"
  | PyDateTime _ => "<datetime>"
  | PyList _ => "<list>"
  | PyDict _ => "<dict>"
  end.

(** Public names of pydantic's [BaseModel] (the dunder attributes are
    left out). *)
Definition base_model_names : list string :=
  ["model_config"; "model_fields"; "model_computed_fields"; "model_extra";
   "model_fields_set"; "model_construct"; "model_copy"; "model_dump";
   "model_dump_json"; "model_json_schema"; "model_parametrized_name";
   "model_post_init"; "model_rebuild"; "model_validate";
   "model_validate_json"; "model_validate_strings"; "copy"; "dict"; "json";
   "construct"; "from_orm"; "parse_file"; "parse_obj"; "parse_raw";
   "schema"; "schema_json"; "update_forward_refs"; "validate"].

(** The two date parsers on date-only text: [fromisoformat] takes
    [YYYY-MM-DD]; [strptime(_, "%Y-%m-%d")] also takes one-digit months and
    days.  Text carrying a time of day is outside this instance, as are
    the text [str] gives for floats and containers and the upper case of
    text that is not ASCII. *)
Definition DateOnly {C : Carrier} : PyBuiltins := {|
  str_other := str_of_scalar;
  upper_other := upper;
  fromisoformat_ok := calendar_date 2;
  strptime_ymd_ok := calendar_date 1;
  inherited_attribute := fun name => str_in name base_model_names
|}.

(** Decimal literals of the two instances. *)
Definition f64 (m : Z) (e : nat) : @num binary64 := @f_dec binary64 Float64 m e.


(** The bounds on the arithmetic that the aggregate confidence relies
    on, for the three critical fields at most: a sum that lies between 0
    and the count so far stays so when a confidence is added, and such a
    sum divided by its count lies within [0, 1].  Exact rationals satisfy
    them, and so does round-to-nearest binary64. *)
Class PyFloatLaws {C : Carrier} (F : PyFloatOps) : Prop := {
  leb_zero_zero : f_leb f_zero f_zero = true;
  leb_zero_one : f_leb f_zero f_one = true;
  count_zero :
    f_leb f_zero (f_of_len 0) = true
    /\ f_leb (f_of_len 0) (f_of_len 0) = true;
  add_count : forall (k : nat) (acc x : num),
    (k < 3)%nat ->
    f_leb f_zero acc = true -> f_leb acc (f_of_len k) = true ->
    in_unit x = true ->
    f_leb f_zero (f_add acc x) = true
    /\ f_leb (f_add acc x) (f_of_len (S k)) = true;
  div_count : forall (k : nat) (acc : num),
    (1 <= k <= 3)%nat ->
    f_leb f_zero acc = true -> f_leb acc (f_of_len k) = true ->
    in_unit (f_div acc (f_of_len k)) = true
}.

(* ================================================================== *)
(** ** Sample documents *)

Section Samples.

Context {C : Carrier} {F : PyFloatOps}.

(** A vendor-A entry [{"value": v, "confidence": c}]. *)
Definition field_a (v : PyVal) (c : num) : PyVal :=
  PyDict [("value", v); ("confidence", PyFloat c)].

(** A vendor-B entry [{"text": v, "score": c}]. *)
Definition field_b (v : PyVal) (c : num) : PyVal :=
  PyDict [("text", v); ("score", PyFloat c)].

(** An audit record as the normaliser stamps it. *)
Definition audit_of (v : PyVal) (c : num) : FieldAudit :=
  {| value := v; confidence := c; evidence := Some (Evidence_page 1);
     pipeline_version := "1.0.0"; vendor_version := "v1";
     vendor_field_name := None |}.

(** A record with every slot absent. *)
Definition empty_invoice : InvoiceSchema :=
  {| invoice_number := None; invoice_date := None; supplier_name := None;
     supplier_id := None; currency := None; subtotal := None; tax := None;
     total := None; po_number := None; line_items := None;
     doc_id := "doc-1"; extraction_timestamp := 0%Z;
     vendor_name := "vendor_a"; raw_vendor_output := [] |}.

(** An invoice of subtotal 100.00 and tax 8.00 in USD with the given
    total, every field at the given confidence, with or without a PO
    number. *)
Definition invoice_100_8 (total : PyVal) (conf : num) (po : bool)
  : InvoiceSchema :=
  {| invoice_number := Some (audit_of (PyStr "INV-001") conf);
     invoice_date := Some (audit_of (PyStr "2024-01-15") conf);
     supplier_name := Some (audit_of (PyStr "Acme Corp") conf);
     supplier_id := None;
     currency := Some (audit_of (PyStr "USD") conf);
     subtotal := Some (audit_of (PyFloat (f_dec 10000 2)) conf);
     tax := Some (audit_of (PyFloat (f_dec 800 2)) conf);
     total := Some (audit_of total conf);
     po_number := if po then Some (audit_of (PyStr "PO-7") conf) else None;
     line_items := None;
     doc_id := "doc-1"; extraction_timestamp := 0%Z;
     vendor_name := "vendor_a"; raw_vendor_output := [] |}.

(** The same record with the invoice date not extracted. *)
Definition without_invoice_date (i : InvoiceSchema) : InvoiceSchema :=
  {| invoice_number := invoice_number i; invoice_date := None;
     supplier_name := supplier_name i; supplier_id := supplier_id i;
     currency := currency i; subtotal := subtotal i; tax := tax i;
     total := total i; po_number := po_number i; line_items := line_items i;
     doc_id := doc_id i; extraction_timestamp := extraction_timestamp i;
     vendor_name := vendor_name i; raw_vendor_output := raw_vendor_output i |}.

(** The same record with no subtotal and no tax extracted. *)
Definition without_amounts (i : InvoiceSchema) : InvoiceSchema :=
  {| invoice_number := invoice_number i; invoice_date := invoice_date i;
     supplier_name := supplier_name i; supplier_id := supplier_id i;
     currency := currency i; subtotal := None; tax := None;
     total := total i; po_number := po_number i; line_items := line_items i;
     doc_id := doc_id i; extraction_timestamp := extraction_timestamp i;
     vendor_name := vendor_name i; raw_vendor_output := raw_vendor_output i |}.

(** A validation result with every check passed. *)
Definition all_passed : ValidationResult :=
  {| passed := true;
     checks := [("required_fields_present", true);
                ("date_format_valid", true);
                ("currency_valid", true);
                ("reconciliation_pass", true);
                ("total_within_threshold", true);
                ("po_present", true)];
     errors := [];
     warnings := [] |}.

End Samples.

(* ================================================================== *)
(** ** The routing rules as the specification words them *)

Section SpecWords.

Context {C : Carrier} {F : PyFloatOps}.

Variable self : Validator.

(** The specification's collection rule: a critical field is collected
    when its confidence is below the threshold or when its slot is
    absent. *)
Definition spec_is_low_confidence (invoice : InvoiceSchema) (field : string)
  : bool :=
  match slot invoice field with
  | Some field_audit =>
      f_ltb (confidence field_audit) (low_confidence_threshold self)
  | None => true
  end.

Definition spec_low_confidence_fields (invoice : InvoiceSchema) : list string :=
  filter (spec_is_low_confidence invoice) critical_fields.

(** The audits of the critical fields that are present, in the order
    invoice_number, total, invoice_date. *)
Definition present_critical (invoice : InvoiceSchema) : list FieldAudit :=
  let keep o := match o with Some a => [a] | None => [] end in
  keep (invoice_number invoice) ++ keep (total invoice)
    ++ keep (invoice_date invoice).

(** The arithmetic mean of a list of floats, summed as the builtin
    does. *)
Definition arithmetic_mean (xs : list num) : num :=
  f_div (py_sum xs) (f_of_len (List.length xs)).

(** The specification's aggregate confidence. *)
Definition spec_aggregate_confidence (invoice : InvoiceSchema) : num :=
  match present_critical invoice with
  | [] => f_zero
  | present => arithmetic_mean (map confidence present)
  end.

(** The schema invariant on a record: every slot's confidence lies
    within [0, 1]. *)
Definition confidences_in_unit (invoice : InvoiceSchema) : Prop :=
  forall field a, slot invoice field = Some a -> in_unit (confidence a) = true.

End SpecWords.

(** The default validator and the sample invoice (total in cents,
    confidence in hundredths) on each instance. *)
Definition validator64 : Validator := default_Validator (F:=Float64).

Definition sample64 (total_cents confidence_pct : Z) (po : bool)
  : InvoiceSchema :=
  invoice_100_8 (F:=Float64) (PyFloat (f64 total_cents 2))
    (f64 confidence_pct 2) po.



(** The same record with the given currency slot. *)
Definition with_currency {C : Carrier} (i : InvoiceSchema)
    (c : option FieldAudit) : InvoiceSchema :=
  {| invoice_number := invoice_number i; invoice_date := invoice_date i;
     supplier_name := supplier_name i; supplier_id := supplier_id i;
     currency := c; subtotal := subtotal i; tax := tax i;
     total := total i; po_number := po_number i; line_items := line_items i;
     doc_id := doc_id i; extraction_timestamp := extraction_timestamp i;
     vendor_name := vendor_name i; raw_vendor_output := raw_vendor_output i |}.

(** [Validator(currency_tolerance={"EUR": 0.05})]. *)
Definition validator_eur64 : Validator :=
  Validator_init (F:=Float64) (Some [("EUR", f64 5 2)])
    (default_high_total_threshold (F:=Float64))
    (default_low_confidence_threshold (F:=Float64)) None.

(** The sample invoice with its currency extracted as the given text. *)
Definition sample64_in (code : string) (total_cents : Z) : InvoiceSchema :=
  with_currency (sample64 total_cents 90 true)
    (Some (audit_of (C:=binary64) (PyStr code) (f64 90 2))).

(** [Validator(required_fields=["invoice_number", "doc_id"])]. *)
Definition validator_doc_id64 : Validator :=
  Validator_init (F:=Float64) None
    (default_high_total_threshold (F:=Float64))
    (default_low_confidence_threshold (F:=Float64))
    (Some ["invoice_number"; "doc_id"]).

(** Vendor-A and vendor-B outputs for one document whose total entry
    holds the given value at confidence 0.9. *)
Definition vendor_a_output {C : Carrier} {F : PyFloatOps} (total : PyVal)
    (total_confidence : num) : pydict :=
  [("document_id", PyStr "doc-1");
   ("fields",
    PyDict [("invoice_number", field_a (PyStr "INV-001") (f_dec 9 1));
            ("invoice_date", field_a (PyStr "2024-01-15") (f_dec 9 1));
            ("supplier_name", field_a (PyStr "Acme Corp") (f_dec 9 1));
            ("currency", field_a (PyStr "USD") (f_dec 9 1));
            ("subtotal", field_a (PyFloat (f_dec 10000 2)) (f_dec 9 1));
            ("tax", field_a (PyFloat (f_dec 800 2)) (f_dec 9 1));
            ("total", field_a total total_confidence);
            ("po_number", field_a (PyStr "PO-7") (f_dec 9 1))])].

Definition vendor_b_output {C : Carrier} {F : PyFloatOps} (total : PyVal)
    (total_confidence : num) : pydict :=
  [("id", PyStr "doc-1");
   ("extracted_data",
    PyDict
      [("financial",
        PyDict [("invoice_num", field_b (PyStr "INV-001") (f_dec 9 1));
                ("date", field_b (PyStr "2024-01-15") (f_dec 9 1));
                ("vendor_name", field_b (PyStr "Acme Corp") (f_dec 9 1));
                ("currency_code", field_b (PyStr "USD") (f_dec 9 1));
                ("amount_before_tax", field_b (PyStr "100.00") (f_dec 9 1));
                ("tax_amount", field_b (PyStr "8.00") (f_dec 9 1));
                ("amount_due", field_b total total_confidence);
                ("purchase_order", field_b (PyStr "PO-7") (f_dec 9 1))])])].

(** A vendor-A output whose entry with the confidence 1.5 sits under a
    key that is no field name. *)
Definition vendor_a_unread_entry : pydict (C:=binary64) :=
  [("document_id", PyStr "doc-1");
   ("fields",
    PyDict [("invoice_number", field_a (C:=binary64) (PyStr "INV-001") (f64 9 1));
            ("notes", field_a (C:=binary64) (PyStr "rush") (f64 15 1))])].

(** The [vendor_name] of a record and the [vendor_version] of an audit,
    under names that the parameters of [normalize] do not shadow. *)
Definition record_vendor_name {C : Carrier} (i : InvoiceSchema) : string :=
  vendor_name i.

Definition audit_vendor_version {C : Carrier} (a : FieldAudit) : string :=
  vendor_version a.

(** The record with its clock reading replaced. *)
Definition with_timestamp {C : Carrier} (t : datetime) (i : InvoiceSchema)
  : InvoiceSchema :=
  {| invoice_number := invoice_number i; invoice_date := invoice_date i;
     supplier_name := supplier_name i; supplier_id := supplier_id i;
     currency := currency i; subtotal := subtotal i; tax := tax i;
     total := total i; po_number := po_number i; line_items := line_items i;
     doc_id := doc_id i; extraction_timestamp := t;
     vendor_name := vendor_name i; raw_vendor_output := raw_vendor_output i |}.

(** Steps 2 to 4 of [process_invoice] in run_azure_pipeline.py:
    normalise, validate, route. *)
Definition core_pipeline {C : Carrier} {F : PyFloatOps} {B : PyBuiltins}
    (normalizer : Normalizer) (validator : Validator) (now : datetime)
    (vendor_output : pydict) (vendor_name vendor_version : string)
  : result (InvoiceSchema * ValidationResult * RoutingDecision) :=
  normalized <- normalize normalizer now vendor_output vendor_name
                  vendor_version ;;
  validation <- validate validator normalized ;;
  routing <- route validator normalized validation ;;
  Ok (normalized, validation, routing).

(* ================================================================== *)
(** ** Well-formed vendor outputs *)

Section WellFormed.

Context {C : Carrier} {F : PyFloatOps}.

(** A property of the value under a key, when the key is there. *)
Definition when_present (P : PyVal -> Prop) (o : option PyVal) : Prop :=
  match o with
  | Some v => P v
  | None => True
  end.

(** A vendor-reported confidence that the schema accepts: it validates
    as a float and lies within [0, 1]. *)
Definition confidence_ok (v : PyVal) : Prop :=
  exists c, pydantic_float v = Ok c /\ in_unit c = true.

(** A value the validator can read as an amount: null, or something
    [float] converts. *)
Definition amount_ok (v : PyVal) : Prop :=
  v = PyNone \/ exists x, py_float v = Ok x.

Definition float_field_ok (v : PyVal) : Prop :=
  exists x, pydantic_float v = Ok x.

(** A vendor-A entry for a canonical field: a mapping whose confidence,
    when given, is acceptable and whose value, for a numeric field, is an
    amount. *)
Definition entry_ok_a (field : string) (e : PyVal) : Prop :=
  exists d, e = PyDict d
    /\ when_present confidence_ok (dict_get d "confidence")
    /\ (str_in field numeric_fields = true ->
        amount_ok (dict_get_default d "value" PyNone)).

(** A vendor-B entry: a mapping whose score, when given, is acceptable
    and whose text, for a numeric field, is not an int beyond the float
    range. *)
Definition entry_ok_b (canonical_field : string) (e : PyVal) : Prop :=
  exists d, e = PyDict d
    /\ when_present confidence_ok (dict_get d "score")
    /\ (str_in canonical_field numeric_fields = true ->
        py_float (dict_get_default d "text" PyNone) <> Raise OverflowError).

(** A line item: a mapping with a str description, float-or-null
    quantity and unit price, a float amount and an acceptable confidence,
    each when given. *)
Definition item_ok (k_description k_quantity k_unit_price k_amount
    k_confidence : string) (item : PyVal) : Prop :=
  exists d, item = PyDict d
    /\ when_present (fun v => exists s, v = PyStr s) (dict_get d k_description)
    /\ when_present (fun v => v = PyNone \/ float_field_ok v)
         (dict_get d k_quantity)
    /\ when_present (fun v => v = PyNone \/ float_field_ok v)
         (dict_get d k_unit_price)
    /\ when_present float_field_ok (dict_get d k_amount)
    /\ when_present confidence_ok (dict_get d k_confidence).

Definition items_ok (ok : PyVal -> Prop) (items : PyVal) : Prop :=
  exists l, items = PyList l /\ Forall ok l.

(** The identifier [normalize] picks is a str. *)
Definition doc_id_ok (output : pydict) : Prop :=
  exists s,
    py_or (dict_get_default output "document_id" PyNone)
      (dict_get_default output "id" (PyStr "unknown")) = PyStr s.

Definition well_formed_a (output : pydict) : Prop :=
  when_present
    (fun fields =>
       exists d, fields = PyDict d
         /\ forall field, In field slot_names ->
                          when_present (entry_ok_a field) (dict_get d field))
    (dict_get output "fields")
  /\ when_present
       (items_ok (item_ok "description" "quantity" "unit_price" "amount"
                    "confidence"))
       (dict_get output "line_items").

Definition well_formed_b (output : pydict) : Prop :=
  when_present
    (fun extracted =>
       exists d, extracted = PyDict d
         /\ when_present
              (fun financial =>
                 exists fd, financial = PyDict fd
                   /\ forall vendor_field canonical_field,
                        In (vendor_field, canonical_field) field_mapping ->
                        when_present (entry_ok_b canonical_field)
                          (dict_get fd vendor_field))
              (dict_get d "financial")
         /\ when_present
              (items_ok (item_ok "desc" "qty" "price" "line_total" "score"))
              (dict_get d "items"))
    (dict_get output "extracted_data").

(** Well-formed for the shape [normalize] reads under the vendor name. *)
Definition well_formed (vendor_name : string) (output : pydict) : Prop :=
  doc_id_ok output
  /\ if String.eqb vendor_name "vendor_a" then well_formed_a output
     else if String.eqb vendor_name "vendor_b" then well_formed_b output
     else well_formed_a output.

(** What a built slot satisfies: its confidence is in range and, in a
    numeric field, its value is a readable amount. *)
Definition audit_ok (field : string) (o : option FieldAudit) : Prop :=
  forall a, o = Some a ->
            in_unit (confidence a) = true
            /\ (str_in field numeric_fields = true -> amount_ok (value a)).

(** Every numeric field collected so far holds a float. *)
Definition floats_in_numeric_fields (nf : list (string * FieldAudit)) : Prop :=
  forall k a, str_in k numeric_fields = true -> dict_get nf k = Some a ->
              exists x, value a = PyFloat x.

(** The amounts of a record are readable. *)
Definition amounts_ok (r : InvoiceSchema) : Prop :=
  forall field a, str_in field numeric_fields = true ->
                  slot r field = Some a -> amount_ok (value a).

(** Every required field names one of the nine slots. *)
Definition required_fields_are_slots (self : Validator) : Prop :=
  Forall (fun field => str_in field slot_names = true) (required_fields self).

End WellFormed.

(** What [validate] gives on the sample invoice without a PO number. *)
Definition passed_without_po : ValidationResult (C:=binary64) :=
  {| passed := true;
     checks := [("required_fields_present", true);
                ("date_format_valid", true);
                ("currency_valid", true);
                ("reconciliation_pass", true);
                ("total_within_threshold", true);
                ("po_present", false)];
     errors := [];
     warnings := [PONumberMissing] |}.

(** The decision [route] builds on the sample invoice at a given
    confidence, with every check passed. *)
Definition sample_decision (confidence_pct : Z) (outcome : string)
  : RoutingDecision (C:=binary64) :=
  {| outcome := outcome; reason_codes := [];
     confidence_score :=
       overall_confidence (F:=Float64) (sample64 10800 confidence_pct true) |}.

(** The checks that report through [errors]. *)
Definition hard_checks : list string :=
  ["required_fields_present"; "date_format_valid"; "currency_valid";
   "reconciliation_pass"].

(** How a check leaves the list it was given: untouched when it answers
    [true], one message longer when it answers [false]. *)
Definition grows {C : Carrier} (b : bool) (acc acc' : list message) : Prop :=
  if b then acc' = acc else exists m, acc' = acc ++ [m].

(* ================================================================== *)
(** ** Readings of the checks *)

Section CheckReadings.

Context {C : Carrier} {F : PyFloatOps}.

(** A required field counts as missing when its slot is absent or holds
    a null value. *)
Definition is_missing (invoice : InvoiceSchema) (field : string) : bool :=
  match slot invoice field with
  | Some a => is_none (value a)
  | None => true
  end.

Definition soft_checks : list string :=
  ["total_within_threshold"; "po_present"].

(** The names [validate] stores in [checks], in the order it runs them. *)
Definition check_names : list string := hard_checks ++ soft_checks.

(** How many of the named checks a result reports as failed. *)
Definition count_failed (r : ValidationResult) (names : list string) : nat :=
  List.length (filter (check_failed r) names).

(** Every reason code [route] can emit for an invoice, in the order it
    appends them. *)
Definition all_reason_codes (self : Validator) (invoice : InvoiceSchema)
  : list string :=
  ["VALIDATION_FAILED"; "TOTAL_MISMATCH"; "MISSING_REQUIRED_FIELDS";
   "LOW_CONFIDENCE"; low_conf_code (low_confidence_fields self invoice);
   "HIGH_TOTAL"; "MISSING_PO"].

(** A tolerance table without the entries whose key is not its own
    upper-case form. *)
Definition upper_case_keys {B : PyBuiltins} (table : list (string * num))
  : list (string * num) :=
  filter (fun kv => String.eqb (str_upper (fst kv)) (fst kv)) table.

(** The currency text the record holds, if any, is ASCII. *)
Definition ascii_currency {B : PyBuiltins} (invoice : InvoiceSchema) : Prop :=
  forall a, currency invoice = Some a -> truthy (value a) = true ->
            is_ascii (py_str (value a)) = true.

(** The validator with another tolerance table. *)
Definition with_currency_tolerance (self : Validator)
    (table : list (string * num)) : Validator :=
  {| currency_tolerance := table;
     high_total_threshold := high_total_threshold self;
     low_confidence_threshold := low_confidence_threshold self;
     required_fields := required_fields self |}.

End CheckReadings.

(* ================================================================== *)
(** ** Parts of the normalisers, named *)

Section NormalizerParts.

Context {C : Carrier} {F : PyFloatOps}.

Variable self : Normalizer.

(** The line-item block of [_normalize_vendor_a]. *)
Definition line_items_a (vendor_version : string) (output : pydict)
  : result (option (list LineItem)) :=
  if dict_has output "line_items" then
    container <- py_getitem (PyDict output) "line_items" ;;
    items <- py_iter container ;;
    l <- mapM (line_item_a self vendor_version) items ;;
    Ok (Some l)
  else Ok None.

(** The line-item block of [_normalize_vendor_b]. *)
Definition line_items_b (vendor_version : string) (output : pydict)
  : result (option (list LineItem)) :=
  items <-
    py_get (dict_get_default output "extracted_data" (PyDict []))
      "items" (PyList []) ;;
  if truthy items then
    items' <- py_iter items ;;
    l <- mapM (line_item_b self vendor_version) items' ;;
    Ok (Some l)
  else Ok None.

(** The audit [FieldAudit(value=..., confidence=..., ...)] stamps for a
    normaliser, a vendor version and a vendor field name. *)
Definition stamped (vendor_version vendor_field : string) (v : PyVal)
    (c : num) : FieldAudit :=
  {| value := v; confidence := c; evidence := Some (Evidence_page 1);
     pipeline_version := self_pipeline_version self;
     vendor_version := vendor_version;
     vendor_field_name := Some vendor_field |}.

(** The document identifier [normalize] passes on. *)
Definition picked_doc_id (vendor_output : pydict) : PyVal :=
  py_or (dict_get_default vendor_output "document_id" PyNone)
    (dict_get_default vendor_output "id" (PyStr "unknown")).

(** The record with another vendor name. *)
Definition with_vendor_name (n : string) (i : InvoiceSchema) : InvoiceSchema :=
  {| invoice_number := invoice_number i; invoice_date := invoice_date i;
     supplier_name := supplier_name i; supplier_id := supplier_id i;
     currency := currency i; subtotal := subtotal i; tax := tax i;
     total := total i; po_number := po_number i; line_items := line_items i;
     doc_id := doc_id i; extraction_timestamp := extraction_timestamp i;
     vendor_name := n; raw_vendor_output := raw_vendor_output i |}.

(** The vendor-B key of a canonical field. *)
Definition vendor_b_key (canonical_field : string) : option string :=
  option_map fst
    (find (fun kv => String.eqb (snd kv) canonical_field) field_mapping).

(** The float a line-item key yields: the value the schema converts, or
    the default 0.0 when the key is missing. *)
Definition float_or_default (d : pydict) (k : string) : result num :=
  pydantic_float (dict_get_default d k (PyFloat f_zero)).

End NormalizerParts.

(* ================================================================== *)
(** ** What a line item reads from a vendor's item *)

Section LineItemReadings.

Context {C : Carrier} {F : PyFloatOps}.

Variable self : Normalizer.

(** The line item [li] holds what the schema converts from the keys of
    the vendor's item [raw], with the defaults of the loop for missing
    keys, and keeps the item itself as the audited value. *)
Definition reads_item (k_description k_quantity k_unit_price k_amount
    k_confidence : string) (vendor_version : string) (raw : PyVal)
    (li : LineItem) : Prop :=
  exists d,
    raw = PyDict d
    /\ pydantic_str (dict_get_default d k_description (PyStr ""))
       = Ok (description li)
    /\ pydantic_opt_float (dict_get_default d k_quantity PyNone)
       = Ok (quantity li)
    /\ pydantic_opt_float (dict_get_default d k_unit_price PyNone)
       = Ok (unit_price li)
    /\ pydantic_float (dict_get_default d k_amount (PyFloat f_zero))
       = Ok (amount li)
    /\ pydantic_float (dict_get_default d k_confidence (PyFloat f_zero))
       = Ok (confidence (audit li))
    /\ audit li
       = stamped self vendor_version "line_item" raw (confidence (audit li)).

(** The value under ["items"] that [_normalize_vendor_b] loops over. *)
Definition vendor_b_items (output : pydict) : result PyVal :=
  py_get (dict_get_default output "extracted_data" (PyDict []))
    "items" (PyList []).

(** The value under ["fields"] that [_normalize_vendor_a] reads. *)
Definition vendor_a_fields (output : pydict) : PyVal :=
  dict_get_default output "fields" (PyDict []).

(** The value under ["financial"] that [_normalize_vendor_b] reads. *)
Definition vendor_b_financial (output : pydict) : result PyVal :=
  py_get (dict_get_default output "extracted_data" (PyDict []))
    "financial" (PyDict []).

End LineItemReadings.

(* ================================================================== *)
(** ** business_analyzer.py, and the input [process_invoice] gives it *)

Section BusinessAnalyzerPy.

Context {C : Carrier} {F : PyFloatOps}.

(** [v > n] for an int literal [n].  Python compares a float with an
    int by value; the literals of the analyser (1000, 10000, 50000,
    100000) are floats exactly, so this is the comparison with the float
    of the literal.  Text, [None] and containers raise [TypeError]. *)
Definition py_gt_int (v : PyVal) (n : Z) : result bool :=
  match v with
  | PyInt z => Ok (Z.ltb n z)
  | PyBool b => Ok (Z.ltb n (if b then 1 else 0))
  | PyFloat x => Ok (f_ltb (f_dec n 0) x)
  | _ => Raise TypeError
  end.

(** [v < 0.7].  An int is below 0.7 exactly when it is at most 0. *)
Definition py_lt_0_7 (v : PyVal) : result bool :=
  match v with
  | PyFloat x => Ok (f_ltb x (f_dec 7 1))
  | PyInt z => Ok (Z.leb z 0)
  | PyBool b => Ok (negb b)
  | _ => Raise TypeError
  end.

Definition is_number (v : PyVal) : bool :=
  match v with
  | PyInt _ | PyBool _ | PyFloat _ => true
  | _ => false
  end.

Definition _calculate_priority (total : PyVal) (invoice_data : pydict)
  : result string :=
  if negb (truthy total) then Ok "MEDIUM"
  else
    critical <- py_gt_int total 50000 ;;
    if critical then Ok "CRITICAL"
    else
      high <- py_gt_int total 10000 ;;
      if high then Ok "HIGH"
      else
        medium <- py_gt_int total 1000 ;;
        if medium then Ok "MEDIUM" else Ok "LOW".

Definition _determine_urgency (invoice_data : pydict) : result string :=
  let total := py_or (dict_get_default invoice_data "total" PyNone) (PyInt 0) in
  urgent <- py_gt_int total 100000 ;;
  if urgent then Ok "URGENT"
  else
    normal <- py_gt_int total 50000 ;;
    if normal then Ok "NORMAL" else Ok "LOW".

Definition _assess_risk (invoice_data : pydict) (total : PyVal)
  : result string :=
  let validation_passed :=
    dict_get_default invoice_data "validation_passed" (PyBool false) in
  confidence <-
    py_get (dict_get_default invoice_data "confidence_scores" (PyDict []))
      "total" (PyFloat f_one) ;;
  if negb (truthy validation_passed) then Ok "HIGH"
  else
    low <- py_lt_0_7 confidence ;;
    if low then Ok "HIGH"
    else
      large <- py_gt_int total 100000 ;;
      if large then Ok "MEDIUM" else Ok "LOW".

(** The levels of [analyze_invoice], in the order it computes them:
    priority, urgency, risk.  (The category, the cost, the payment
    terms and the quality are left out.) *)
Definition analysis_total (invoice_data : pydict) : PyVal :=
  py_or (dict_get_default invoice_data "total" PyNone) (PyInt 0).

Definition analyze_invoice_levels (invoice_data : pydict)
  : result (string * string * string) :=
  let total := analysis_total invoice_data in
  priority <- _calculate_priority total invoice_data ;;
  urgency <- _determine_urgency invoice_data ;;
  risk_level <- _assess_risk invoice_data total ;;
  Ok (priority, urgency, risk_level).

(** [x.value if x else None] and [x.confidence if x else 0] of step 5 of
    [process_invoice]. *)
Definition value_or_none (x : option FieldAudit) : PyVal :=
  match x with
  | Some a => value a
  | None => PyNone
  end.

Definition confidence_or_0 (x : option FieldAudit) : PyVal :=
  match x with
  | Some a => PyFloat (confidence a)
  | None => PyInt 0
  end.

(** The dict step 5 of [process_invoice] passes to [analyze_invoice]. *)
Definition insights_input (normalized : InvoiceSchema)
    (validation : ValidationResult) : pydict :=
  [("total", value_or_none (total normalized));
   ("supplier_name", value_or_none (supplier_name normalized));
   ("invoice_number", value_or_none (invoice_number normalized));
   ("invoice_date", value_or_none (invoice_date normalized));
   ("validation_passed", PyBool (passed validation));
   ("confidence_scores",
    PyDict [("total", confidence_or_0 (total normalized));
            ("invoice_number", confidence_or_0 (invoice_number normalized))])].

End BusinessAnalyzerPy.

(** The order facts the levels rely on: the comparisons are transitive,
    and the literal 50000 is below the literal 100000.  Exact rationals
    and binary64 both satisfy them. *)
Class PyOrderLaws {C : Carrier} (F : PyFloatOps) : Prop := {
  ltb_trans : forall a b c,
    f_ltb a b = true -> f_ltb b c = true -> f_ltb a c = true;
  ltb_leb_trans : forall a b c,
    f_ltb a b = true -> f_leb b c = true -> f_ltb a c = true;
  critical_below_urgent : f_ltb (f_dec 50000 0) (f_dec 100000 0) = true
}.

(* ================================================================== *)
(** ** What the validator reads of a record *)

Section Readings.

Context {C : Carrier}.

(** The value and the confidence of a slot. *)
Definition reading (x : option FieldAudit) : option (PyVal * num) :=
  option_map (fun a => (value a, confidence a)) x.

(** Two records with the same value and confidence in every slot, and
    line items in both or in neither. *)
Definition same_readings (i j : InvoiceSchema) : Prop :=
  (forall field, reading (slot i field) = reading (slot j field))
  /\ (line_items i = None <-> line_items j = None).

End Readings.

(* ================================================================== *)
(** ** Sample vendor outputs with line items *)

Section ItemSamples.

Context {C : Carrier} {F : PyFloatOps}.

(** A vendor-A item: two widgets at 50.00. *)
Definition item_a : PyVal :=
  PyDict [("description", PyStr "Widget"); ("quantity", PyInt 2);
          ("unit_price", PyFloat (f_dec 5000 2));
          ("amount", PyFloat (f_dec 10000 2));
          ("confidence", PyFloat (f_dec 9 1))].

(** The same item under vendor B's keys. *)
Definition item_b : PyVal :=
  PyDict [("desc", PyStr "Widget"); ("qty", PyInt 2);
          ("price", PyFloat (f_dec 5000 2));
          ("line_total", PyFloat (f_dec 10000 2));
          ("score", PyFloat (f_dec 9 1))].

(** A vendor-A output with the given list under "line_items". *)
Definition with_items_a (output : pydict) (items : list PyVal) : pydict :=
  dict_set output "line_items" (PyList items).

(** A vendor-B output with the given list under "items". *)
Definition with_items_b (output : pydict) (items : list PyVal) : pydict :=
  dict_set output "extracted_data"
    (match dict_get_default output "extracted_data" (PyDict []) with
     | PyDict d => PyDict (dict_set d "items" (PyList items))
     | other => other
     end).

End ItemSamples.


(* ================================================================== *)
(** ** Values of binary64 numbers *)

Section Binary64Values.

Local Open Scope Z_scope.

(** The weight of an exponent, scaled so that every exponent the
    operations meet has an integer weight. *)
Definition weight (e : Z) : Z := 2 ^ (e + 3000).

(** The record [b] is the record [a] shifted right by [n] bits: the
    mantissa is divided by [2 ^ n], and no bit was lost exactly when the
    result carries neither the round nor the sticky bit. *)
Definition shr_steps (n : Z) (a b : shr_record) : Prop :=
  shr_m b = shr_m a / 2 ^ n
  /\ (shr_r b || shr_s b = false <->
      shr_r a || shr_s a = false /\ shr_m a mod 2 ^ n = 0).

(** A mantissa that fills the 53 bits unless the exponent is the least
    one. *)
Definition filled (m e : Z) : Prop :=
  -1074 <= e /\ (-1074 < e -> 2 ^ 52 <= m).

(** The value of a finite number, in units of the least weight. *)
Definition sf_value (f : spec_float) : Z :=
  match f with
  | S754_finite _ m e => Zpos m * weight e
  | _ => 0
  end.

(** A valid number that is zero, or positive and finite with a value of
    at most [v]. *)
Definition below (x : spec_float) (v : Z) : Prop :=
  match x with
  | S754_zero _ => 0 <= v
  | S754_finite false m e =>
      valid_binary prec emax x = true /\ Zpos m * weight e <= v
  | _ => False
  end.

(** The number 1.0. *)
Definition sf_one : spec_float := S754_finite false 4503599627370496 (-52).

(** A bound: zero, or a positive finite number. *)
Definition sf_bound (k : spec_float) : Prop :=
  (exists s, k = S754_zero s) \/ (exists m e, k = S754_finite false m e).

End Binary64Values.

(* ================================================================== *)
(** * The decimal literals of the source in binary64 *)

(** [0.7], [0.01], [100000.0] and [108.02] are the doubles Python reads
    from these literals. *)
Example f64_literals :
  f64 7 1 = 0x1.6666666666666p-1%float
  /\ f64 1 2 = 0x1.47ae147ae147bp-7%float
  /\ f64 100000 0 = 0x1.86ap+16%float
  /\ f64 10802 2 = 0x1.b0147ae147ae1p+6%float
  /\ f_of_string (PyFloatOps:=Float64) "108.02" = Some (f64 10802 2)
  /\ f_of_string (PyFloatOps:=Float64) "abc" = None.
Proof. repeat split; vm_compute; reflexivity. Qed.

(* ================================================================== *)
(** * Facts about the validator *)

Section ValidatorFacts.

Context {C : Carrier} {F : PyFloatOps} {B : PyBuiltins}.

Variable self : Validator.

Lemma grows_nil_iff (b : bool) (acc acc' : list message) :
  grows b acc acc' -> (acc' = [] <-> b = true /\ acc = []).
Proof.
  destruct b; simpl.
  - intros ->; intuition.
  - intros [m ->]; split.
    + intros H; apply app_eq_nil in H; destruct H; discriminate.
    + intros [H _]; discriminate.
Qed.

Ltac ok_inv H := inversion H; subst; clear H.

Lemma required_fields_grows invoice errors b errors' :
  _check_required_fields self invoice errors = Ok (b, errors') ->
  grows b errors errors'.
Proof.
  unfold _check_required_fields.
  destruct (required_loop invoice (required_fields self) []) as [[|f l]|e];
    simpl; intros H; try discriminate; ok_inv H; simpl; eauto.
Qed.

Lemma date_format_total invoice errors :
  exists b errors', _check_date_format invoice errors = Ok (b, errors')
                    /\ grows b errors errors'.
Proof.
  unfold _check_date_format.
  destruct (invoice_date invoice) as [a|]; [|exists true, errors; simpl; auto].
  destruct (value a) as [|b|z|x|s|t|l|d];
    try (exists true, errors; split; [reflexivity|simpl; auto]; fail);
    try (eexists false, _; split; [reflexivity|simpl; eauto]; fail).
  destruct (fromisoformat_ok (replace_Z s));
    [exists true, errors; split; [reflexivity|simpl; auto]|].
  destruct (strptime_ymd_ok s);
    [exists true, errors; split; [reflexivity|simpl; auto]|].
  eexists false, _; split; [reflexivity|simpl; eauto].
Qed.

Lemma date_format_grows invoice errors b errors' :
  _check_date_format invoice errors = Ok (b, errors') ->
  grows b errors errors'.
Proof.
  destruct (date_format_total invoice errors) as (b0 & e0 & -> & G).
  intros H; ok_inv H; exact G.
Qed.

Lemma currency_total invoice errors :
  exists b errors', _check_currency invoice errors = Ok (b, errors')
                    /\ grows b errors errors'.
Proof.
  unfold _check_currency.
  destruct (currency invoice) as [a|]; [|exists true, errors; simpl; auto].
  destruct (is_none (value a)); [exists true, errors; simpl; auto|].
  destruct (negb _).
  - eexists false, _; split; [reflexivity|simpl; eauto].
  - exists true, errors; simpl; auto.
Qed.

Lemma currency_grows invoice errors b errors' :
  _check_currency invoice errors = Ok (b, errors') ->
  grows b errors errors'.
Proof.
  destruct (currency_total invoice errors) as (b0 & e0 & -> & G).
  intros H; ok_inv H; exact G.
Qed.

Lemma reconciliation_grows invoice errors b errors' :
  _check_reconciliation self invoice errors = Ok (b, errors') ->
  grows b errors errors'.
Proof.
  unfold _check_reconciliation.
  destruct (subtotal invoice) as [s|]; [|intros H; ok_inv H; simpl; auto].
  destruct (tax invoice) as [t|]; [|intros H; ok_inv H; simpl; auto].
  destruct (total invoice) as [tot|]; [|intros H; ok_inv H; simpl; auto].
  destruct (float_or_zero (value s)) as [x|]; simpl; [|discriminate].
  destruct (float_or_zero (value t)) as [y|]; simpl; [|discriminate].
  destruct (float_or_zero (value tot)) as [z|]; simpl; [|discriminate].
  destruct (f_gtb _ _); intros H; ok_inv H; simpl; eauto.
Qed.

Lemma total_threshold_grows invoice warnings b warnings' :
  _check_total_threshold self invoice warnings = Ok (b, warnings') ->
  grows b warnings warnings'.
Proof.
  unfold _check_total_threshold.
  destruct (total invoice) as [a|]; [|intros H; ok_inv H; simpl; auto].
  destruct (is_none (value a)); [intros H; ok_inv H; simpl; auto|].
  destruct (py_float (value a)) as [x|]; simpl; [|discriminate].
  destruct (f_gtb _ _); intros H; ok_inv H; simpl; eauto.
Qed.

Lemma po_present_total invoice warnings :
  exists b warnings', _check_po_present invoice warnings = Ok (b, warnings')
                      /\ grows b warnings warnings'.
Proof.
  unfold _check_po_present.
  destruct (po_number invoice) as [a|].
  - destruct (is_none (value a)).
    + eexists false, _; split; [reflexivity|simpl; eauto].
    + exists true, warnings; simpl; auto.
  - eexists false, _; split; [reflexivity|simpl; eauto].
Qed.

(** The shape of every result [validate] returns: six checks in
    execution order, errors threaded through the first four, warnings
    through the last two. *)
Lemma validate_inv invoice r :
  validate self invoice = Ok r ->
  exists b1 b2 b3 b4 b5 b6 e1 e2 e3 e4 w1 w2,
    _check_required_fields self invoice [] = Ok (b1, e1)
    /\ _check_date_format invoice e1 = Ok (b2, e2)
    /\ _check_currency invoice e2 = Ok (b3, e3)
    /\ _check_reconciliation self invoice e3 = Ok (b4, e4)
    /\ _check_total_threshold self invoice [] = Ok (b5, w1)
    /\ _check_po_present invoice w1 = Ok (b6, w2)
    /\ r = {| passed := Nat.eqb (List.length e4) 0;
              checks := [("required_fields_present", b1);
                         ("date_format_valid", b2);
                         ("currency_valid", b3);
                         ("reconciliation_pass", b4);
                         ("total_within_threshold", b5);
                         ("po_present", b6)];
              errors := e4;
              warnings := w2 |}.
Proof.
  unfold validate.
  destruct (_check_required_fields self invoice []) as [[b1 e1]|] eqn:H1;
    simpl; [|discriminate].
  destruct (_check_date_format invoice e1) as [[b2 e2]|] eqn:H2;
    simpl; [|discriminate].
  destruct (_check_currency invoice e2) as [[b3 e3]|] eqn:H3;
    simpl; [|discriminate].
  destruct (_check_reconciliation self invoice e3) as [[b4 e4]|] eqn:H4;
    simpl; [|discriminate].
  destruct (_check_total_threshold self invoice []) as [[b5 w1]|] eqn:H5;
    simpl; [|discriminate].
  destruct (_check_po_present invoice w1) as [[b6 w2]|] eqn:H6;
    simpl; [|discriminate].
  intros H; ok_inv H.
  exists b1, b2, b3, b4, b5, b6, e1, e2, e3, e4, w1, w2.
  repeat split; assumption.
Qed.

Lemma length_zero_iff_nil {A : Type} (l : list A) :
  Nat.eqb (List.length l) 0 = true <-> l = [].
Proof. destruct l; simpl; split; intros; congruence. Qed.

(** C5: the [ValidationResult] that [validate] returns has [passed] true
    exactly when its [errors] list is empty; the warnings do not enter. *)
Theorem validate_passed_iff_no_errors (invoice : InvoiceSchema)
    (r : ValidationResult) :
  validate self invoice = Ok r ->
  (passed r = true <-> errors r = [])
  /\ passed r = Nat.eqb (List.length (errors r)) 0.
Proof.
  intros H.
  destruct (validate_inv invoice r H)
    as (b1 & b2 & b3 & b4 & b5 & b6 & e1 & e2 & e3 & e4 & w1 & w2 & H').
  decompose [and] H'; subst r; simpl.
  split; [apply length_zero_iff_nil | reflexivity].
Qed.

End ValidatorFacts.

Lemma validate_passed_iff_no_errors_witness :
  validate (F:=Float64) (B:=DateOnly) validator64 (sample64 10800 90 false)
  = Ok passed_without_po
  /\ (passed passed_without_po = true <-> errors passed_without_po = []).
Proof.
  assert (H : validate (F:=Float64) (B:=DateOnly) validator64
                (sample64 10800 90 false) = Ok passed_without_po)
    by (vm_compute; reflexivity).
  split; [exact H|].
  exact (proj1 (validate_passed_iff_no_errors (F:=Float64) _ _ _ H)).
Defined.

(* ================================================================== *)
(** * Facts about routing *)

Lemma upper_app (a b : string) : upper (a ++ b) = (upper a ++ upper b)%string.
Proof. induction a as [|c a IH]; simpl; [reflexivity | now rewrite IH]. Qed.

(** Upper-casing the joined text is joining the upper-cased names. *)
Lemma upper_join (l : list string) :
  upper (join "_" l) = join "_" (map upper l).
Proof.
  unfold join.
  induction l as [|x l IH]; [reflexivity|].
  destruct l as [|y l]; [reflexivity|].
  change (String.concat "_" (x :: y :: l))
    with (x ++ "_" ++ String.concat "_" (y :: l))%string.
  change (String.concat "_" (map upper (x :: y :: l)))
    with (upper x ++ "_" ++ String.concat "_" (map upper (y :: l)))%string.
  rewrite !upper_app, IH. reflexivity.
Qed.

Section RouteFacts.

Context {C : Carrier} {F : PyFloatOps}.

Variable self : Validator.

(** What [route] returns when it returns, and when it does. *)
Lemma route_inv invoice validation d :
  route self invoice validation = Ok d ->
  outcome d = route_outcome self invoice validation
  /\ reason_codes d = route_reason_codes self invoice validation
  /\ confidence_score d = overall_confidence invoice
  /\ in_unit (overall_confidence invoice) = true.
Proof.
  unfold route, new_RoutingDecision.
  destruct (in_unit (overall_confidence invoice)); [|discriminate].
  intros H; inversion H; subst; simpl; auto.
Qed.

Lemma route_returns invoice validation :
  in_unit (overall_confidence invoice) = true ->
  exists d, route self invoice validation = Ok d.
Proof.
  intros H. unfold route, new_RoutingDecision. rewrite H. eauto.
Qed.

(** C2: the decision [route] returns is [AUTO_POST] exactly when its
    reason codes are empty and its confidence score is at least
    [low_confidence_threshold]; in every other case it is
    [NEEDS_REVIEW]. *)
Theorem route_auto_post_iff (invoice : InvoiceSchema)
    (validation : ValidationResult) (d : RoutingDecision) :
  route self invoice validation = Ok d ->
  (outcome d = "AUTO_POST" <->
     reason_codes d = []
     /\ f_geb (confidence_score d) (low_confidence_threshold self) = true)
  /\ (outcome d <> "AUTO_POST" -> outcome d = "NEEDS_REVIEW")
  /\ (reason_codes d <> [] -> outcome d = "NEEDS_REVIEW")
  /\ (f_geb (confidence_score d) (low_confidence_threshold self) = false ->
      outcome d = "NEEDS_REVIEW")
  /\ low_confidence_threshold default_Validator = f_dec 7 1.
Proof.
  intros H. destruct (route_inv _ _ _ H) as (Ho & Hr & Hc & _).
  rewrite Ho, Hr, Hc. unfold route_outcome.
  destruct (route_reason_codes self invoice validation) as [|c rc]; simpl.
  - destruct (f_geb (overall_confidence invoice) (low_confidence_threshold self)).
    + repeat split; auto; try congruence.
    + repeat split; auto; try congruence; intros; intuition discriminate.
  - repeat split; auto; try congruence; intros; intuition discriminate.
Qed.

Lemma slot_invoice_number invoice :
  slot invoice "invoice_number" = invoice_number invoice.
Proof. reflexivity. Qed.

Lemma slot_total invoice : slot invoice "total" = total invoice.
Proof. reflexivity. Qed.

Lemma slot_invoice_date invoice :
  slot invoice "invoice_date" = invoice_date invoice.
Proof. reflexivity. Qed.

Lemma confidence_scores_present invoice :
  confidence_scores invoice = map confidence (present_critical invoice).
Proof.
  unfold confidence_scores, present_critical, critical_fields; simpl.
  rewrite slot_invoice_number, slot_total, slot_invoice_date.
  destruct (invoice_number invoice), (total invoice), (invoice_date invoice);
    reflexivity.
Qed.

(** C7: the confidence score [route] returns is the arithmetic mean of
    the confidences of the critical fields whose slot is present (absent
    slots enter neither the sum nor the count), and 0.0 when none of the
    three is present. *)
Theorem confidence_score_is_mean_of_present (invoice : InvoiceSchema)
    (validation : ValidationResult) (d : RoutingDecision) :
  route self invoice validation = Ok d ->
  confidence_score d = spec_aggregate_confidence invoice
  /\ (invoice_number invoice = None -> total invoice = None ->
      invoice_date invoice = None -> confidence_score d = f_zero)
  /\ (forall a b c, invoice_number invoice = Some a -> total invoice = Some b ->
      invoice_date invoice = Some c ->
      confidence_score d =
        f_div (f_add (f_add (f_add (f_of_len 0) (confidence a)) (confidence b))
                 (confidence c))
          (f_of_len 3))
  /\ (forall a c, invoice_number invoice = Some a -> total invoice = None ->
      invoice_date invoice = Some c ->
      confidence_score d =
        f_div (f_add (f_add (f_of_len 0) (confidence a)) (confidence c))
          (f_of_len 2)).
Proof.
  intros H. destruct (route_inv _ _ _ H) as (_ & _ & Hc & _).
  rewrite Hc. unfold overall_confidence, spec_aggregate_confidence.
  rewrite confidence_scores_present. unfold arithmetic_mean, present_critical.
  repeat split.
  - destruct (invoice_number invoice), (total invoice), (invoice_date invoice);
      simpl; rewrite ?length_map; reflexivity.
  - intros -> -> ->; reflexivity.
  - intros a b c -> -> ->; reflexivity.
  - intros a c -> -> ->; reflexivity.
Qed.

End RouteFacts.

(* ================================================================== *)
(** * The exact rationals satisfy the order laws *)

Lemma Qc_leb_le (x y : Qc) : Qc_leb x y = true <-> (x <= y)%Qc.
Proof. unfold Qc_leb, Qcle. apply Qle_bool_iff. Qed.

Lemma Qc_of_Z_nonzero (k : Z) : (1 <= k)%Z -> Q2Qc (inject_Z k) <> Q2Qc 0.
Proof.
  intros Hk E. apply Q2Qc_eq_iff in E. unfold Qeq in E. simpl in E. lia.
Qed.

Lemma Qc_of_Z_pos (k : Z) : (1 <= k)%Z -> (Q2Qc 0 <= / Q2Qc (inject_Z k))%Qc.
Proof.
  intros Hk. unfold Qcle, Qcinv. cbn [this Q2Qc]. rewrite !Qred_correct.
  apply Qinv_le_0_compat. unfold Qle. simpl. lia.
Qed.

Lemma Exact_count (k : nat) :
  f_of_len (F:=Exact) k = Q2Qc (inject_Z (Z.of_nat k)).
Proof. reflexivity. Qed.

Lemma Exact_count_succ (k : nat) :
  Q2Qc (inject_Z (Z.of_nat (S k)))
  = (Q2Qc (inject_Z (Z.of_nat k)) + Q2Qc 1)%Qc.
Proof.
  unfold Qcplus. apply Q2Qc_eq_iff. cbn [this Q2Qc].
  rewrite !Qred_correct, Nat2Z.inj_succ, <- Z.add_1_r, inject_Z_plus.
  reflexivity.
Qed.

Lemma Exact_laws : PyFloatLaws Exact.
Proof.
  constructor.
  - reflexivity.
  - reflexivity.
  - split; reflexivity.
  - intros k acc x _ H0 H1 Hx. rewrite !Exact_count in *.
    apply andb_prop in Hx. destruct Hx as [Hx0 Hx1].
    cbn [Exact f_zero f_one f_add f_leb] in *.
    apply Qc_leb_le in H0, H1, Hx0, Hx1.
    split; apply Qc_leb_le.
    + replace (Q2Qc 0) with (Q2Qc 0 + Q2Qc 0)%Qc
        by (apply Qc_is_canon; reflexivity).
      apply Qcplus_le_compat; assumption.
    + rewrite Exact_count_succ. apply Qcplus_le_compat; assumption.
  - intros k acc Hk H0 H1. rewrite !Exact_count in *.
    cbn [Exact f_zero f_one f_div f_leb] in *.
    apply Qc_leb_le in H0, H1.
    assert (Hpos : (1 <= Z.of_nat k)%Z) by lia.
    unfold in_unit. cbn [Exact f_zero f_one f_leb].
    apply andb_true_intro. split; apply Qc_leb_le; unfold Qcdiv.
    + replace (Q2Qc 0) with (Q2Qc 0 * / Q2Qc (inject_Z (Z.of_nat k)))%Qc
        by apply Qcmult_0_l.
      apply Qcmult_le_compat_r; [assumption | apply Qc_of_Z_pos; assumption].
    + replace (Q2Qc 1)
        with (Q2Qc (inject_Z (Z.of_nat k)) * / Q2Qc (inject_Z (Z.of_nat k)))%Qc
        by (apply Qcmult_inv_r; apply Qc_of_Z_nonzero; assumption).
      apply Qcmult_le_compat_r; [assumption | apply Qc_of_Z_pos; assumption].
Qed.


(* ================================================================== *)
(** * Rounding in binary64 stays below a representable bound *)

Section Binary64Bounds.

Local Open Scope Z_scope.

Lemma weight_pos (e : Z) : -3000 <= e -> 0 < weight e.
Proof. intros H. unfold weight. apply Z.pow_pos_nonneg; lia. Qed.

Lemma weight_add (e k : Z) :
  -3000 <= e -> 0 <= k -> weight (e + k) = weight e * 2 ^ k.
Proof.
  intros He Hk. unfold weight.
  replace (e + k + 3000) with ((e + 3000) + k) by lia.
  apply Z.pow_add_r; lia.
Qed.

Lemma weight_le (e e' : Z) : -3000 <= e -> e <= e' -> weight e <= weight e'.
Proof. intros H1 H2. unfold weight. apply Z.pow_le_mono_r; lia. Qed.

(** ** Binary digits *)

Lemma digits2_size (p : positive) : digits2_pos p = Pos.size p.
Proof. induction p; simpl; congruence. Qed.

Lemma digits2_bounds (p : positive) :
  2 ^ (Zpos (digits2_pos p) - 1) <= Zpos p < 2 ^ Zpos (digits2_pos p).
Proof.
  rewrite digits2_size. split.
  - pose proof (Pos.size_le p) as H.
    assert (H' : 2 ^ Zpos (Pos.size p) <= 2 * Zpos p).
    { change (2 * Zpos p) with (Zpos p~0).
      rewrite <- Pos2Z.inj_pow. apply Pos2Z.pos_le_pos. exact H. }
    replace (Zpos (Pos.size p)) with (Zpos (Pos.size p) - 1 + 1) in H' by lia.
    rewrite Z.pow_add_r in H' by lia. lia.
  - pose proof (Pos.size_gt p) as H.
    rewrite <- Pos2Z.inj_pow. apply Pos2Z.pos_lt_pos. exact H.
Qed.

Lemma Zdigits2_bounds (m : Z) :
  0 < m -> 2 ^ (Zdigits2 m - 1) <= m < 2 ^ Zdigits2 m.
Proof. destruct m as [|p|p]; try lia. intros _. apply digits2_bounds. Qed.

Lemma Zdigits2_pos (m : Z) : 0 < m -> 0 < Zdigits2 m.
Proof. destruct m; simpl; lia. Qed.

Lemma Zdigits2_unique (m d : Z) :
  0 < m -> 2 ^ (d - 1) <= m < 2 ^ d -> Zdigits2 m = d.
Proof.
  intros Hm [H1 H2].
  pose proof (Zdigits2_bounds m Hm) as [B1 B2].
  pose proof (Zdigits2_pos m Hm) as Hd.
  assert (0 < d).
  { destruct (Z_lt_le_dec 0 d); [assumption|].
    assert (2 ^ d <= 2 ^ 0) by (destruct (Z_lt_le_dec d 0);
      [rewrite Z.pow_neg_r by lia; simpl; lia | apply Z.pow_le_mono_r; lia]).
    simpl in *. lia. }
  destruct (Z.lt_trichotomy (Zdigits2 m) d) as [L | [E | G]]; [|exact E|].
  - assert (2 ^ Zdigits2 m <= 2 ^ (d - 1)) by (apply Z.pow_le_mono_r; lia). lia.
  - assert (2 ^ d <= 2 ^ (Zdigits2 m - 1)) by (apply Z.pow_le_mono_r; lia). lia.
Qed.

Lemma Zdigits2_mul_pow (m s : Z) :
  0 < m -> 0 <= s -> Zdigits2 (m * 2 ^ s) = Zdigits2 m + s.
Proof.
  intros Hm Hs.
  pose proof (Zdigits2_bounds m Hm) as [B1 B2].
  pose proof (Zdigits2_pos m Hm) as Hd.
  assert (Hp : 0 < 2 ^ s) by (apply Z.pow_pos_nonneg; lia).
  apply Zdigits2_unique; [nia|].
  replace (Zdigits2 m + s - 1) with ((Zdigits2 m - 1) + s) by lia.
  rewrite !Z.pow_add_r by lia. split; nia.
Qed.

Lemma Zdigits2_div_pow (m k : Z) :
  0 < m -> 0 <= k -> k < Zdigits2 m ->
  0 < m / 2 ^ k /\ Zdigits2 (m / 2 ^ k) = Zdigits2 m - k.
Proof.
  intros Hm Hk Hlt.
  pose proof (Zdigits2_bounds m Hm) as [B1 B2].
  assert (Hp : 0 < 2 ^ k) by (apply Z.pow_pos_nonneg; lia).
  assert (L : 2 ^ (Zdigits2 m - k - 1) <= m / 2 ^ k).
  { apply Z.div_le_lower_bound; [exact Hp|].
    rewrite <- Z.pow_add_r by lia.
    replace (k + (Zdigits2 m - k - 1)) with (Zdigits2 m - 1) by lia. exact B1. }
  assert (U : m / 2 ^ k < 2 ^ (Zdigits2 m - k)).
  { apply Z.div_lt_upper_bound; [exact Hp|].
    rewrite <- Z.pow_add_r by lia.
    replace (k + (Zdigits2 m - k)) with (Zdigits2 m) by lia. exact B2. }
  assert (0 < 2 ^ (Zdigits2 m - k - 1)) by (apply Z.pow_pos_nonneg; lia).
  split; [lia|].
  apply Zdigits2_unique; [lia|]. split; [exact L | exact U].
Qed.

Lemma div_pow_small (m k : Z) :
  0 <= m -> Zdigits2 m <= k -> m / 2 ^ k = 0.
Proof.
  intros Hm Hk.
  destruct (Z.eq_dec m 0) as [->|Hne]; [apply Z.div_0_l; 
    assert (0 < 2 ^ k) by (apply Z.pow_pos_nonneg; destruct k; simpl in *; lia); lia|].
  pose proof (Zdigits2_bounds m ltac:(lia)) as [B1 B2].
  pose proof (Zdigits2_pos m ltac:(lia)).
  apply Z.div_small. split; [lia|].
  assert (2 ^ Zdigits2 m <= 2 ^ k) by (apply Z.pow_le_mono_r; lia). lia.
Qed.

(** ** Shifting right with the round and sticky bits *)

Lemma shr_1_steps (a : shr_record) : 0 <= shr_m a -> shr_steps 1 a (shr_1 a).
Proof.
  destruct a as [m r s]. simpl. intros Hm. unfold shr_steps.
  change (2 ^ 1) with 2.
  destruct m as [|[p|p|]|p]; try lia; simpl shr_m; simpl shr_r; simpl shr_s.
  - split; [reflexivity|]. rewrite Z.mod_0_l by lia.
    destruct r, s; simpl; intuition congruence.
  - split; [rewrite Pos2Z.inj_xI;
            apply Z.div_unique with (r := 1); lia|].
    assert (Zpos p~1 mod 2 = 1)
      by (rewrite Pos2Z.inj_xI; symmetry;
          apply Z.mod_unique with (q := Zpos p); lia).
    destruct r, s; simpl; intuition (try congruence; lia).
  - split; [rewrite Pos2Z.inj_xO;
            apply Z.div_unique with (r := 0); lia|].
    assert (Zpos p~0 mod 2 = 0)
      by (rewrite Pos2Z.inj_xO; symmetry;
          apply Z.mod_unique with (q := Zpos p); lia).
    destruct r, s; simpl; intuition congruence.
  - split; [reflexivity|].
    destruct r, s; simpl; intuition (try congruence; try discriminate).
Qed.

Lemma mod_pow_add (m a b : Z) :
  0 <= m -> 0 <= a -> 0 <= b ->
  (m mod 2 ^ (a + b) = 0 <-> m mod 2 ^ a = 0 /\ (m / 2 ^ a) mod 2 ^ b = 0).
Proof.
  intros Hm Ha Hb.
  assert (Pa : 0 < 2 ^ a) by (apply Z.pow_pos_nonneg; lia).
  assert (Pb : 0 < 2 ^ b) by (apply Z.pow_pos_nonneg; lia).
  rewrite Z.pow_add_r by lia.
  rewrite Z.rem_mul_r by lia.
  pose proof (Z.mod_pos_bound m (2 ^ a) Pa).
  pose proof (Z.mod_pos_bound (m / 2 ^ a) (2 ^ b) Pb).
  split; [intros H1; split; nia | intros [H1 H2]; rewrite H1, H2; lia].
Qed.

Lemma shr_steps_trans (n1 n2 : Z) (a b c : shr_record) :
  0 <= n1 -> 0 <= n2 -> 0 <= shr_m a ->
  shr_steps n1 a b -> shr_steps n2 b c -> shr_steps (n1 + n2) a c.
Proof.
  intros H1 H2 Hm [M1 E1] [M2 E2]. split.
  - rewrite M2, M1, Z.pow_add_r by lia.
    assert (0 < 2 ^ n1) by (apply Z.pow_pos_nonneg; lia).
    assert (0 < 2 ^ n2) by (apply Z.pow_pos_nonneg; lia).
    apply Z.div_div; lia.
  - rewrite E2, E1, M1, (mod_pow_add (shr_m a) n1 n2) by lia. tauto.
Qed.

Lemma shr_steps_nonneg (n : Z) (a b : shr_record) :
  0 <= n -> 0 <= shr_m a -> shr_steps n a b -> 0 <= shr_m b.
Proof.
  intros Hn Hm [M _]. rewrite M. apply Z.div_pos; [exact Hm|].
  apply Z.pow_pos_nonneg; lia.
Qed.

Lemma iter_shr_steps (p : positive) :
  forall a, 0 <= shr_m a -> shr_steps (Zpos p) a (iter_pos shr_1 p a).
Proof.
  induction p as [p IH|p IH|]; intros a Hm; simpl iter_pos.
  - pose proof (shr_1_steps a Hm) as S1.
    pose proof (shr_steps_nonneg 1 _ _ ltac:(lia) Hm S1) as N1.
    pose proof (IH _ N1) as S2.
    pose proof (shr_steps_nonneg (Zpos p) _ _ ltac:(lia) N1 S2) as N2.
    pose proof (IH _ N2) as S3.
    pose proof (shr_steps_trans 1 (Zpos p) _ _ _ ltac:(lia) ltac:(lia) Hm S1 S2)
      as S12.
    pose proof (shr_steps_trans (1 + Zpos p) (Zpos p) _ _ _ ltac:(lia)
                  ltac:(lia) Hm S12 S3) as S.
    replace (Zpos p~1) with (1 + Zpos p + Zpos p) by lia. exact S.
  - pose proof (IH _ Hm) as S1.
    pose proof (shr_steps_nonneg (Zpos p) _ _ ltac:(lia) Hm S1) as N1.
    pose proof (IH _ N1) as S2.
    pose proof (shr_steps_trans (Zpos p) (Zpos p) _ _ _ ltac:(lia) ltac:(lia)
                  Hm S1 S2) as S.
    replace (Zpos p~0) with (Zpos p + Zpos p) by lia. exact S.
  - apply shr_1_steps. exact Hm.
Qed.

Lemma loc_of_shr_record_exact (a : shr_record) :
  loc_of_shr_record a = loc_Exact <-> shr_r a || shr_s a = false.
Proof. destruct a as [m [] []]; simpl; split; congruence. Qed.

Lemma loc_of_record_of_loc (m : Z) (l : location) :
  loc_of_shr_record (shr_record_of_loc m l) = l
  /\ shr_m (shr_record_of_loc m l) = m.
Proof. destruct l as [|[]]; simpl; auto. Qed.

(** What [shr_fexp] returns. *)
Lemma shr_fexp_spec (m e : Z) (l : location) :
  0 <= m ->
  forall mrs e', shr_fexp prec emax m e l = (mrs, e') ->
  if 0 <? fexp prec emax (Zdigits2 m + e) - e
  then shr_m mrs = m / 2 ^ (fexp prec emax (Zdigits2 m + e) - e)
       /\ e' = fexp prec emax (Zdigits2 m + e)
       /\ (loc_of_shr_record mrs = loc_Exact <->
           l = loc_Exact
           /\ m mod 2 ^ (fexp prec emax (Zdigits2 m + e) - e) = 0)
  else shr_m mrs = m /\ e' = e /\ loc_of_shr_record mrs = l.
Proof.
  intros Hm mrs e'. unfold shr_fexp, shr.
  destruct (loc_of_record_of_loc m l) as [Hl Hsm].
  destruct (fexp prec emax (Zdigits2 m + e) - e) as [|p|p] eqn:Ek.
  - change (0 <? 0) with false. cbv iota.
    intros H; injection H as <- <-. auto.
  - change (0 <? Zpos p) with true. cbv iota.
    intros H; injection H as <- <-.
    destruct (iter_shr_steps p (shr_record_of_loc m l)) as [M E];
      [rewrite Hsm; exact Hm|].
    rewrite Hsm in M, E. split; [exact M|]. split; [lia|].
    rewrite loc_of_shr_record_exact, E, <- loc_of_shr_record_exact, Hl.
    tauto.
  - change (0 <? Zneg p) with false. cbv iota.
    intros H; injection H as <- <-. auto.
Qed.

Lemma round_nearest_even_cases (m : Z) (l : location) :
  (round_nearest_even m l = m \/ round_nearest_even m l = m + 1)
  /\ (l = loc_Exact -> round_nearest_even m l = m).
Proof.
  destruct l as [|[]]; simpl.
  - split; auto.
  - destruct (Z.even m); split; auto; discriminate.
  - split; [auto | discriminate].
  - split; [auto | discriminate].
Qed.

(** ** The format of binary64 *)

Lemma fexp_eq (x : Z) : fexp prec emax x = Z.max (x - 53) (-1074).
Proof. reflexivity. Qed.

Lemma canonical_facts (m e : Z) :
  0 < m -> fexp prec emax (Zdigits2 m + e) = e ->
  filled m e /\ m < 2 ^ 53.
Proof.
  intros Hm Hc. rewrite fexp_eq in Hc.
  pose proof (Zdigits2_bounds m Hm) as [B1 B2].
  pose proof (Zdigits2_pos m Hm) as Hd.
  split; [split; [lia|]|].
  - intros He. assert (Zdigits2 m = 53) as E by lia.
    rewrite E in B1. exact B1.
  - assert (Zdigits2 m <= 53) by lia.
    assert (2 ^ Zdigits2 m <= 2 ^ 53) by (apply Z.pow_le_mono_r; lia). lia.
Qed.

Lemma valid_canonical (s : bool) (m : positive) (e : Z) :
  valid_binary prec emax (S754_finite s m e) = true ->
  fexp prec emax (Zdigits2 (Zpos m) + e) = e /\ e <= 971.
Proof.
  simpl. unfold bounded, canonical_mantissa.
  intros H. apply andb_true_iff in H. destruct H as [H1 H2].
  apply Z.eqb_eq in H1. apply Z.leb_le in H2.
  split; [exact H1 | exact H2].
Qed.

(** The next multiple of the weight is below every canonical number
    above. *)
Lemma next_step_below (m e mb eb : Z) :
  0 <= m -> filled m e -> 0 < mb ->
  fexp prec emax (Zdigits2 mb + eb) = eb ->
  m * weight e < mb * weight eb ->
  (m + 1) * weight e <= mb * weight eb.
Proof.
  intros Hm [He Hf] Hmb Hc Hlt.
  destruct (canonical_facts mb eb Hmb Hc) as [[Heb _] Hb].
  destruct (Z_le_gt_dec e eb) as [Hle | Hgt].
  - assert (W : weight eb = weight e * 2 ^ (eb - e))
      by (rewrite <- weight_add by lia; f_equal; lia).
    rewrite W in *.
    pose proof (weight_pos e ltac:(lia)) as Hw.
    assert (Hq : 0 < 2 ^ (eb - e)) by (apply Z.pow_pos_nonneg; lia).
    set (q := 2 ^ (eb - e)) in *. set (w := weight e) in *.
    assert (m < mb * q) by nia. nia.
  - exfalso.
    specialize (Hf ltac:(lia)).
    assert (W : weight e = weight eb * 2 ^ (e - eb))
      by (rewrite <- weight_add by lia; f_equal; lia).
    rewrite W in Hlt.
    pose proof (weight_pos eb ltac:(lia)) as Hw.
    assert (Hq : 2 ^ 1 <= 2 ^ (e - eb)) by (apply Z.pow_le_mono_r; lia).
    change (2 ^ 1) with 2 in Hq.
    set (q := 2 ^ (e - eb)) in *. set (w := weight eb) in *.
    change (2 ^ 53) with (2 * 2 ^ 52) in Hb.
    set (h := 2 ^ 52) in *.
    assert (mb * w < m * (w * q)); [|lia].
    assert (mb < m * q) by nia. nia.
Qed.

(** The order of [SFcompare] on filled and canonical numbers is the
    order of the values. *)
Lemma SFleb_of_values (m : positive) (e : Z) (mb : positive) (eb : Z) :
  filled (Zpos m) e ->
  fexp prec emax (Zdigits2 (Zpos mb) + eb) = eb ->
  Zpos m * weight e <= Zpos mb * weight eb ->
  SFleb (S754_finite false m e) (S754_finite false mb eb) = true.
Proof.
  intros [He Hf] Hc Hle.
  destruct (canonical_facts (Zpos mb) eb ltac:(lia) Hc) as [[Heb _] Hb].
  unfold SFleb, SFcompare.
  destruct (Z.compare_spec e eb) as [Eq | Lt | Gt]; [|reflexivity|].
  - subst eb. pose proof (weight_pos e ltac:(lia)).
    change (PosDef.Pos.compare_cont Eq m mb) with (Pos.compare m mb).
    destruct (Pos.compare_spec m mb); try reflexivity.
    exfalso. assert (Zpos mb < Zpos m) by lia. nia.
  - exfalso.
    specialize (Hf ltac:(lia)).
    assert (W : weight e = weight eb * 2 ^ (e - eb))
      by (rewrite <- weight_add by lia; f_equal; lia).
    rewrite W in Hle.
    pose proof (weight_pos eb ltac:(lia)) as Hw.
    assert (Hq : 2 ^ 1 <= 2 ^ (e - eb)) by (apply Z.pow_le_mono_r; lia).
    change (2 ^ 1) with 2 in Hq.
    set (q := 2 ^ (e - eb)) in *. set (w := weight eb) in *.
    change (2 ^ 53) with (2 * 2 ^ 52) in Hb.
    set (h := 2 ^ 52) in *.
    assert (Zpos mb * w < Zpos m * (w * q)); [|lia].
    assert (Zpos mb < Zpos m * q) by nia. nia.
Qed.

Lemma values_of_SFleb (s : bool) (m : positive) (e : Z) (mb : positive)
    (eb : Z) :
  valid_binary prec emax (S754_finite s m e) = true ->
  valid_binary prec emax (S754_finite false mb eb) = true ->
  SFleb (S754_finite s m e) (S754_finite false mb eb) = true ->
  s = true \/ Zpos m * weight e <= Zpos mb * weight eb.
Proof.
  intros Va Vb H. destruct s; [auto|]. right.
  destruct (valid_canonical _ _ _ Va) as [Ca _].
  destruct (valid_canonical _ _ _ Vb) as [Cb _].
  destruct (canonical_facts (Zpos m) e ltac:(lia) Ca) as [[He Hf] Hm].
  destruct (canonical_facts (Zpos mb) eb ltac:(lia) Cb) as [[Heb Hfb] Hmb].
  unfold SFleb, SFcompare in H.
  destruct (Z.compare_spec e eb) as [Eq | Lt | Gt].
  - subst eb. pose proof (weight_pos e ltac:(lia)).
    change (PosDef.Pos.compare_cont Eq m mb) with (Pos.compare m mb) in H.
    destruct (Pos.compare_spec m mb); try discriminate;
      apply Z.mul_le_mono_nonneg_r; lia.
  - specialize (Hfb ltac:(lia)).
    assert (W : weight eb = weight e * 2 ^ (eb - e))
      by (rewrite <- weight_add by lia; f_equal; lia).
    rewrite W.
    pose proof (weight_pos e ltac:(lia)) as Hw.
    assert (Hq : 2 ^ 1 <= 2 ^ (eb - e)) by (apply Z.pow_le_mono_r; lia).
    change (2 ^ 1) with 2 in Hq.
    set (q := 2 ^ (eb - e)) in *. set (w := weight e) in *.
    change (2 ^ 53) with (2 * 2 ^ 52) in Hm.
    set (h := 2 ^ 52) in *.
    assert (Zpos m <= Zpos mb * q) by nia. nia.
  - discriminate.
Qed.

(** ** Rounding stays below a canonical bound *)

Lemma shift_value (m e k : Z) :
  0 <= m -> -3000 <= e -> 0 < k ->
  0 <= m / 2 ^ k
  /\ (m / 2 ^ k) * weight (e + k) <= m * weight e
  /\ (m mod 2 ^ k <> 0 -> (m / 2 ^ k) * weight (e + k) < m * weight e).
Proof.
  intros Hm He Hk.
  assert (Hp : 0 < 2 ^ k) by (apply Z.pow_pos_nonneg; lia).
  rewrite weight_add by lia.
  pose proof (weight_pos e He) as Hw.
  pose proof (Z.div_mod m (2 ^ k) ltac:(lia)) as D.
  pose proof (Z.mod_pos_bound m (2 ^ k) Hp) as Bm.
  assert (Hq : 0 <= m / 2 ^ k) by (apply Z.div_pos; lia).
  set (q := m / 2 ^ k) in *. set (r := m mod 2 ^ k) in *.
  set (p := 2 ^ k) in *. set (w := weight e) in *.
  split; [exact Hq|]. split.
  - assert (q * p <= m) by lia. nia.
  - intros Hr. assert (q * p < m) by lia. nia.
Qed.

Lemma shr_fexp_first (m e : Z) (l : location) :
  0 <= m -> -3000 <= e -> e <= fexp prec emax (Zdigits2 m + e) ->
  forall mrs e', shr_fexp prec emax m e l = (mrs, e') ->
  0 <= shr_m mrs
  /\ filled (shr_m mrs) e'
  /\ shr_m mrs * weight e' <= m * weight e
  /\ (loc_of_shr_record mrs <> loc_Exact ->
      l <> loc_Exact \/ shr_m mrs * weight e' < m * weight e).
Proof.
  intros Hm He Hk mrs e' H.
  pose proof (shr_fexp_spec m e l Hm mrs e' H) as S.
  rewrite fexp_eq in *.
  destruct (0 <? Z.max (Zdigits2 m + e - 53) (-1074) - e) eqn:Ek.
  - apply Z.ltb_lt in Ek. destruct S as (M & E & L).
    set (k := Z.max (Zdigits2 m + e - 53) (-1074) - e) in *.
    assert (Ee : e' = e + k) by (unfold k; lia).
    destruct (shift_value m e k Hm He Ek) as (Q0 & Q1 & Q2).
    rewrite M, Ee. split; [exact Q0|]. split; [|split; [exact Q1|]].
    + split; [unfold k; lia|]. intros Hn.
      assert (Hpos : 0 < m).
      { destruct (Z.eq_dec m 0) as [->|]; [|lia]. simpl in *. unfold k in *.
        simpl in *. lia. }
      pose proof (Zdigits2_pos m Hpos).
      assert (Kd : k = Zdigits2 m - 53) by (unfold k in *; lia).
      destruct (Zdigits2_div_pow m k Hpos ltac:(lia) ltac:(lia)) as [P D].
      pose proof (Zdigits2_bounds _ P) as [B1 _].
      rewrite D in B1. replace (Zdigits2 m - k - 1) with 52 in B1 by lia.
      exact B1.
    + intros Hl.
      destruct l as [|c]; [|left; discriminate].
      right. apply Q2. intros Hz. apply Hl. apply L. auto.
  - apply Z.ltb_ge in Ek. destruct S as (M & E & L).
    rewrite M, E. split; [exact Hm|]. split; [|split; [lia|]].
    + split; [lia|]. intros Hn.
      assert (Hpos : 0 < m).
      { destruct (Z.eq_dec m 0) as [->|]; [|lia]. simpl in *. lia. }
      pose proof (Zdigits2_bounds m Hpos) as [B1 _].
      replace (Zdigits2 m - 1) with 52 in B1 by lia. exact B1.
    + intros Hl. left. rewrite <- L. exact Hl.
Qed.

Lemma shr_fexp_second (m e : Z) :
  0 <= m -> filled m e ->
  forall mrs e', shr_fexp prec emax m e loc_Exact = (mrs, e') ->
  0 <= shr_m mrs
  /\ filled (shr_m mrs) e'
  /\ shr_m mrs * weight e' <= m * weight e.
Proof.
  intros Hm [He Hf] mrs e' H.
  pose proof (shr_fexp_spec m e loc_Exact Hm mrs e' H) as S.
  rewrite fexp_eq in *.
  destruct (0 <? Z.max (Zdigits2 m + e - 53) (-1074) - e) eqn:Ek.
  - apply Z.ltb_lt in Ek. destruct S as (M & E & L).
    set (k := Z.max (Zdigits2 m + e - 53) (-1074) - e) in *.
    assert (Ee : e' = e + k) by (unfold k; lia).
    destruct (shift_value m e k Hm ltac:(lia) Ek) as (Q0 & Q1 & Q2).
    rewrite M, Ee. split; [exact Q0|]. split; [|exact Q1].
    split; [lia|]. intros Hn.
    assert (Hpos : 0 < m).
    { destruct (Z.eq_dec m 0) as [->|]; [|lia]. simpl in *. unfold k in *.
      simpl in *. lia. }
    pose proof (Zdigits2_pos m Hpos).
    assert (Kd : k = Zdigits2 m - 53) by (unfold k in *; lia).
    destruct (Zdigits2_div_pow m k Hpos ltac:(lia) ltac:(lia)) as [P D].
    pose proof (Zdigits2_bounds _ P) as [B1 _].
    rewrite D in B1. replace (Zdigits2 m - k - 1) with 52 in B1 by lia.
    exact B1.
  - destruct S as (M & E & L). rewrite M, E.
    split; [exact Hm|]. split; [split; assumption | lia].
Qed.

Lemma binary_round_aux_bound (mx ex : Z) (lx : location) (mb : positive)
    (eb : Z) :
  0 <= mx -> -3000 <= ex ->
  ex <= fexp prec emax (Zdigits2 mx + ex) ->
  fexp prec emax (Zdigits2 (Zpos mb) + eb) = eb -> eb <= 971 ->
  mx * weight ex <= Zpos mb * weight eb ->
  (lx <> loc_Exact -> mx * weight ex < Zpos mb * weight eb) ->
  SFleb (S754_zero false) (binary_round_aux prec emax false mx ex lx) = true
  /\ SFleb (binary_round_aux prec emax false mx ex lx)
       (S754_finite false mb eb) = true.
Proof.
  intros Hm He Hk Hc Heb Hle Hlt. unfold binary_round_aux.
  destruct (shr_fexp prec emax mx ex lx) as [mrs1 e1] eqn:S1.
  destruct (shr_fexp_first mx ex lx Hm He Hk mrs1 e1 S1)
    as (N1 & F1 & V1 & L1).
  set (m1 := shr_m mrs1) in *.
  set (l1 := loc_of_shr_record mrs1) in *.
  destruct (round_nearest_even_cases m1 l1) as [R1 R2].
  set (m2 := round_nearest_even m1 l1) in *.
  assert (N2 : 0 <= m2) by lia.
  assert (F2 : filled m2 e1).
  { destruct F1 as [A B]. split; [exact A|]. intros Hn. specialize (B Hn). lia. }
  assert (V2 : m2 * weight e1 <= Zpos mb * weight eb).
  { destruct R1 as [-> | R1]; [lia|].
    rewrite R1. apply next_step_below; try assumption; [lia|].
    assert (Hl : l1 <> loc_Exact).
    { intros E. specialize (R2 E). lia. }
    destruct (L1 Hl) as [Hx | Hx]; [specialize (Hlt Hx); lia | lia]. }
  destruct (shr_fexp prec emax m2 e1 loc_Exact) as [mrs2 e2] eqn:S2.
  destruct (shr_fexp_second m2 e1 N2 F2 mrs2 e2 S2) as (N3 & F3 & V3).
  destruct (shr_m mrs2) as [|m3|m3] eqn:E3; [split; reflexivity| |lia].
  destruct (canonical_facts (Zpos mb) eb ltac:(lia) Hc) as [[Heb' _] Hb].
  destruct (Z.leb_spec e2 (emax - prec)) as [Hs | Hs].
  - split; [reflexivity|].
    apply SFleb_of_values; [exact F3 | exact Hc | lia].
  - exfalso. change (emax - prec) with 971 in Hs.
    destruct F3 as [A B]. specialize (B ltac:(lia)).
    assert (W : weight e2 = weight eb * 2 ^ (e2 - eb))
      by (rewrite <- weight_add by lia; f_equal; lia).
    rewrite W in V3.
    pose proof (weight_pos eb ltac:(lia)) as Hw.
    assert (Hq : 2 ^ 1 <= 2 ^ (e2 - eb)) by (apply Z.pow_le_mono_r; lia).
    change (2 ^ 1) with 2 in Hq.
    set (q := 2 ^ (e2 - eb)) in *. set (w := weight eb) in *.
    change (2 ^ 53) with (2 * 2 ^ 52) in Hb.
    set (h := 2 ^ 52) in *.
    assert (Zpos mb * w < Zpos m3 * (w * q)); [|lia].
    assert (Zpos mb < Zpos m3 * q) by nia. nia.
Qed.

(** ** Sums and quotients of non-negative numbers *)

Lemma below_mono (x : spec_float) (v v' : Z) :
  below x v -> v <= v' -> below x v'.
Proof.
  destruct x as [s|s| |[] m e]; cbn [below]; try tauto; try lia.
  intros [V H] L. split; [exact V | lia].
Qed.

Lemma below_nonneg (x : spec_float) (v : Z) : below x v -> 0 <= v.
Proof.
  destruct x as [s|s| |[] m e]; cbn [below]; try tauto.
  intros [V H].
  destruct (valid_canonical _ _ _ V) as [Cn _].
  destruct (canonical_facts (Zpos m) e ltac:(lia) Cn) as [[He _] _].
  pose proof (weight_pos e ltac:(lia)). nia.
Qed.

Lemma below_of_leb (x k : spec_float) :
  valid_binary prec emax x = true ->
  valid_binary prec emax k = true ->
  SFleb (S754_zero false) x = true ->
  SFleb x k = true ->
  (exists s, k = S754_zero s) \/ (exists m e, k = S754_finite false m e) ->
  below x (sf_value k).
Proof.
  intros Vx Vk H0 Hk Hshape.
  destruct x as [s|s| |s m e]; cbn [below].
  - destruct Hshape as [[s' ->] | (m & e & ->)]; cbn [sf_value]; [lia|].
    destruct (valid_canonical _ _ _ Vk) as [Cn _].
    destruct (canonical_facts (Zpos m) e ltac:(lia) Cn) as [[He _] _].
    pose proof (weight_pos e ltac:(lia)). nia.
  - destruct s; [discriminate H0|].
    destruct Hshape as [[s' ->] | (m & e & ->)]; discriminate Hk.
  - discriminate H0.
  - destruct s; [discriminate H0|].
    destruct Hshape as [[s' ->] | (mb & eb & ->)]; [discriminate Hk|].
    cbn [sf_value]. split; [exact Vx|].
    destruct (values_of_SFleb false m e mb eb Vx Vk Hk) as [E | L];
      [discriminate E | exact L].
Qed.

Lemma iter_xO_value (d m : positive) :
  Zpos (Pos.iter xO m d) = Zpos m * 2 ^ Zpos d.
Proof.
  induction d as [|d IH] using Pos.peano_ind.
  - simpl. lia.
  - rewrite Pos.iter_succ, Pos2Z.inj_xO, IH, Pos2Z.inj_succ, Z.pow_succ_r by lia.
    lia.
Qed.

Lemma shl_align_spec (m : positive) (e e' : Z) :
  snd (shl_align m e e') = Z.min e e'
  /\ Zpos (fst (shl_align m e e')) = Zpos m * 2 ^ (e - Z.min e e').
Proof.
  unfold shl_align.
  destruct (e' - e) as [|d|d] eqn:E; simpl fst; simpl snd.
  - replace (Z.min e e') with e by lia. rewrite Z.sub_diag. simpl. lia.
  - replace (Z.min e e') with e by lia. rewrite Z.sub_diag. simpl. lia.
  - replace (Z.min e e') with e' by lia. split; [reflexivity|].
    rewrite iter_xO_value. f_equal. f_equal. lia.
Qed.

Lemma binary_round_bound (m : positive) (e : Z) (mb : positive) (eb : Z) :
  -1074 <= e ->
  fexp prec emax (Zdigits2 (Zpos mb) + eb) = eb -> eb <= 971 ->
  Zpos m * weight e <= Zpos mb * weight eb ->
  SFleb (S754_zero false) (binary_round prec emax false m e) = true
  /\ SFleb (binary_round prec emax false m e) (S754_finite false mb eb) = true.
Proof.
  intros He Hc Heb Hle. unfold binary_round.
  pose proof (shl_align_spec m e
                (fexp prec emax (Zpos (digits2_pos m) + e))) as [S1 S2].
  destruct (shl_align m e (fexp prec emax (Zpos (digits2_pos m) + e)))
    as [mz ez]. simpl fst in S2. simpl snd in S1.
  change (Zpos (digits2_pos m)) with (Zdigits2 (Zpos m)) in *.
  set (t := fexp prec emax (Zdigits2 (Zpos m) + e)) in *.
  assert (Ht : -1074 <= t) by (unfold t; rewrite fexp_eq; lia).
  rewrite <- S1 in S2.
  assert (Hs : 0 <= e - ez) by lia.
  assert (Hd : Zdigits2 (Zpos mz) + ez = Zdigits2 (Zpos m) + e).
  { rewrite S2, Zdigits2_mul_pow by lia. lia. }
  apply binary_round_aux_bound; try assumption; try lia.
  - rewrite Hd. fold t. lia.
  - rewrite S2.
    assert (W : weight e = weight ez * 2 ^ (e - ez))
      by (rewrite <- weight_add by lia; f_equal; lia).
    rewrite W in Hle. lia.
  - intros H. elim H. reflexivity.
Qed.

Lemma SFadd_below (x y : spec_float) (vx vy : Z) (mb : positive) (eb : Z) :
  below x vx -> below y vy ->
  fexp prec emax (Zdigits2 (Zpos mb) + eb) = eb -> eb <= 971 ->
  vx + vy <= Zpos mb * weight eb ->
  SFleb (S754_zero false) (SFadd prec emax x y) = true
  /\ SFleb (SFadd prec emax x y) (S754_finite false mb eb) = true.
Proof.
  intros Bx By Hc Heb Hle.
  pose proof (below_nonneg _ _ Bx) as Nx.
  pose proof (below_nonneg _ _ By) as Ny.
  destruct x as [sx|sx| |[] mx ex]; cbn [below] in Bx; try tauto;
    destruct y as [sy|sy| |[] my ey]; cbn [below] in By; try tauto.
  - simpl. destruct sx, sy; split; reflexivity.
  - destruct By as [Vy Ly]. simpl SFadd. split; [reflexivity|].
    destruct (valid_canonical _ _ _ Vy) as [Cy _].
    destruct (canonical_facts (Zpos my) ey ltac:(lia) Cy) as [Fy _].
    apply SFleb_of_values; [exact Fy | exact Hc | lia].
  - destruct Bx as [Vx Lx]. simpl SFadd. split; [reflexivity|].
    destruct (valid_canonical _ _ _ Vx) as [Cx _].
    destruct (canonical_facts (Zpos mx) ex ltac:(lia) Cx) as [Fx _].
    apply SFleb_of_values; [exact Fx | exact Hc | lia].
  - destruct Bx as [Vx Lx], By as [Vy Ly].
    destruct (valid_canonical _ _ _ Vx) as [Cx _].
    destruct (canonical_facts (Zpos mx) ex ltac:(lia) Cx) as [[Hex _] _].
    destruct (valid_canonical _ _ _ Vy) as [Cy _].
    destruct (canonical_facts (Zpos my) ey ltac:(lia) Cy) as [[Hey _] _].
    unfold SFadd. cbv zeta. unfold cond_Zopp.
    pose proof (shl_align_spec mx ex (Z.min ex ey)) as [_ Ax].
    pose proof (shl_align_spec my ey (Z.min ex ey)) as [_ Ay].
    replace (Z.min ex (Z.min ex ey)) with (Z.min ex ey) in Ax by lia.
    replace (Z.min ey (Z.min ex ey)) with (Z.min ex ey) in Ay by lia.
    set (ez := Z.min ex ey) in *.
    set (px := fst (shl_align mx ex ez)) in *.
    set (py := fst (shl_align my ey ez)) in *.
    change (Zpos px + Zpos py) with (Zpos (px + py)).
    unfold binary_normalize.
    apply binary_round_bound; try assumption; [unfold ez; lia|].
    rewrite Pos2Z.inj_add, Ax, Ay.
    assert (Wx : weight ex = weight ez * 2 ^ (ex - ez))
      by (rewrite <- weight_add by (unfold ez; lia); f_equal; lia).
    assert (Wy : weight ey = weight ez * 2 ^ (ey - ez))
      by (rewrite <- weight_add by (unfold ez; lia); f_equal; lia).
    rewrite Wx in Lx. rewrite Wy in Ly. lia.
Qed.

Lemma new_location_exact (nb k : Z) :
  new_location nb k = loc_Exact -> k = 0.
Proof.
  unfold new_location, new_location_even, new_location_odd.
  destruct (Z.even nb); destruct (Z.eqb_spec k 0); auto; discriminate.
Qed.

Lemma SFdiv_below (x : spec_float) (my : positive) (ey : Z) :
  valid_binary prec emax (S754_finite false my ey) = true ->
  below x (Zpos my * weight ey) ->
  SFleb (S754_zero false) (SFdiv prec emax x (S754_finite false my ey)) = true
  /\ SFleb (SFdiv prec emax x (S754_finite false my ey)) sf_one = true.
Proof.
  intros Vy Bx.
  destruct (valid_canonical _ _ _ Vy) as [Cy Hey].
  destruct (canonical_facts (Zpos my) ey ltac:(lia) Cy) as [[Hey' _] _].
  destruct x as [sx|sx| |[] mx ex]; cbn [below] in Bx; try tauto.
  destruct Bx as [Vx Lx].
    destruct (valid_canonical _ _ _ Vx) as [Cx Hex].
    destruct (canonical_facts (Zpos mx) ex ltac:(lia) Cx) as [[Hex' _] _].
    unfold SFdiv, SFdiv_core_binary. cbv zeta.
    set (d1 := Zdigits2 (Zpos mx)). set (d2 := Zdigits2 (Zpos my)).
    set (e' := Z.min (fexp prec emax (d1 + ex - (d2 + ey))) (ex - ey)).
    set (s := ex - ey - e').
    assert (Hs : 0 <= s) by (unfold s, e'; lia).
    assert (He' : -2045 <= e').
    { unfold e'. rewrite fexp_eq. lia. }
    set (m' := match s with
               | 0 => Zpos mx
               | Zpos _ => Z.shiftl (Zpos mx) s
               | Zneg _ => 0
               end).
    assert (Hm' : m' = Zpos mx * 2 ^ s).
    { unfold m'. destruct s as [|p|p] eqn:Es; [simpl; lia| |lia].
      apply Z.shiftl_mul_pow2. lia. }
    clearbody m'.
    destruct (Z.div_eucl m' (Zpos my)) as [q r] eqn:Ed.
    assert (Hq : q = m' / Zpos my) by (unfold Z.div; rewrite Ed; reflexivity).
    assert (Hr : r = m' mod Zpos my)
      by (unfold Z.modulo; rewrite Ed; reflexivity).
    change (xorb false false) with false.
    assert (Hp : 0 < 2 ^ s) by (apply Z.pow_pos_nonneg; lia).
    assert (Hm0 : 0 < m') by (rewrite Hm'; lia).
    pose proof (Z.div_mod m' (Zpos my) ltac:(lia)) as Dm.
    pose proof (Z.mod_pos_bound m' (Zpos my) ltac:(lia)) as Bm.
    rewrite <- Hq, <- Hr in Dm. rewrite <- Hr in Bm.
    assert (Hq0 : 0 <= q) by (rewrite Hq; apply Z.div_pos; lia).
    pose proof (Zdigits2_bounds (Zpos mx) ltac:(lia)) as [X1 X2].
    pose proof (Zdigits2_bounds (Zpos my) ltac:(lia)) as [Y1 Y2].
    pose proof (Zdigits2_pos (Zpos mx) ltac:(lia)) as Dx.
    pose proof (Zdigits2_pos (Zpos my) ltac:(lia)) as Dy.
    fold d1 in X1, X2, Dx. fold d2 in Y1, Y2, Dy.
    assert (Hdq : d1 + s - d2 <= Zdigits2 q).
    { destruct (Z_le_gt_dec (d1 + s - d2) 0) as [Hsmall | Hbig].
      - destruct (Z.eq_dec q 0) as [->|]; [change (Zdigits2 0) with 0; lia|].
        pose proof (Zdigits2_pos q ltac:(lia)). lia.
      - assert (Hlow : 2 ^ (d1 + s - d2 - 1) <= q).
        { rewrite Hq. apply Z.div_le_lower_bound; [lia|].
          rewrite Hm'.
          assert (2 ^ (d1 - 1) * 2 ^ s <= Zpos mx * 2 ^ s) by nia.
          assert (Zpos my * 2 ^ (d1 + s - d2 - 1)
                  <= 2 ^ d2 * 2 ^ (d1 + s - d2 - 1)).
          { apply Z.mul_le_mono_nonneg_r; [|lia].
            apply Z.pow_nonneg; lia. }
          rewrite <- Z.pow_add_r in * by lia.
          replace (d2 + (d1 + s - d2 - 1)) with (d1 - 1 + s) in * by lia.
          lia. }
        assert (0 < 2 ^ (d1 + s - d2 - 1)) by (apply Z.pow_pos_nonneg; lia).
        assert (Hqpos : 0 < q) by lia.
        pose proof (Zdigits2_bounds q Hqpos) as [_ Q2].
        destruct (Z_lt_le_dec (Zdigits2 q) (d1 + s - d2)) as [Hlt|]; [|lia].
        exfalso.
        assert (2 ^ Zdigits2 q <= 2 ^ (d1 + s - d2 - 1))
          by (apply Z.pow_le_mono_r; lia).
        lia. }
    apply binary_round_aux_bound; try lia.
    + rewrite !fexp_eq. unfold e' at 1. rewrite fexp_eq.
      unfold s in Hdq. lia.
    + reflexivity.
    + (* the quotient is at most one *)
      assert (E : weight ex * 2 ^ 3000 = weight e' * 2 ^ s * weight ey).
      { unfold weight. rewrite <- !Z.pow_add_r by lia. f_equal.
        unfold s. lia. }
      change (Zpos 4503599627370496 * weight (-52)) with (2 ^ 3000).
      pose proof (weight_pos e' ltac:(lia)) as Wq.
      pose proof (weight_pos ey ltac:(lia)) as Wy.
      pose proof (weight_pos ex ltac:(lia)) as Wx.
      assert (T : 0 < 2 ^ 3000) by (apply Z.pow_pos_nonneg; lia).
      set (A := weight e') in *. set (S := 2 ^ s) in *.
      set (WY := weight ey) in *. set (WX := weight ex) in *.
      set (TT := 2 ^ 3000) in *.
      assert (H1 : q * Zpos my <= Zpos mx * S) by lia.
      assert (H2 : q * A * (Zpos my * WY) <= TT * (Zpos my * WY)).
      { assert (q * Zpos my * (A * WY) <= Zpos mx * S * (A * WY))
          by (apply Z.mul_le_mono_nonneg_r; nia).
        assert (Zpos mx * WX * TT <= Zpos my * WY * TT)
          by (apply Z.mul_le_mono_nonneg_r; lia).
        nia. }
      apply Z.mul_le_mono_pos_r in H2; [exact H2 | nia].
    + intros Hl.
      assert (Hr0 : r <> 0).
      { intros E0. apply Hl. rewrite E0.
        unfold new_location, new_location_even, new_location_odd.
        destruct (Z.even (Zpos my)); reflexivity. }
      assert (E : weight ex * 2 ^ 3000 = weight e' * 2 ^ s * weight ey).
      { unfold weight. rewrite <- !Z.pow_add_r by lia. f_equal.
        unfold s. lia. }
      change (Zpos 4503599627370496 * weight (-52)) with (2 ^ 3000).
      pose proof (weight_pos e' ltac:(lia)) as Wq.
      pose proof (weight_pos ey ltac:(lia)) as Wy.
      pose proof (weight_pos ex ltac:(lia)) as Wx.
      assert (T : 0 < 2 ^ 3000) by (apply Z.pow_pos_nonneg; lia).
      set (A := weight e') in *. set (S := 2 ^ s) in *.
      set (WY := weight ey) in *. set (WX := weight ex) in *.
      set (TT := 2 ^ 3000) in *.
      assert (H1 : q * Zpos my < Zpos mx * S) by lia.
      assert (H2 : q * A * (Zpos my * WY) < TT * (Zpos my * WY)).
      { assert (q * Zpos my * (A * WY) < Zpos mx * S * (A * WY))
          by (apply Z.mul_lt_mono_pos_r; nia).
        assert (Zpos mx * WX * TT <= Zpos my * WY * TT)
          by (apply Z.mul_le_mono_nonneg_r; lia).
        nia. }
      apply Z.mul_lt_mono_pos_r in H2; [exact H2 | nia].
Qed.

(** ** The bounds on binary64 floats *)

Lemma Prim2SF_zero : Prim2SF PrimFloat.zero = S754_zero false.
Proof. vm_compute. reflexivity. Qed.

Lemma Prim2SF_one : Prim2SF PrimFloat.one = sf_one.
Proof. vm_compute. reflexivity. Qed.

Lemma float_below (a k : float) :
  PrimFloat.leb PrimFloat.zero a = true -> PrimFloat.leb a k = true ->
  sf_bound (Prim2SF k) ->
  below (Prim2SF a) (sf_value (Prim2SF k)).
Proof.
  rewrite !FloatAxioms.leb_spec, Prim2SF_zero. intros H0 Hk Hs.
  apply below_of_leb; try assumption; apply FloatAxioms.Prim2SF_valid.
Qed.

Lemma float_add_bound (a c ka kc kb : float) (mb : positive) (eb : Z) :
  PrimFloat.leb PrimFloat.zero a = true -> PrimFloat.leb a ka = true ->
  PrimFloat.leb PrimFloat.zero c = true -> PrimFloat.leb c kc = true ->
  sf_bound (Prim2SF ka) -> sf_bound (Prim2SF kc) ->
  Prim2SF kb = S754_finite false mb eb ->
  sf_value (Prim2SF ka) + sf_value (Prim2SF kc) <= Zpos mb * weight eb ->
  PrimFloat.leb PrimFloat.zero (PrimFloat.add a c) = true
  /\ PrimFloat.leb (PrimFloat.add a c) kb = true.
Proof.
  intros A0 A1 C0 C1 Sa Sc Eb Hle.
  pose proof (float_below a ka A0 A1 Sa) as Ba.
  pose proof (float_below c kc C0 C1 Sc) as Bc.
  pose proof (FloatAxioms.Prim2SF_valid kb) as Vb. rewrite Eb in Vb.
  destruct (valid_canonical _ _ _ Vb) as [Cb Hb].
  rewrite !FloatAxioms.leb_spec, FloatAxioms.add_spec, Prim2SF_zero, Eb.
  apply (SFadd_below _ _ _ _ mb eb Ba Bc Cb Hb Hle).
Qed.

Lemma float_div_bound (a k : float) (my : positive) (ey : Z) :
  PrimFloat.leb PrimFloat.zero a = true -> PrimFloat.leb a k = true ->
  Prim2SF k = S754_finite false my ey ->
  PrimFloat.leb PrimFloat.zero (PrimFloat.div a k) = true
  /\ PrimFloat.leb (PrimFloat.div a k) PrimFloat.one = true.
Proof.
  intros A0 A1 Ek.
  assert (Sk : sf_bound (Prim2SF k)) by (right; rewrite Ek; eauto).
  pose proof (float_below a k A0 A1 Sk) as Ba.
  pose proof (FloatAxioms.Prim2SF_valid k) as Vk. rewrite Ek in Vk, Ba.
  rewrite !FloatAxioms.leb_spec, FloatAxioms.div_spec, Prim2SF_zero,
    Prim2SF_one, Ek.
  apply (SFdiv_below _ my ey Vk Ba).
Qed.



End Binary64Bounds.

(** Binary64 satisfies the bounds: the counts 0 to 3 are exact, a sum of
    numbers below two exact bounds rounds to no more than the sum of the
    bounds when that is representable, and a quotient by a bound of the
    numerator rounds to no more than 1. *)
Lemma Float64_laws : PyFloatLaws Float64.
Proof.
  constructor.
  - reflexivity.
  - reflexivity.
  - split; reflexivity.
  - intros k acc x Hk H0 H1 Hx.
    apply andb_prop in Hx. destruct Hx as [Hx0 Hx1].
    cbn [Float64 f_zero f_one f_add f_leb] in *.
    assert (Hcases : k = 0%nat \/ k = 1%nat \/ k = 2%nat) by lia.
    destruct Hcases as [-> | [-> | ->]].
    + eapply (float_add_bound acc x (f_of_len (F:=Float64) 0) PrimFloat.one);
        try eassumption.
      * left. vm_compute. eauto.
      * right. vm_compute. eauto.
      * vm_compute. reflexivity.
      * vm_compute. discriminate.
    + eapply (float_add_bound acc x (f_of_len (F:=Float64) 1) PrimFloat.one);
        try eassumption.
      * right. vm_compute. eauto.
      * right. vm_compute. eauto.
      * vm_compute. reflexivity.
      * vm_compute. discriminate.
    + eapply (float_add_bound acc x (f_of_len (F:=Float64) 2) PrimFloat.one);
        try eassumption.
      * right. vm_compute. eauto.
      * right. vm_compute. eauto.
      * vm_compute. reflexivity.
      * vm_compute. discriminate.
  - intros k acc Hk H0 H1.
    cbn [Float64 f_zero f_one f_div f_leb] in *.
    unfold in_unit. cbn [Float64 f_zero f_one f_div f_leb].
    apply andb_true_intro.
    assert (Hcases : k = 1%nat \/ k = 2%nat \/ k = 3%nat) by lia.
    destruct Hcases as [-> | [-> | ->]];
      eapply float_div_bound; try eassumption; vm_compute; reflexivity.
Qed.


(* ================================================================== *)
(** * The aggregate confidence stays within the unit interval *)

Section MeanBounds.

Context {C : Carrier} {F : PyFloatOps} {L : PyFloatLaws F}.

(** Adding confidences one by one to a sum that lies between 0 and the
    count so far keeps it between 0 and the new count. *)
Lemma sum_bounds (xs : list num) : forall (k : nat) (acc : num),
  (k + List.length xs <= 3)%nat ->
  f_leb f_zero acc = true -> f_leb acc (f_of_len k) = true ->
  Forall (fun x => in_unit x = true) xs ->
  f_leb f_zero (fold_left f_add xs acc) = true
  /\ f_leb (fold_left f_add xs acc) (f_of_len (k + List.length xs)) = true.
Proof.
  induction xs as [|x xs IH]; intros k acc Hlen H0 H1 Hall.
  - simpl. rewrite Nat.add_0_r. auto.
  - inversion Hall as [|? ? Hx Hxs]; subst.
    simpl List.length in *.
    destruct (add_count k acc x ltac:(lia) H0 H1 Hx) as [A0 A1].
    destruct (IH (S k) (f_add acc x) ltac:(lia) A0 A1 Hxs) as [B0 B1].
    simpl fold_left.
    replace (k + S (List.length xs))%nat with (S k + List.length xs)%nat
      by lia.
    auto.
Qed.

Lemma mean_in_unit (xs : list num) :
  xs <> [] -> (List.length xs <= 3)%nat ->
  Forall (fun x => in_unit x = true) xs ->
  in_unit (f_div (py_sum xs) (f_of_len (List.length xs))) = true.
Proof.
  intros Hne Hlen Hall. unfold py_sum.
  destruct count_zero as [Z0 Z1].
  destruct (sum_bounds xs 0 (f_of_len 0) ltac:(simpl; lia) Z0 Z1 Hall)
    as [B0 B1].
  simpl in B1.
  apply div_count; [|assumption|assumption].
  destruct xs; [congruence | simpl List.length in *; lia].
Qed.

Variable self : Validator.

Lemma confidence_scores_in_unit invoice :
  confidences_in_unit invoice ->
  Forall (fun x => in_unit x = true) (confidence_scores invoice).
Proof.
  intros H. unfold confidence_scores, critical_fields. simpl.
  repeat match goal with
         | |- context [slot invoice ?f] =>
             let E := fresh "E" in
             destruct (slot invoice f) eqn:E;
             [apply H in E|]
         end; simpl; repeat constructor; assumption.
Qed.

Lemma confidence_scores_short invoice :
  (List.length (confidence_scores invoice) <= 3)%nat.
Proof.
  unfold confidence_scores, critical_fields. simpl.
  destruct (slot invoice "invoice_number"), (slot invoice "total"),
    (slot invoice "invoice_date"); simpl; lia.
Qed.

(** The aggregate of in-range confidences is in range. *)
Lemma overall_confidence_in_unit (invoice : InvoiceSchema) :
  confidences_in_unit invoice -> in_unit (overall_confidence invoice) = true.
Proof.
  intros Hinv. unfold overall_confidence.
  pose proof (confidence_scores_in_unit invoice Hinv) as Hall.
  pose proof (confidence_scores_short invoice) as Hlen.
  destruct (confidence_scores invoice) as [|x xs] eqn:E.
  - unfold in_unit. rewrite leb_zero_zero, leb_zero_one. reflexivity.
  - apply mean_in_unit; [discriminate | assumption | assumption].
Qed.

(** C10: on a record whose audit confidences all lie within [0, 1], the
    aggregate confidence lies within [0, 1] (it is exactly 0.0 when no
    critical field is present), so building the [RoutingDecision]
    succeeds and [route] returns a decision with its score in range. *)
Theorem route_confidence_score_in_unit (invoice : InvoiceSchema)
    (validation : ValidationResult) :
  confidences_in_unit invoice ->
  in_unit (overall_confidence invoice) = true
  /\ (present_critical invoice = [] -> overall_confidence invoice = f_zero)
  /\ exists d, route self invoice validation = Ok d
               /\ confidence_score d = overall_confidence invoice
               /\ f_leb f_zero (confidence_score d) = true
               /\ f_leb (confidence_score d) f_one = true.
Proof.
  intros Hinv.
  pose proof (overall_confidence_in_unit invoice Hinv) as Hu.
  split; [exact Hu|]. split.
  - intros Hp. unfold overall_confidence.
    rewrite confidence_scores_present, Hp. reflexivity.
  - destruct (route_returns self invoice validation Hu) as [d Hd].
    exists d. destruct (route_inv _ _ _ _ Hd) as (_ & _ & Hc & _).
    rewrite Hc. apply andb_prop in Hu. tauto.
Qed.

End MeanBounds.

(* ================================================================== *)
(** * Low-confidence reason codes *)

Section LowConfidenceFacts.

Context {C : Carrier} {F : PyFloatOps}.

Variable self : Validator.

Lemma in_critical_fields (field : string) :
  In field critical_fields <->
  field = "invoice_number" \/ field = "total" \/ field = "invoice_date".
Proof. unfold critical_fields; simpl; intuition. Qed.

(** C3, as the code has it: a critical field is collected exactly when
    its slot is present and its confidence is below
    [low_confidence_threshold]; an absent slot is never collected.  The
    collected names keep the order of [critical_fields]; when there is at
    least one, [route] appends [LOW_CONFIDENCE] and then the single code
    [LOW_CONF_] followed by the upper-cased names joined by underscores,
    and otherwise appends nothing. *)
Theorem low_confidence_codes_of_present_fields (invoice : InvoiceSchema)
    (validation : ValidationResult) :
  (forall field,
      In field (low_confidence_fields self invoice) <->
      In field critical_fields
      /\ exists a, slot invoice field = Some a
                   /\ f_ltb (confidence a) (low_confidence_threshold self) = true)
  /\ (forall field, slot invoice field = None ->
                    ~ In field (low_confidence_fields self invoice))
  /\ low_confidence_fields self invoice =
       filter (fun field => str_in field (low_confidence_fields self invoice))
         critical_fields
  /\ (forall reason_codes,
        low_confidence_fields self invoice <> [] ->
        confidence_reason_codes self invoice reason_codes =
          reason_codes
          ++ ["LOW_CONFIDENCE";
              ("LOW_CONF_"
               ++ join "_" (map upper (low_confidence_fields self invoice)))%string])
  /\ (forall reason_codes,
        low_confidence_fields self invoice = [] ->
        confidence_reason_codes self invoice reason_codes = reason_codes)
  /\ route_reason_codes self invoice validation =
       warning_reason_codes validation
         (confidence_reason_codes self invoice
            (validation_reason_codes validation [])).
Proof.
  split; [|split; [|split; [|split; [|split]]]].
  - intros field. unfold low_confidence_fields. rewrite filter_In.
    unfold is_low_confidence. split.
    + intros [Hin Hlow]. split; [assumption|].
      destruct (slot invoice field) as [a|]; [eauto | discriminate].
    + intros [Hin (a & Ha & Hlow)]. rewrite Ha. auto.
  - intros field Hnone Hin. unfold low_confidence_fields in Hin.
    apply filter_In in Hin. unfold is_low_confidence in Hin.
    rewrite Hnone in Hin. destruct Hin; discriminate.
  - unfold low_confidence_fields, critical_fields. simpl.
    destruct (is_low_confidence self invoice "invoice_number"),
      (is_low_confidence self invoice "total"),
      (is_low_confidence self invoice "invoice_date"); reflexivity.
  - intros rc Hne. unfold confidence_reason_codes.
    destruct (low_confidence_fields self invoice) as [|f l]; [congruence|].
    unfold low_conf_code. rewrite upper_join. reflexivity.
  - intros rc He. unfold confidence_reason_codes. rewrite He. reflexivity.
  - reflexivity.
Qed.

End LowConfidenceFacts.

(** C3 as stated fails: with the invoice date not extracted and the other
    critical fields at confidence 0.9, the specification's rule collects
    [invoice_date], while [route] collects nothing and returns no
    [LOW_CONFIDENCE] and no [LOW_CONF_INVOICE_DATE] code. *)
Lemma absent_slot_is_not_collected :
  spec_low_confidence_fields (F:=Float64) validator64
    (without_invoice_date (sample64 10800 90 true))
  = ["invoice_date"]
  /\ low_confidence_fields (F:=Float64) validator64
       (without_invoice_date (sample64 10800 90 true))
     = []
  /\ (v <- validate (F:=Float64) (B:=DateOnly) validator64
              (without_invoice_date (sample64 10800 90 true)) ;;
      d <- route (F:=Float64) validator64
             (without_invoice_date (sample64 10800 90 true)) v ;;
      Ok (reason_codes d))
     = Ok ["VALIDATION_FAILED"; "MISSING_REQUIRED_FIELDS"].
Proof. repeat split; vm_compute; reflexivity. Qed.

Lemma low_confidence_codes_of_present_fields_witness :
  confidence_reason_codes (F:=Float64) validator64 (sample64 10800 65 true) []
  = ["LOW_CONFIDENCE"; "LOW_CONF_INVOICE_NUMBER_TOTAL_INVOICE_DATE"].
Proof.
  destruct (low_confidence_codes_of_present_fields (F:=Float64) validator64
              (sample64 10800 65 true) all_passed) as (_ & _ & _ & H & _).
  rewrite H; [vm_compute; reflexivity | vm_compute; discriminate].
Defined.

(* ================================================================== *)
(** * Reconciliation and the total threshold *)

Section CheckFacts.

Context {C : Carrier} {F : PyFloatOps} {B : PyBuiltins}.

Variable self : Validator.



Lemma float_or_zero_falsy (v : PyVal) :
  truthy v = false -> float_or_zero v = Ok f_zero.
Proof. intros H. unfold float_or_zero. rewrite H. reflexivity. Qed.


(** The branches of [_check_total_threshold]. *)
Lemma check_total_threshold_cases (invoice : InvoiceSchema)
    (warnings : list message) :
  (total invoice = None -> 
   _check_total_threshold self invoice warnings = Ok (true, warnings))
  /\ (forall a, total invoice = Some a -> value a = PyNone ->
        _check_total_threshold self invoice warnings = Ok (true, warnings))
  /\ (forall a t, total invoice = Some a -> value a <> PyNone ->
        py_float (value a) = Ok t ->
        _check_total_threshold self invoice warnings =
          if f_gtb t (high_total_threshold self)
          then Ok (false,
                   warnings ++ [HighTotalAmount t (high_total_threshold self)])
          else Ok (true, warnings)).
Proof.
  unfold _check_total_threshold. repeat split.
  - intros ->. reflexivity.
  - intros a -> ->. reflexivity.
  - intros a t -> Hv ->. destruct (value a); try reflexivity. congruence.
Qed.

Lemma total_threshold_false invoice warnings warnings' :
  _check_total_threshold self invoice warnings = Ok (false, warnings') ->
  exists t, f_gtb t (high_total_threshold self) = true
            /\ warnings' =
                 warnings ++ [HighTotalAmount t (high_total_threshold self)].
Proof.
  unfold _check_total_threshold.
  destruct (total invoice) as [a|]; [|discriminate].
  destruct (is_none (value a)); [discriminate|].
  destruct (py_float (value a)) as [t|]; simpl; [|discriminate].
  destruct (f_gtb t (high_total_threshold self)) eqn:E; [|discriminate].
  intros H; inversion H; subst. eauto.
Qed.

Lemma po_present_false invoice warnings warnings' :
  _check_po_present invoice warnings = Ok (false, warnings') ->
  warnings' = warnings ++ [PONumberMissing].
Proof.
  unfold _check_po_present.
  destruct (po_number invoice) as [a|].
  - destruct (is_none (value a)); intros H; inversion H; reflexivity.
  - intros H; inversion H; reflexivity.
Qed.

(** What the two soft checks and the four hard checks do to the result
    of [validate]. *)
Lemma validate_hard_and_soft (invoice : InvoiceSchema) (r : ValidationResult) :
  validate self invoice = Ok r ->
  (passed r = true <->
     forall name, In name hard_checks -> dict_get (checks r) name = Some true)
  /\ (forall name, In name hard_checks -> check_failed r name = true ->
        errors r <> [] /\ passed r = false)
  /\ (check_failed r "total_within_threshold" = true ->
        exists t, f_gtb t (high_total_threshold self) = true
                  /\ In (HighTotalAmount t (high_total_threshold self))
                       (warnings r))
  /\ (check_failed r "po_present" = true -> In PONumberMissing (warnings r)).
Proof.
  intros H.
  destruct (validate_inv self invoice r H)
    as (b1 & b2 & b3 & b4 & b5 & b6 & e1 & e2 & e3 & e4 & w1 & w2
        & H1 & H2 & H3 & H4 & H5 & H6 & ->).
  apply required_fields_grows in H1. apply date_format_grows in H2.
  apply currency_grows in H3. apply reconciliation_grows in H4.
  apply grows_nil_iff in H1, H2, H3, H4.
  assert (Hnil : e4 = [] <->
                 b1 = true /\ b2 = true /\ b3 = true /\ b4 = true)
    by (clear H5 H6; intuition).
  unfold check_failed, hard_checks. simpl.
  split; [|split; [|split]].
  - rewrite length_zero_iff_nil, Hnil. split.
    + intros (-> & -> & -> & ->) name [<- | [<- | [<- | [<- | []]]]];
        reflexivity.
    + intros Hall.
      pose proof (Hall "required_fields_present") as A1.
      pose proof (Hall "date_format_valid") as A2.
      pose proof (Hall "currency_valid") as A3.
      pose proof (Hall "reconciliation_pass") as A4.
      simpl in A1, A2, A3, A4.
      repeat split; [ specialize (A1 ltac:(tauto)) | specialize (A2 ltac:(tauto))
                    | specialize (A3 ltac:(tauto)) | specialize (A4 ltac:(tauto)) ];
        congruence.
  - intros name Hin Hf.
    assert (Hne : e4 <> []).
    { rewrite Hnil. intros (-> & -> & -> & ->).
      destruct Hin as [<- | [<- | [<- | [<- | []]]]]; simpl in Hf;
        discriminate. }
    split; [exact Hne|].
    destruct e4; [congruence | reflexivity].
  - intros Hf. destruct b5; [discriminate|].
    destruct (total_threshold_false _ _ _ H5) as (t & Ht & ->).
    exists t. split; [exact Ht|].
    destruct (po_present_total invoice
                ([] ++ [HighTotalAmount t (high_total_threshold self)]))
      as (b & w & E & G).
    rewrite H6 in E. inversion E; subst b w.
    destruct b6; simpl in G.
    + subst w2. simpl. auto.
    + destruct G as [m ->]. simpl. auto.
  - intros Hf. destruct b6; [discriminate|].
    apply po_present_false in H6. subst. apply in_or_app. simpl. auto.
Qed.

End CheckFacts.



(** C8, as the code has it: [_check_total_threshold] answers true when
    the total slot or its value is absent; otherwise, when the total
    exceeds [high_total_threshold] (100000.0 by default), it answers
    false and appends a warning, never an error.  [passed] is true
    exactly when the four hard checks are true, so this false never makes
    it false.  It shares that with [po_present]: these are the two checks
    whose false outcome comes with a warning; a false outcome of any of
    the four others comes with an error. *)
Theorem total_within_threshold_is_soft :
  forall (C : Carrier) (F : PyFloatOps) (B : PyBuiltins) (self : Validator)
         (invoice : InvoiceSchema) (given : list message),
    (total invoice = None ->
     _check_total_threshold self invoice given = Ok (true, given))
    /\ (forall a, total invoice = Some a -> value a = PyNone ->
          _check_total_threshold self invoice given = Ok (true, given))
    /\ (forall a t, total invoice = Some a -> value a <> PyNone ->
          py_float (value a) = Ok t ->
          (f_gtb t (high_total_threshold self) = true ->
           _check_total_threshold self invoice given =
             Ok (false,
                 given ++ [HighTotalAmount t (high_total_threshold self)]))
          /\ (f_gtb t (high_total_threshold self) = false ->
              _check_total_threshold self invoice given =
                Ok (true, given)))
    /\ (forall r, validate self invoice = Ok r ->
          (passed r = true <->
             forall name, In name hard_checks ->
                          dict_get (checks r) name = Some true)
          /\ (forall name, In name hard_checks ->
                check_failed r name = true ->
                errors r <> [] /\ passed r = false)
          /\ (check_failed r "total_within_threshold" = true ->
                exists t, f_gtb t (high_total_threshold self) = true
                          /\ In (HighTotalAmount t (high_total_threshold self))
                               (warnings r))
          /\ (check_failed r "po_present" = true ->
                In PONumberMissing (warnings r)))
    /\ high_total_threshold default_Validator = f_dec 100000 0.
Proof.
  intros C F B self invoice given.
  destruct (check_total_threshold_cases self invoice given)
    as (H1 & H2 & H3).
  split; [exact H1|]. split; [exact H2|]. split; [|split].
  - intros a t Ha Hv Ht. rewrite (H3 a t Ha Hv Ht).
    split; intros ->; reflexivity.
  - intros r Hr. exact (validate_hard_and_soft self invoice r Hr).
  - reflexivity.
Qed.

(** C8 as stated fails in its last clause: on an invoice without a PO
    number and nothing else amiss, [po_present] is false while [errors]
    is empty and [passed] is true, so [total_within_threshold] is not the
    only check whose false outcome comes without a hard error. *)
Lemma po_present_false_without_error :
  validate (F:=Float64) (B:=DateOnly) validator64 (sample64 10800 90 false)
  = Ok passed_without_po
  /\ check_failed passed_without_po "po_present" = true
  /\ errors passed_without_po = []
  /\ passed passed_without_po = true.
Proof. repeat split; vm_compute; reflexivity. Qed.

Lemma total_within_threshold_is_soft_witness :
  validate (F:=Float64) (B:=DateOnly) validator64
    (without_amounts (sample64 25000000 90 true))
  = Ok {| passed := true;
          checks := [("required_fields_present", true);
                     ("date_format_valid", true);
                     ("currency_valid", true);
                     ("reconciliation_pass", true);
                     ("total_within_threshold", false);
                     ("po_present", true)];
          errors := [];
          warnings := [HighTotalAmount (f64 25000000 2) (f64 100000 0)] |}
  /\ _check_total_threshold (F:=Float64) validator64
       (without_amounts (sample64 25000000 90 true)) []
     = Ok (false, [] ++ [HighTotalAmount (f64 25000000 2)
                           (high_total_threshold validator64)]).
Proof.
  split; [vm_compute; reflexivity|].
  destruct (total_within_threshold_is_soft binary64 Float64 DateOnly validator64
              (without_amounts (sample64 25000000 90 true)) [])
    as (_ & _ & H & _).
  refine (proj1 (H _ (f64 25000000 2) eq_refl _ eq_refl) _).
  - discriminate.
  - vm_compute. reflexivity.
Defined.

Lemma route_auto_post_iff_witness :
  route (F:=Float64) validator64 (sample64 10800 70 true) all_passed
  = Ok (sample_decision 70 "NEEDS_REVIEW")
  /\ f_geb (F:=Float64) (confidence_score (sample_decision 70 "NEEDS_REVIEW"))
       (low_confidence_threshold validator64) = false
  /\ route (F:=Float64) validator64 (sample64 10800 90 true) all_passed
     = Ok (sample_decision 90 "AUTO_POST")
  /\ (outcome (sample_decision 90 "AUTO_POST") = "AUTO_POST" <->
      reason_codes (sample_decision 90 "AUTO_POST") = []
      /\ f_geb (F:=Float64)
           (confidence_score (sample_decision 90 "AUTO_POST"))
           (low_confidence_threshold validator64) = true).
Proof.
  assert (H : route (F:=Float64) validator64 (sample64 10800 90 true) all_passed
              = Ok (sample_decision 90 "AUTO_POST"))
    by (vm_compute; reflexivity).
  split; [vm_compute; reflexivity|].
  split; [vm_compute; reflexivity|].
  split; [exact H|].
  exact (proj1 (route_auto_post_iff (F:=Float64) validator64 _ _ _ H)).
Defined.

Lemma confidence_score_is_mean_of_present_witness :
  overall_confidence (F:=Float64) (without_invoice_date (sample64 10800 90 true))
  = PrimFloat.div (PrimFloat.add (PrimFloat.add PrimFloat.zero (f64 90 2))
                     (f64 90 2))
      (f64 2 0).
Proof.
  assert (H : route (F:=Float64) validator64
                (without_invoice_date (sample64 10800 90 true)) all_passed
              = Ok {| outcome := "AUTO_POST"; reason_codes := [];
                      confidence_score :=
                        overall_confidence (F:=Float64)
                          (without_invoice_date (sample64 10800 90 true)) |})
    by (vm_compute; reflexivity).
  destruct (confidence_score_is_mean_of_present (F:=Float64) validator64 _ _ _ H)
    as (E & _).
  cbn [confidence_score] in E. rewrite E. vm_compute. reflexivity.
Defined.

Lemma route_confidence_score_in_unit_witness :
  in_unit (F:=Float64)
    (overall_confidence (F:=Float64) (sample64 10800 65 true)) = true.
Proof.
  refine (proj1 (route_confidence_score_in_unit (F:=Float64)
                   (L:=Float64_laws) validator64 (sample64 10800 65 true)
                   all_passed _)).
  intros field a.
  unfold slot, sample64, invoice_100_8.
  repeat match goal with
         | |- context [String.eqb field ?s] => destruct (String.eqb field s)
         end;
    intros E; inversion E; subst; vm_compute; reflexivity.
Defined.

(* ================================================================== *)
(** * Facts about the normaliser *)

Section NormalizerFacts.

Context {C : Carrier} {F : PyFloatOps}.

Variable self : Normalizer.

Lemma new_InvoiceSchema_clock (doc : PyVal) (t1 t2 : datetime) (vn : string)
    (raw : pydict) (s1 s2 s3 s4 s5 s6 s7 s8 s9 : option FieldAudit)
    (items : option (list LineItem)) :
  new_InvoiceSchema doc t2 vn raw s1 s2 s3 s4 s5 s6 s7 s8 s9 items
  = result_map (with_timestamp t2)
      (new_InvoiceSchema doc t1 vn raw s1 s2 s3 s4 s5 s6 s7 s8 s9 items).
Proof.
  unfold new_InvoiceSchema. destruct (pydantic_str doc); reflexivity.
Qed.

Ltac step_binds :=
  repeat match goal with
         | |- context [bind ?r _] => destruct r; simpl; try reflexivity
         end.

Lemma normalize_vendor_a_clock (t1 t2 : datetime) output doc vn vv :
  _normalize_vendor_a self t2 output doc vn vv
  = result_map (with_timestamp t2) (_normalize_vendor_a self t1 output doc vn vv).
Proof.
  unfold _normalize_vendor_a. step_binds. apply new_InvoiceSchema_clock.
Qed.

Lemma normalize_vendor_b_clock (t1 t2 : datetime) output doc vn vv :
  _normalize_vendor_b self t2 output doc vn vv
  = result_map (with_timestamp t2) (_normalize_vendor_b self t1 output doc vn vv).
Proof.
  unfold _normalize_vendor_b. step_binds. apply new_InvoiceSchema_clock.
Qed.

Lemma normalize_clock (t1 t2 : datetime) output vn vv :
  normalize self t2 output vn vv
  = result_map (with_timestamp t2) (normalize self t1 output vn vv).
Proof.
  unfold normalize.
  destruct (String.eqb vn "vendor_a"); [apply normalize_vendor_a_clock|].
  destruct (String.eqb vn "vendor_b");
    [apply normalize_vendor_b_clock | apply normalize_vendor_a_clock].
Qed.

Lemma normalize_timestamp (t : datetime) output vn vv r :
  normalize self t output vn vv = Ok r -> extraction_timestamp r = t.
Proof.
  assert (Ha : forall doc, _normalize_vendor_a self t output doc vn vv = Ok r ->
                           extraction_timestamp r = t).
  { intros doc. rewrite (normalize_vendor_a_clock t t).
    destruct (_normalize_vendor_a self t output doc vn vv); simpl;
      intros H; inversion H; reflexivity. }
  assert (Hb : forall doc, _normalize_vendor_b self t output doc vn vv = Ok r ->
                           extraction_timestamp r = t).
  { intros doc. rewrite (normalize_vendor_b_clock t t).
    destruct (_normalize_vendor_b self t output doc vn vv); simpl;
      intros H; inversion H; reflexivity. }
  unfold normalize.
  destruct (String.eqb vn "vendor_a"); [apply Ha|].
  destruct (String.eqb vn "vendor_b"); [apply Hb | apply Ha].
Qed.

(** C9: two runs of [normalize] on the same vendor output, vendor name
    and vendor version, on a normaliser with the same pipeline version,
    differ at most by the clock reading: either both raise the same
    exception, or both return, and then every slot agrees in value,
    confidence, evidence, pipeline_version, vendor_version and
    vendor_field_name, as do the line items and the other metadata; only
    [extraction_timestamp] follows the clock. *)
Theorem normalize_differs_only_in_timestamp (now1 now2 : datetime)
    (vendor_output : pydict) (vendor_name vendor_version : string) :
  normalize self now2 vendor_output vendor_name vendor_version
  = result_map (with_timestamp now2)
      (normalize self now1 vendor_output vendor_name vendor_version)
  /\ (forall e,
        normalize self now1 vendor_output vendor_name vendor_version = Raise e ->
        normalize self now2 vendor_output vendor_name vendor_version = Raise e)
  /\ (forall r1,
        normalize self now1 vendor_output vendor_name vendor_version = Ok r1 ->
        exists r2,
          normalize self now2 vendor_output vendor_name vendor_version = Ok r2
          /\ extraction_timestamp r1 = now1
          /\ extraction_timestamp r2 = now2
          /\ line_items r1 = line_items r2
          /\ doc_id r1 = doc_id r2
          /\ record_vendor_name r1 = record_vendor_name r2
          /\ raw_vendor_output r1 = raw_vendor_output r2
          /\ (forall field, slot r1 field = slot r2 field)
          /\ (forall field a1 a2,
                slot r1 field = Some a1 -> slot r2 field = Some a2 ->
                value a1 = value a2
                /\ confidence a1 = confidence a2
                /\ evidence a1 = evidence a2
                /\ pipeline_version a1 = pipeline_version a2
                /\ audit_vendor_version a1 = audit_vendor_version a2
                /\ vendor_field_name a1 = vendor_field_name a2)).
Proof.
  pose proof (normalize_clock now1 now2 vendor_output vendor_name vendor_version)
    as E.
  split; [exact E|]. split.
  - intros e H. rewrite E, H. reflexivity.
  - intros r1 H. exists (with_timestamp now2 r1).
    split; [rewrite E, H; reflexivity|].
    split; [eapply normalize_timestamp; eassumption|].
    do 5 (split; [reflexivity|]).
    split; [intros field; reflexivity|].
    intros field a1 a2 H1 H2.
    change (slot (with_timestamp now2 r1) field) with (slot r1 field) in H2.
    rewrite H1 in H2. inversion H2; subst. repeat split; reflexivity.
Qed.

End NormalizerFacts.

Section CoercionFacts.

Context {C : Carrier} {F : PyFloatOps}.

Variable self : Normalizer.

Lemma dict_get_set {V : Type} (d : list (string * V)) (k k' : string) (v : V) :
  dict_get (dict_set d k v) k' =
    if String.eqb k k' then Some v else dict_get d k'.
Proof.
  induction d as [|[k0 v0] d IH]; simpl.
  - destruct (String.eqb k k'); reflexivity.
  - destruct (String.eqb k0 k) eqn:E0; simpl.
    + apply String.eqb_eq in E0. subst k0.
      destruct (String.eqb k k'); reflexivity.
    + destruct (String.eqb k0 k') eqn:E1.
      * apply String.eqb_eq in E1. subst k0.
        rewrite String.eqb_sym, E0. reflexivity.
      * exact IH.
Qed.

Lemma new_FieldAudit_value v c ev pv vv vfn a :
  new_FieldAudit v c ev pv vv vfn = Ok a ->
  value a = v /\ in_unit (confidence a) = true.
Proof.
  unfold new_FieldAudit.
  destruct (pydantic_float c) as [x|]; simpl; [|discriminate].
  destruct (in_unit x) eqn:E; [|discriminate].
  intros H; inversion H; subst; simpl. auto.
Qed.

(** Vendor A stores the vendor's value as it came. *)
Lemma create_field_audit_a_value (d : pydict) (vv field_name : string)
    (a : FieldAudit) :
  create_field_audit_a self (PyDict d) vv field_name None = Ok (Some a) ->
  exists entry,
    dict_get d field_name = Some (PyDict entry)
    /\ value a = dict_get_default entry "value" PyNone.
Proof.
  unfold create_field_audit_a. simpl. unfold dict_has.
  destruct (dict_get d field_name) as [e|]; simpl; [|discriminate].
  destruct e as [| | | | | | |entry]; simpl; try discriminate.
  destruct (new_FieldAudit _ _ _ _ _ _) as [a'|] eqn:E; simpl; [|discriminate].
  intros H; inversion H; subst.
  exists entry. split; [reflexivity|].
  apply new_FieldAudit_value in E. tauto.
Qed.

(** Vendor B stores a float in a numeric field, or nothing. *)
Lemma create_field_audit_b_numeric (financial : PyVal)
    (vv vendor_field canonical_field : string) (a : FieldAudit) :
  str_in canonical_field numeric_fields = true ->
  create_field_audit_b self financial vv vendor_field canonical_field
  = Ok (Some a) ->
  exists x, value a = PyFloat x.
Proof.
  intros Hnum. unfold create_field_audit_b. rewrite Hnum.
  destruct (py_contains vendor_field financial) as [[|]|]; simpl;
    try discriminate.
  destruct (py_getitem financial vendor_field) as [fd|]; simpl;
    [|discriminate].
  destruct (py_get fd "text" PyNone) as [v|]; simpl; [|discriminate].
  destruct (py_get fd "score" (PyFloat f_zero)) as [c|]; simpl;
    [|discriminate].
  destruct (py_float v) as [x|[]]; simpl; try discriminate.
  destruct (new_FieldAudit _ _ _ _ _ _) as [a'|] eqn:E; simpl; [|discriminate].
  intros H; inversion H; subst.
  exists x. apply new_FieldAudit_value in E. tauto.
Qed.

(** A text that is not a number leaves the vendor-B slot absent. *)
Lemma create_field_audit_b_not_numeric (d entry : pydict)
    (vv vendor_field canonical_field : string) :
  str_in canonical_field numeric_fields = true ->
  dict_get d vendor_field = Some (PyDict entry) ->
  (py_float (dict_get_default entry "text" PyNone) = Raise ValueError
   \/ py_float (dict_get_default entry "text" PyNone) = Raise TypeError) ->
  create_field_audit_b self (PyDict d) vv vendor_field canonical_field
  = Ok None.
Proof.
  intros Hnum Hd Hf. unfold create_field_audit_b. rewrite Hnum.
  cbn [py_contains py_getitem bind]. unfold dict_has. rewrite Hd.
  cbn [negb py_get bind]. destruct Hf as [-> | ->]; reflexivity.
Qed.

Lemma normalized_fields_loop_numeric (financial : PyVal) (vv : string)
    (mapping : list (string * string)) :
  forall nf nf',
    floats_in_numeric_fields nf ->
    normalized_fields_loop self financial vv mapping nf = Ok nf' ->
    floats_in_numeric_fields nf'.
Proof.
  induction mapping as [|[vf cf] rest IH]; intros nf nf' Hnf; simpl.
  - intros H; inversion H; subst; assumption.
  - destruct (create_field_audit_b self financial vv vf cf) as [o|] eqn:E;
      simpl; [|discriminate].
    apply IH. destruct o as [a|]; [|assumption].
    intros k a' Hk. rewrite dict_get_set.
    destruct (String.eqb cf k) eqn:Ek; [|apply Hnf; assumption].
    apply String.eqb_eq in Ek. subst k.
    intros H; inversion H; subst.
    eapply create_field_audit_b_numeric; eassumption.
Qed.

Lemma normalize_vendor_b_numeric (now : datetime) output doc vn vv r :
  _normalize_vendor_b self now output doc vn vv = Ok r ->
  forall field a, str_in field numeric_fields = true ->
                  slot r field = Some a -> exists x, value a = PyFloat x.
Proof.
  unfold _normalize_vendor_b.
  destruct (py_get _ "financial" _) as [financial|]; cbn [bind];
    [|discriminate].
  destruct (normalized_fields_loop self financial vv field_mapping [])
    as [nf|] eqn:E; cbn [bind]; [|discriminate].
  apply normalized_fields_loop_numeric in E;
    [|intros k0 a0 _ H0; discriminate].
  destruct (py_get _ "items" _) as [items|]; cbn [bind]; [|discriminate].
  match goal with
  | |- bind ?r _ = _ -> _ => destruct r as [li|]; cbn [bind]; [|discriminate]
  end.
  unfold new_InvoiceSchema.
  destruct (pydantic_str doc) as [docid|]; cbn [bind]; [|discriminate].
  intros H; inversion H; subst; clear H.
  intros field a Hnum. unfold numeric_fields, str_in in Hnum. simpl in Hnum.
  destruct (String.eqb field "subtotal") eqn:E1.
  - apply String.eqb_eq in E1. subst field. cbn. apply E. reflexivity.
  - destruct (String.eqb field "tax") eqn:E2.
    + apply String.eqb_eq in E2. subst field. cbn. apply E. reflexivity.
    + destruct (String.eqb field "total") eqn:E3; [|discriminate].
      apply String.eqb_eq in E3. subst field. cbn. apply E. reflexivity.
Qed.

End CoercionFacts.

(* ================================================================== *)
(** * The pipeline on well-formed vendor outputs *)

Section ValidateReturns.

Context {C : Carrier} {F : PyFloatOps} {B : PyBuiltins}.

Variable self : Validator.

Lemma str_in_In (s : string) (l : list string) :
  str_in s l = true <-> In s l.
Proof.
  unfold str_in. rewrite existsb_exists. split.
  - intros (x & Hin & E). apply String.eqb_eq in E. subst. exact Hin.
  - intros Hin. exists s. split; [exact Hin | apply String.eqb_refl].
Qed.

Lemma slot_some_in_names (r : InvoiceSchema) (field : string) (a : FieldAudit) :
  slot r field = Some a -> In field slot_names.
Proof.
  unfold slot, slot_names.
  repeat match goal with
         | |- context [String.eqb field ?s] =>
             let E := fresh "E" in
             destruct (String.eqb field s) eqn:E;
             [apply String.eqb_eq in E; subst field; intros _; simpl; tauto|]
         end.
  discriminate.
Qed.

Lemma getattr_of_slot_name (r : InvoiceSchema) (field : string) :
  In field slot_names -> getattr r field <> AttrOther.
Proof.
  intros Hin. apply str_in_In in Hin. unfold getattr. rewrite Hin.
  destruct (slot r field); discriminate.
Qed.

Lemma required_loop_returns (r : InvoiceSchema) (fields : list string) :
  Forall (fun field => str_in field slot_names = true) fields ->
  forall missing, exists missing', required_loop r fields missing = Ok missing'.
Proof.
  induction 1 as [|field rest Hf _ IH]; intros missing; simpl; [eauto|].
  apply str_in_In in Hf. apply (getattr_of_slot_name r) in Hf.
  unfold required_step.
  destruct (getattr r field) as [a| |]; [| |congruence].
  - destruct (is_none (value a)); simpl; apply IH.
  - simpl. apply IH.
Qed.

Lemma check_required_fields_returns (r : InvoiceSchema) (errors : list message) :
  required_fields_are_slots self ->
  exists b errors', _check_required_fields self r errors = Ok (b, errors').
Proof.
  intros H. unfold _check_required_fields.
  destruct (required_loop_returns r (required_fields self) H []) as [m ->].
  simpl. destruct m; eauto.
Qed.

Lemma float_or_zero_returns (v : PyVal) :
  amount_ok v -> exists x, float_or_zero v = Ok x.
Proof.
  unfold float_or_zero. intros [-> | [x Hx]]; simpl; [eauto|].
  destruct (truthy v); eauto.
Qed.

Lemma check_reconciliation_returns (r : InvoiceSchema) (errors : list message) :
  amounts_ok r ->
  exists b errors', _check_reconciliation self r errors = Ok (b, errors').
Proof.
  intros H. unfold _check_reconciliation.
  destruct (subtotal r) as [s|] eqn:Es; [|eauto].
  destruct (tax r) as [t|] eqn:Et; [|eauto].
  destruct (total r) as [tot|] eqn:Etot; [|eauto].
  destruct (float_or_zero_returns (value s)) as [x ->];
    [apply (H "subtotal"); [reflexivity | exact Es]|].
  destruct (float_or_zero_returns (value t)) as [y ->];
    [apply (H "tax"); [reflexivity | exact Et]|].
  destruct (float_or_zero_returns (value tot)) as [z ->];
    [apply (H "total"); [reflexivity | exact Etot]|].
  simpl. destruct (f_gtb _ _); eauto.
Qed.

Lemma check_total_threshold_returns (r : InvoiceSchema)
    (warnings : list message) :
  amounts_ok r ->
  exists b warnings', _check_total_threshold self r warnings = Ok (b, warnings').
Proof.
  intros H. unfold _check_total_threshold.
  destruct (total r) as [tot|] eqn:Etot; [|eauto].
  destruct (H "total" tot eq_refl Etot) as [-> | [x Hx]]; simpl; [eauto|].
  destruct (is_none (value tot)); [eauto|].
  rewrite Hx. simpl. destruct (f_gtb _ _); eauto.
Qed.

(** [validate] returns on every record whose amounts are readable, when
    the required fields name slots. *)
Lemma validate_returns (r : InvoiceSchema) :
  required_fields_are_slots self -> amounts_ok r ->
  exists v, validate self r = Ok v.
Proof.
  intros Hreq Hamt. unfold validate.
  destruct (check_required_fields_returns r [] Hreq) as (b1 & e1 & ->).
  cbn [bind].
  destruct (date_format_total r e1) as (b2 & e2 & -> & _). cbn [bind].
  destruct (currency_total r e2) as (b3 & e3 & -> & _). cbn [bind].
  destruct (check_reconciliation_returns r e3 Hamt) as (b4 & e4 & ->).
  cbn [bind].
  destruct (check_total_threshold_returns r [] Hamt) as (b5 & w1 & ->).
  cbn [bind].
  destruct (po_present_total r w1) as (b6 & w2 & -> & _). cbn [bind].
  eauto.
Qed.

End ValidateReturns.

Section NormalizeReturns.

Context {C : Carrier} {F : PyFloatOps} {L : PyFloatLaws F}.

Variable self : Normalizer.

Lemma in_unit_zero : in_unit f_zero = true.
Proof. unfold in_unit. rewrite leb_zero_zero, leb_zero_one. reflexivity. Qed.

Lemma confidence_default_ok (d : pydict) (k : string) :
  when_present confidence_ok (dict_get d k) ->
  confidence_ok (dict_get_default d k (PyFloat f_zero)).
Proof.
  unfold dict_get_default. destruct (dict_get d k); simpl; [auto|].
  intros _. exists f_zero. split; [reflexivity | apply in_unit_zero].
Qed.

Lemma new_FieldAudit_returns v c ev pv vv vfn :
  confidence_ok c ->
  exists a, new_FieldAudit v c ev pv vv vfn = Ok a
            /\ value a = v /\ in_unit (confidence a) = true.
Proof.
  intros (x & Hx & Hu). unfold new_FieldAudit. rewrite Hx. cbn [bind].
  rewrite Hu. eexists. split; [reflexivity|]. simpl. auto.
Qed.

Lemma create_field_audit_a_returns (d : pydict) (vv field : string) :
  when_present (entry_ok_a field) (dict_get d field) ->
  exists o, create_field_audit_a self (PyDict d) vv field None = Ok o
            /\ audit_ok field o.
Proof.
  intros H. unfold create_field_audit_a. cbn [py_contains bind].
  unfold dict_has. cbn [py_getitem].
  destruct (dict_get d field) as [e|]; cbn [negb].
  - destruct H as (ed & -> & Hc & Hv). cbn [bind py_get].
    destruct (new_FieldAudit_returns (dict_get_default ed "value" PyNone)
                (dict_get_default ed "confidence" (PyFloat f_zero))
                (Some (Evidence_page 1)) (self_pipeline_version self) vv
                (Some (name_or None field)) (confidence_default_ok ed _ Hc))
      as (a & -> & Hval & Hu).
    cbn [bind]. eexists. split; [reflexivity|].
    intros a' E. inversion E; subst a'. rewrite Hval. auto.
  - exists None. split; [reflexivity|]. intros a E. discriminate.
Qed.

Lemma py_float_raises (v : PyVal) (e : exn) :
  py_float v = Raise e -> e = ValueError \/ e = TypeError \/ e = OverflowError.
Proof.
  destruct v; simpl; try (intros H; inversion H; auto; fail).
  - destruct (f_of_Z z); intros H; inversion H; auto.
  - destruct (f_of_string s); intros H; inversion H; auto.
Qed.

Lemma create_field_audit_b_returns (fd : pydict) (vv vendor_field cf : string) :
  when_present (entry_ok_b cf) (dict_get fd vendor_field) ->
  exists o, create_field_audit_b self (PyDict fd) vv vendor_field cf = Ok o
            /\ audit_ok cf o.
Proof.
  intros H. unfold create_field_audit_b. cbn [py_contains bind].
  unfold dict_has. cbn [py_getitem].
  destruct (dict_get fd vendor_field) as [e|]; cbn [negb].
  - destruct H as (ed & -> & Hc & Hv). cbn [bind py_get].
    pose proof (confidence_default_ok ed "score" Hc) as Hc'.
    destruct (str_in cf numeric_fields) eqn:Hnum.
    + destruct (py_float (dict_get_default ed "text" PyNone)) as [x|e] eqn:Ef.
      * cbn [bind except_value_type].
        destruct (new_FieldAudit_returns (PyFloat x)
                    (dict_get_default ed "score" (PyFloat f_zero))
                    (Some (Evidence_page 1)) (self_pipeline_version self) vv
                    (Some vendor_field) Hc') as (a & -> & Hval & Hu).
        cbn [bind]. eexists. split; [reflexivity|].
        intros a' E. inversion E; subst a'. rewrite Hval.
        split; [exact Hu|]. intros _. right. exists x. reflexivity.
      * destruct (py_float_raises _ _ Ef) as [-> | [-> | ->]];
          cbn [bind except_value_type].
        -- exists None. split; [reflexivity|]. intros a E. discriminate.
        -- exists None. split; [reflexivity|]. intros a E. discriminate.
        -- exfalso. exact (Hv eq_refl eq_refl).
    + destruct (new_FieldAudit_returns (dict_get_default ed "text" PyNone)
                  (dict_get_default ed "score" (PyFloat f_zero))
                  (Some (Evidence_page 1)) (self_pipeline_version self) vv
                  (Some vendor_field) Hc') as (a & -> & Hval & Hu).
      cbn [bind]. eexists. split; [reflexivity|].
      intros a' E. inversion E; subst a'.
      split; [exact Hu|]. intros Hn. rewrite Hnum in Hn. discriminate.
  - exists None. split; [reflexivity|]. intros a E. discriminate.
Qed.

Lemma pydantic_float_default_ok (d : pydict) (k : string) :
  when_present float_field_ok (dict_get d k) ->
  exists x, pydantic_float (dict_get_default d k (PyFloat f_zero)) = Ok x.
Proof.
  unfold dict_get_default. destruct (dict_get d k); simpl; [auto | eauto].
Qed.

Lemma pydantic_opt_float_default_ok (d : pydict) (k : string) :
  when_present (fun v => v = PyNone \/ float_field_ok v) (dict_get d k) ->
  exists o, pydantic_opt_float (dict_get_default d k PyNone) = Ok o.
Proof.
  unfold dict_get_default. destruct (dict_get d k) as [v|]; simpl; [|eauto].
  intros [-> | [x Hx]]; [simpl; eauto|].
  unfold pydantic_opt_float. destruct v; eauto; rewrite Hx; simpl; eauto.
Qed.

Lemma line_item_of_returns (kd kq kp ka kc vv : string) (item : PyVal) :
  item_ok kd kq kp ka kc item ->
  exists li, line_item_of self kd kq kp ka kc vv item = Ok li.
Proof.
  intros (d & -> & Hd & Hq & Hp & Ha & Hc).
  unfold line_item_of. cbn [py_get bind].
  destruct (new_FieldAudit_returns (PyDict d)
              (dict_get_default d kc (PyFloat f_zero))
              (Some (Evidence_page 1)) (self_pipeline_version self) vv
              (Some "line_item") (confidence_default_ok d kc Hc))
    as (a & -> & _ & _).
  cbn [bind]. unfold new_LineItem.
  assert (Hs : exists s, pydantic_str (dict_get_default d kd (PyStr "")) = Ok s).
  { unfold dict_get_default. destruct (dict_get d kd) as [v|]; simpl in *.
    - destruct Hd as [s ->]. simpl. eauto.
    - eauto. }
  destruct Hs as [s ->]. cbn [bind].
  destruct (pydantic_opt_float_default_ok d kq Hq) as [q ->]. cbn [bind].
  destruct (pydantic_opt_float_default_ok d kp Hp) as [u ->]. cbn [bind].
  destruct (pydantic_float_default_ok d ka Ha) as [x ->]. cbn [bind].
  eauto.
Qed.

Lemma mapM_returns {A B' : Type} (f : A -> result B') (l : list A) :
  Forall (fun x => exists y, f x = Ok y) l -> exists ys, mapM f l = Ok ys.
Proof.
  induction 1 as [|x l [y Hy] _ [ys IH]]; simpl; [eauto|].
  rewrite Hy. cbn [bind]. rewrite IH. cbn [bind]. eauto.
Qed.

Lemma line_items_return (kd kq kp ka kc vv : string) (l : list PyVal) :
  Forall (item_ok kd kq kp ka kc) l ->
  exists ys, mapM (line_item_of self kd kq kp ka kc vv) l = Ok ys.
Proof.
  intros H. apply mapM_returns.
  eapply Forall_impl; [|exact H].
  intros item Hi. apply line_item_of_returns. exact Hi.
Qed.

End NormalizeReturns.

Section PipelineReturns.

Context {C : Carrier} {F : PyFloatOps} {L : PyFloatLaws F}.

Variable self : Normalizer.

Lemma items_default_ok (ok : PyVal -> Prop) (d : pydict) (k : string) :
  when_present (items_ok ok) (dict_get d k) ->
  exists l, dict_get_default d k (PyList []) = PyList l /\ Forall ok l.
Proof.
  unfold dict_get_default. destruct (dict_get d k); simpl; [auto|].
  intros _. exists []. auto.
Qed.

Lemma normalize_vendor_a_returns (now : datetime) (output : pydict)
    (doc : PyVal) (vn vv : string) :
  well_formed_a output -> (exists s, doc = PyStr s) ->
  exists r, _normalize_vendor_a self now output doc vn vv = Ok r
            /\ forall field, In field slot_names -> audit_ok field (slot r field).
Proof.
  intros [Hf Hi] [s ->]. unfold _normalize_vendor_a.
  assert (Hd : exists d,
             dict_get_default output "fields" (PyDict []) = PyDict d
             /\ forall field, In field slot_names ->
                              when_present (entry_ok_a field) (dict_get d field)).
  { unfold dict_get_default. destruct (dict_get output "fields") as [f|].
    - destruct Hf as (d & -> & Hd). eauto.
    - exists []. split; [reflexivity|]. intros field _. exact I. }
  destruct Hd as (d & -> & Hd).
  assert (Hl : exists o,
             (if dict_has output "line_items"
              then container <- py_getitem (PyDict output) "line_items" ;;
                   items <- py_iter container ;;
                   l <- mapM (line_item_a self vv) items ;;
                   Ok (Some l)
              else Ok None) = Ok o).
  { unfold dict_has. cbn [py_getitem].
    destruct (dict_get output "line_items") as [li|]; [|eauto].
    destruct Hi as (l & -> & Hl). cbn [bind py_iter].
    destruct (line_items_return self "description" "quantity" "unit_price"
                "amount" "confidence" vv l Hl) as [ys Hys].
    unfold line_item_a. rewrite Hys. cbn [bind]. eauto. }
  destruct Hl as [items ->]. cbn [bind].
  destruct (create_field_audit_a_returns self d vv "invoice_number"
              (Hd "invoice_number" ltac:(simpl; tauto))) as (o1 & -> & A1). cbn [bind].
  destruct (create_field_audit_a_returns self d vv "invoice_date"
              (Hd "invoice_date" ltac:(simpl; tauto))) as (o2 & -> & A2). cbn [bind].
  destruct (create_field_audit_a_returns self d vv "supplier_name"
              (Hd "supplier_name" ltac:(simpl; tauto))) as (o3 & -> & A3). cbn [bind].
  destruct (create_field_audit_a_returns self d vv "supplier_id"
              (Hd "supplier_id" ltac:(simpl; tauto))) as (o4 & -> & A4). cbn [bind].
  destruct (create_field_audit_a_returns self d vv "currency"
              (Hd "currency" ltac:(simpl; tauto))) as (o5 & -> & A5). cbn [bind].
  destruct (create_field_audit_a_returns self d vv "subtotal"
              (Hd "subtotal" ltac:(simpl; tauto))) as (o6 & -> & A6). cbn [bind].
  destruct (create_field_audit_a_returns self d vv "tax"
              (Hd "tax" ltac:(simpl; tauto))) as (o7 & -> & A7). cbn [bind].
  destruct (create_field_audit_a_returns self d vv "total"
              (Hd "total" ltac:(simpl; tauto))) as (o8 & -> & A8). cbn [bind].
  destruct (create_field_audit_a_returns self d vv "po_number"
              (Hd "po_number" ltac:(simpl; tauto))) as (o9 & -> & A9). cbn [bind].
  unfold new_InvoiceSchema. cbn [pydantic_str bind].
  eexists. split; [reflexivity|].
  intros field Hin. simpl in Hin.
  destruct Hin as [<- | [<- | [<- | [<- | [<- | [<- | [<- | [<- | [<- | []]]]]]]]]];
    assumption.
Qed.

Lemma normalized_fields_loop_returns (fd : pydict) (vv : string)
    (mapping : list (string * string)) :
  (forall vf cf, In (vf, cf) mapping ->
                 when_present (entry_ok_b cf) (dict_get fd vf)) ->
  forall nf, (forall k, audit_ok k (dict_get nf k)) ->
  exists nf', normalized_fields_loop self (PyDict fd) vv mapping nf = Ok nf'
              /\ forall k, audit_ok k (dict_get nf' k).
Proof.
  induction mapping as [|[vf cf] rest IH]; intros Hm nf Hnf; simpl; [eauto|].
  destruct (create_field_audit_b_returns self fd vv vf cf
              (Hm vf cf (or_introl eq_refl))) as (o & -> & Ho).
  cbn [bind]. apply IH.
  - intros vf' cf' Hin. apply Hm. right. exact Hin.
  - destruct o as [a|]; [|exact Hnf].
    intros k. rewrite dict_get_set.
    destruct (String.eqb cf k) eqn:E; [|apply Hnf].
    apply String.eqb_eq in E. subst k. exact Ho.
Qed.

Lemma normalize_vendor_b_returns (now : datetime) (output : pydict)
    (doc : PyVal) (vn vv : string) :
  well_formed_b output -> (exists s, doc = PyStr s) ->
  exists r, _normalize_vendor_b self now output doc vn vv = Ok r
            /\ forall field, In field slot_names -> audit_ok field (slot r field).
Proof.
  intros Hw [s ->]. unfold _normalize_vendor_b.
  assert (Hd : exists d,
             dict_get_default output "extracted_data" (PyDict []) = PyDict d
             /\ when_present
                  (fun financial =>
                     exists fd, financial = PyDict fd
                       /\ forall vf cf, In (vf, cf) field_mapping ->
                             when_present (entry_ok_b cf) (dict_get fd vf))
                  (dict_get d "financial")
             /\ when_present
                  (items_ok (item_ok "desc" "qty" "price" "line_total" "score"))
                  (dict_get d "items")).
  { unfold dict_get_default. unfold well_formed_b in Hw.
    destruct (dict_get output "extracted_data") as [e|].
    - destruct Hw as (d & -> & Hfin & Hit). eauto.
    - exists []. simpl. auto. }
  destruct Hd as (d & -> & Hfin & Hit). cbn [py_get bind].
  assert (Hfd : exists fd,
             dict_get_default d "financial" (PyDict []) = PyDict fd
             /\ forall vf cf, In (vf, cf) field_mapping ->
                   when_present (entry_ok_b cf) (dict_get fd vf)).
  { unfold dict_get_default. destruct (dict_get d "financial") as [f|].
    - destruct Hfin as (fd & -> & Hfd). eauto.
    - exists []. split; [reflexivity|]. intros vf cf _. exact I. }
  destruct Hfd as (fd & -> & Hfd).
  destruct (normalized_fields_loop_returns fd vv field_mapping Hfd [])
    as (nf & -> & Hnf); [intros k a E; discriminate|].
  cbn [bind].
  destruct (items_default_ok _ d "items" Hit) as (l & -> & Hl).
  assert (Hitems : exists o,
             (if truthy (PyList l)
              then items' <- py_iter (PyList l) ;;
                   l0 <- mapM (line_item_b self vv) items' ;;
                   Ok (Some l0)
              else Ok None) = Ok o).
  { destruct l as [|i l]; [simpl; eauto|].
    cbn [truthy py_iter bind].
    destruct (line_items_return self "desc" "qty" "price" "line_total" "score"
                vv (i :: l) Hl) as [ys Hys].
    unfold line_item_b. rewrite Hys. cbn [bind]. eauto. }
  destruct Hitems as [o ->]. cbn [bind].
  unfold new_InvoiceSchema. cbn [pydantic_str bind].
  eexists. split; [reflexivity|].
  intros field Hin. simpl in Hin.
  destruct Hin as [<- | [<- | [<- | [<- | [<- | [<- | [<- | [<- | [<- | []]]]]]]]]];
    apply Hnf.
Qed.

(** [normalize] returns on a well-formed output, and the record it
    returns has its confidences in range and its amounts readable. *)
Lemma normalize_returns (now : datetime) (output : pydict) (vn vv : string) :
  well_formed vn output ->
  exists r, normalize self now output vn vv = Ok r
            /\ confidences_in_unit r /\ amounts_ok r.
Proof.
  intros [Hdoc Hw].
  assert (H : exists r, normalize self now output vn vv = Ok r
                        /\ forall field, In field slot_names ->
                                         audit_ok field (slot r field)).
  { unfold normalize.
    destruct (String.eqb vn "vendor_a");
      [apply normalize_vendor_a_returns; assumption|].
    destruct (String.eqb vn "vendor_b");
      [apply normalize_vendor_b_returns | apply normalize_vendor_a_returns];
      assumption. }
  destruct H as (r & Hr & Hs). exists r. split; [exact Hr|]. split.
  - intros field a E.
    exact (proj1 (Hs field (slot_some_in_names r field a E) a E)).
  - intros field a Hnum E.
    exact (proj2 (Hs field (slot_some_in_names r field a E) a E) Hnum).
Qed.

End PipelineReturns.

(** C4: vendor B coerces the numeric fields (a record it returns holds a
    float in subtotal, tax and total, or no slot); vendor A, and the
    fallback for other vendor names, do not.  On the total text "abc",
    vendor A keeps the slot with the text as its value, where vendor B
    leaves the slot absent, and the validator's [float] then raises
    [ValueError]; on the text "108.00" vendor A keeps the text, where
    vendor B stores the float 108.0. *)
Theorem numeric_coercion_by_vendor :
  (forall (C : Carrier) (F : PyFloatOps) (self : Normalizer) (now : datetime)
          (output : pydict) (vv : string) (r : InvoiceSchema),
      normalize self now output "vendor_b" vv = Ok r ->
      forall field a, In field numeric_fields -> slot r field = Some a ->
                      exists x, value a = PyFloat x)
  /\ result_map total
       (normalize (F:=Float64) default_Normalizer 0%Z
          (vendor_a_output (F:=Float64) (PyStr "abc") (f64 9 1))
          "vendor_a" "v1")
     = Ok (Some {| value := PyStr "abc"; confidence := f64 9 1;
                   evidence := Some (Evidence_page 1);
                   pipeline_version := "1.0.0"; vendor_version := "v1";
                   vendor_field_name := Some "total" |})
  /\ result_map total
       (normalize (F:=Float64) default_Normalizer 0%Z
          (vendor_a_output (F:=Float64) (PyStr "abc") (f64 9 1))
          "azure_document_intelligence" "v1")
     = Ok (Some {| value := PyStr "abc"; confidence := f64 9 1;
                   evidence := Some (Evidence_page 1);
                   pipeline_version := "1.0.0"; vendor_version := "v1";
                   vendor_field_name := Some "total" |})
  /\ result_map total
       (normalize (F:=Float64) default_Normalizer 0%Z
          (vendor_b_output (F:=Float64) (PyStr "abc") (f64 9 1))
          "vendor_b" "v1")
     = Ok None
  /\ core_pipeline (F:=Float64) (B:=DateOnly) default_Normalizer validator64 0%Z
       (vendor_a_output (F:=Float64) (PyStr "abc") (f64 9 1)) "vendor_a" "v1"
     = Raise ValueError
  /\ result_map (fun r => option_map value (total r))
       (normalize (F:=Float64) default_Normalizer 0%Z
          (vendor_a_output (F:=Float64) (PyStr "108.00") (f64 9 1))
          "vendor_a" "v1")
     = Ok (Some (PyStr "108.00"))
  /\ result_map (fun r => option_map value (total r))
       (normalize (F:=Float64) default_Normalizer 0%Z
          (vendor_b_output (F:=Float64) (PyStr "108.00") (f64 9 1))
          "vendor_b" "v1")
     = Ok (Some (PyFloat (f64 10800 2))).
Proof.
  split; [|repeat split; vm_compute; reflexivity].
  intros C F self now output vv r H field a Hin Hs.
  unfold normalize in H. cbn [String.eqb Ascii.eqb Bool.eqb] in H.
  eapply normalize_vendor_b_numeric; [exact H | | exact Hs].
  apply str_in_In. exact Hin.
Qed.

Lemma numeric_coercion_by_vendor_witness :
  exists x,
    result_map (fun r => option_map value (slot r "subtotal"))
      (normalize (F:=Float64) default_Normalizer 0%Z
         (vendor_b_output (F:=Float64) (PyStr "108.00") (f64 9 1))
         "vendor_b" "v1")
    = Ok (Some (PyFloat x)).
Proof.
  destruct (normalize (F:=Float64) default_Normalizer 0%Z
              (vendor_b_output (F:=Float64) (PyStr "108.00") (f64 9 1))
              "vendor_b" "v1") as [r|e] eqn:E;
    [|vm_compute in E; discriminate E].
  destruct (slot r "subtotal") as [a|] eqn:Es.
  - destruct (proj1 numeric_coercion_by_vendor binary64 Float64
                default_Normalizer 0%Z _ "v1" r E "subtotal" a
                ltac:(simpl; tauto) Es) as [x Hx].
    exists x. simpl. rewrite Es. simpl. rewrite Hx. reflexivity.
  - exfalso. revert Es. 
    assert (Hr : result_map (fun r => slot r "subtotal")
                   (normalize (F:=Float64) default_Normalizer 0%Z
                      (vendor_b_output (F:=Float64) (PyStr "108.00") (f64 9 1))
                      "vendor_b" "v1") <> Ok None)
      by (vm_compute; discriminate).
    rewrite E in Hr. simpl in Hr. congruence.
Defined.

Lemma normalize_differs_only_in_timestamp_witness :
  exists r1 r2,
    normalize (F:=Float64) default_Normalizer 1700000000%Z
      (vendor_a_output (F:=Float64) (PyFloat (f64 10800 2)) (f64 9 1))
      "vendor_a" "v1" = Ok r1
    /\ normalize (F:=Float64) default_Normalizer 1700086400%Z
         (vendor_a_output (F:=Float64) (PyFloat (f64 10800 2)) (f64 9 1))
         "vendor_a" "v1" = Ok r2
    /\ extraction_timestamp r1 = 1700000000%Z
    /\ extraction_timestamp r2 = 1700086400%Z
    /\ total r1 = total r2.
Proof.
  destruct (normalize (F:=Float64) default_Normalizer 1700000000%Z
              (vendor_a_output (F:=Float64) (PyFloat (f64 10800 2)) (f64 9 1))
              "vendor_a" "v1") as [r1|e] eqn:E;
    [|vm_compute in E; discriminate E].
  destruct (normalize_differs_only_in_timestamp (F:=Float64) default_Normalizer
              1700000000%Z 1700086400%Z
              (vendor_a_output (F:=Float64) (PyFloat (f64 10800 2)) (f64 9 1))
              "vendor_a" "v1") as (_ & _ & H).
  destruct (H r1 E) as (r2 & E2 & T1 & T2 & _ & _ & _ & _ & S & _).
  exists r1, r2. repeat split; try assumption.
  exact (S "total").
Defined.

(* ================================================================== *)
(** * Further facts about the validator *)

Section RequiredFieldsFacts.

Context {C : Carrier} {F : PyFloatOps} {B : PyBuiltins}.

Variable self : Validator.

Lemma getattr_slot_name (r : InvoiceSchema) (field : string) :
  str_in field slot_names = true ->
  getattr r field =
    match slot r field with Some a => AttrAudit a | None => AttrNone end.
Proof. intros H. unfold getattr. rewrite H. reflexivity. Qed.

Lemma required_loop_filter (invoice : InvoiceSchema) (fields : list string) :
  Forall (fun field => str_in field slot_names = true) fields ->
  forall missing,
    required_loop invoice fields missing
    = Ok (missing ++ filter (is_missing invoice) fields).
Proof.
  induction 1 as [|field rest Hf _ IH]; intros missing; simpl.
  - rewrite app_nil_r. reflexivity.
  - unfold required_step, is_missing. rewrite (getattr_slot_name _ _ Hf).
    destruct (slot invoice field) as [a|]; simpl.
    + destruct (is_none (value a)); simpl; rewrite IH; [|reflexivity].
      rewrite <- app_assoc. reflexivity.
    + rewrite IH, <- app_assoc. reflexivity.
Qed.

Lemma required_loop_raises (invoice : InvoiceSchema) (fields : list string) :
  forall missing e,
    required_loop invoice fields missing = Raise e -> e = AttributeError.
Proof.
  induction fields as [|field rest IH]; intros missing e; simpl;
    [discriminate|].
  unfold required_step.
  destruct (getattr invoice field) as [a| |]; simpl.
  - destruct (is_none (value a)); simpl; apply IH.
  - apply IH.
  - intros H; inversion H; reflexivity.
Qed.

Lemma required_step_returned (invoice : InvoiceSchema) (missing : list string)
    (field : string) (missing' : list string) :
  required_step invoice missing field = Ok missing' ->
  missing' = missing ++ filter (is_missing invoice) [field].
Proof.
  unfold required_step, is_missing, getattr. cbn [filter].
  destruct (str_in field slot_names) eqn:Hs.
  - destruct (slot invoice field) as [a|].
    + destruct (is_none (value a)); intros H; inversion H;
        [reflexivity | rewrite app_nil_r; reflexivity].
    + intros H; inversion H; reflexivity.
  - assert (Hn : slot invoice field = None).
    { destruct (slot invoice field) as [a|] eqn:E; [|reflexivity].
      apply slot_some_in_names, str_in_In in E. congruence. }
    rewrite Hn.
    destruct (String.eqb field "line_items").
    + destruct (line_items invoice); [discriminate|].
      intros H; inversion H; reflexivity.
    + destruct (str_in field ["doc_id"; "extraction_timestamp"; "vendor_name";
                              "raw_vendor_output"]); [discriminate|].
      destruct (inherited_attribute field); [discriminate|].
      intros H; inversion H; reflexivity.
Qed.

Lemma required_loop_returned (invoice : InvoiceSchema) (fields : list string) :
  forall missing missing',
    required_loop invoice fields missing = Ok missing' ->
    missing' = missing ++ filter (is_missing invoice) fields.
Proof.
  induction fields as [|field rest IH]; intros missing missing'; simpl.
  - intros H; inversion H. rewrite app_nil_r. reflexivity.
  - destruct (required_step invoice missing field) as [m|] eqn:E; cbn [bind];
      [|discriminate].
    apply required_step_returned in E. intros H. apply IH in H.
    rewrite H, E. cbn [filter].
    destruct (is_missing invoice field); cbn [app];
      rewrite <- ?app_assoc, ?app_nil_r; reflexivity.
Qed.

(** X1: [_check_required_fields] raises [AttributeError] or returns, and
    with required fields that name slots it returns.  When it returns,
    it answers true and leaves [errors] alone if every required field has
    a slot with a non-null value; otherwise it answers false and appends
    exactly one error, which lists the missing fields in the order of
    [required_fields]. *)
Theorem check_required_fields_lists_missing (invoice : InvoiceSchema)
    (errors : list message) :
  let listed :=
    match filter (is_missing invoice) (required_fields self) with
    | [] => Ok (true, errors)
    | missing => Ok (false, errors ++ [MissingRequiredFields missing])
    end in
  (_check_required_fields self invoice errors = Raise AttributeError
   \/ _check_required_fields self invoice errors = listed)
  /\ (required_fields_are_slots self ->
      _check_required_fields self invoice errors = listed).
Proof.
  cbv zeta. split.
  - unfold _check_required_fields.
    destruct (required_loop invoice (required_fields self) []) as [m|e] eqn:L;
      cbn [bind].
    + right. apply required_loop_returned in L. subst m. cbn [app].
      destruct (filter (is_missing invoice) (required_fields self));
        reflexivity.
    + left. apply required_loop_raises in L. subst e. reflexivity.
  - intros H. unfold _check_required_fields.
    rewrite (required_loop_filter invoice _ H). cbn [bind app].
    destruct (filter (is_missing invoice) (required_fields self)); reflexivity.
Qed.

Lemma grows_length (b : bool) (acc acc' : list message) :
  grows b acc acc' ->
  List.length acc' = (List.length acc + if b then 0 else 1)%nat.
Proof.
  destruct b; simpl.
  - intros ->. lia.
  - intros [m ->]. rewrite length_app. reflexivity.
Qed.

(** X2: a result of [validate] holds the six checks under their names
    in execution order, one error for each hard check that failed and
    one warning for each soft check that failed, and nothing else. *)
Theorem validate_one_message_per_failed_check (invoice : InvoiceSchema)
    (r : ValidationResult) :
  validate self invoice = Ok r ->
  map fst (checks r) = check_names
  /\ List.length (errors r) = count_failed r hard_checks
  /\ List.length (warnings r) = count_failed r soft_checks.
Proof.
  intros H.
  destruct (validate_inv self invoice r H)
    as (b1 & b2 & b3 & b4 & b5 & b6 & e1 & e2 & e3 & e4 & w1 & w2
        & H1 & H2 & H3 & H4 & H5 & H6 & ->).
  apply required_fields_grows, grows_length in H1.
  apply date_format_grows, grows_length in H2.
  apply currency_grows, grows_length in H3.
  apply reconciliation_grows, grows_length in H4.
  apply total_threshold_grows, grows_length in H5.
  assert (G6 : grows b6 w1 w2).
  { destruct (po_present_total invoice w1) as (b & w & E & G).
    rewrite H6 in E. inversion E; subst. exact G. }
  apply grows_length in G6.
  split; [reflexivity|].
  unfold count_failed, hard_checks, soft_checks, check_failed. simpl in *.
  split.
  - rewrite H4, H3, H2, H1. destruct b1, b2, b3, b4; reflexivity.
  - rewrite G6, H5. destruct b5, b6; reflexivity.
Qed.

Lemma float_or_zero_raises (v : PyVal) (e : exn) :
  float_or_zero v = Raise e -> v <> PyNone /\ py_float v = Raise e.
Proof.
  unfold float_or_zero. destruct (truthy v) eqn:T; [|discriminate].
  intros H. split; [|exact H]. intros ->. discriminate.
Qed.

(** X3: the only exceptions [validate] lets out are [AttributeError],
    when a required field names an attribute that is not a slot, and the
    exception of [float] on the non-null value of a subtotal, tax or total
    slot. *)
Theorem validate_raises_only_on_unreadable_amount (invoice : InvoiceSchema)
    (e : exn) :
  validate self invoice = Raise e ->
  (e = AttributeError /\ ~ required_fields_are_slots self)
  \/ (exists field a,
        In field numeric_fields /\ slot invoice field = Some a
        /\ value a <> PyNone /\ py_float (value a) = Raise e).
Proof.
  unfold validate.
  destruct (_check_required_fields self invoice []) as [[b1 e1]|x] eqn:H1;
    cbn [bind].
  - destruct (date_format_total invoice e1) as (b2 & e2 & -> & _). cbn [bind].
    destruct (currency_total invoice e2) as (b3 & e3 & -> & _). cbn [bind].
    destruct (_check_reconciliation self invoice e3) as [[b4 e4]|x] eqn:H4;
      cbn [bind].
    + destruct (_check_total_threshold self invoice []) as [[b5 w1]|x] eqn:H5;
        cbn [bind].
      * destruct (po_present_total invoice w1) as (b6 & w2 & -> & _).
        cbn [bind]. discriminate.
      * intros E; inversion E; subst x. right.
        unfold _check_total_threshold in H5.
        destruct (total invoice) as [tot|] eqn:Et; [|discriminate].
        destruct (is_none (value tot)) eqn:Ev; [discriminate|].
        destruct (py_float (value tot)) as [t|x] eqn:Ef; cbn [bind] in H5.
        -- destruct (f_gtb _ _); discriminate.
        -- inversion H5; subst x. exists "total", tot.
           split; [simpl; tauto|]. split; [exact Et|]. split; [|exact Ef].
           intros Hn. rewrite Hn in Ev. discriminate.
    + intros E; inversion E; subst x. right.
      unfold _check_reconciliation in H4.
      destruct (subtotal invoice) as [s|] eqn:Es; [|discriminate].
      destruct (tax invoice) as [t|] eqn:Et; [|discriminate].
      destruct (total invoice) as [tot|] eqn:Etot; [|discriminate].
      destruct (float_or_zero (value s)) as [x|x] eqn:Fs; cbn [bind] in H4.
      * destruct (float_or_zero (value t)) as [y|y] eqn:Ft; cbn [bind] in H4.
        -- destruct (float_or_zero (value tot)) as [z|z] eqn:Ftot;
             cbn [bind] in H4.
           ++ simpl in H4. destruct (f_gtb _ _); discriminate.
           ++ inversion H4; subst z.
              apply float_or_zero_raises in Ftot.
              exists "total", tot. simpl. tauto.
        -- inversion H4; subst y. apply float_or_zero_raises in Ft.
           exists "tax", t. simpl. tauto.
      * inversion H4; subst x. apply float_or_zero_raises in Fs.
        exists "subtotal", s. simpl. tauto.
  - intros E; inversion E; subst x. left.
    unfold _check_required_fields in H1.
    destruct (required_loop invoice (required_fields self) []) as [m|x] eqn:L;
      cbn [bind] in H1; [destruct m; discriminate|].
    inversion H1; subst x. split.
    + eapply required_loop_raises; eassumption.
    + intros Hs.
      destruct (required_loop_returns invoice (required_fields self) Hs [])
        as [m Hm].
      congruence.
Qed.

End RequiredFieldsFacts.

(* ================================================================== *)
(** * Further facts about routing *)

Section ReasonCodeFacts.

Context {C : Carrier} {F : PyFloatOps} {B : PyBuiltins}.

Variable self : Validator.

(** The reason codes laid out by the test that lets each one in. *)
Lemma route_reason_codes_layout (invoice : InvoiceSchema)
    (validation : ValidationResult) :
  route_reason_codes self invoice validation =
    (if negb (passed validation) then
       "VALIDATION_FAILED"
       :: (if check_failed validation "reconciliation_pass"
           then ["TOTAL_MISMATCH"] else [])
       ++ (if check_failed validation "required_fields_present"
           then ["MISSING_REQUIRED_FIELDS"] else [])
     else [])
    ++ match low_confidence_fields self invoice with
       | [] => []
       | fields => ["LOW_CONFIDENCE"; low_conf_code fields]
       end
    ++ (if check_failed validation "total_within_threshold"
        then ["HIGH_TOTAL"] else [])
    ++ (if check_failed validation "po_present" then ["MISSING_PO"] else []).
Proof.
  unfold route_reason_codes, warning_reason_codes, confidence_reason_codes,
    validation_reason_codes.
  destruct (negb (passed validation)),
    (check_failed validation "reconciliation_pass"),
    (check_failed validation "required_fields_present"),
    (low_confidence_fields self invoice),
    (check_failed validation "total_within_threshold"),
    (check_failed validation "po_present"); reflexivity.
Qed.

Ltac layout_cases invoice validation :=
  rewrite (route_reason_codes_layout invoice validation);
  unfold all_reason_codes;
  destruct (passed validation),
    (check_failed validation "reconciliation_pass"),
    (check_failed validation "required_fields_present"),
    (low_confidence_fields self invoice) as [|f0 l0],
    (check_failed validation "total_within_threshold"),
    (check_failed validation "po_present");
  cbn [negb app].

Ltac in_cases :=
  repeat match goal with
         | H : In _ (_ :: _) |- _ =>
             destruct H as [H | H]; [try (cbn in H; discriminate H)|]
         | H : In _ [] |- _ => destruct H
         end.

(** X4: the reason codes of one decision never repeat and number at
    most seven; they are the codes of the fixed sequence
    VALIDATION_FAILED, TOTAL_MISMATCH, MISSING_REQUIRED_FIELDS,
    LOW_CONFIDENCE, LOW_CONF_..., HIGH_TOTAL, MISSING_PO that the decision
    holds, in that order; TOTAL_MISMATCH and MISSING_REQUIRED_FIELDS come
    only with VALIDATION_FAILED, and the LOW_CONF_ code only right after
    LOW_CONFIDENCE. *)
Theorem reason_codes_are_distinct_and_ordered (invoice : InvoiceSchema)
    (validation : ValidationResult) :
  let codes := route_reason_codes self invoice validation in
  NoDup codes
  /\ (List.length codes <= 7)%nat
  /\ codes = filter (fun code => str_in code codes)
               (all_reason_codes self invoice)
  /\ (In "TOTAL_MISMATCH" codes -> In "VALIDATION_FAILED" codes)
  /\ (In "MISSING_REQUIRED_FIELDS" codes -> In "VALIDATION_FAILED" codes)
  /\ (In "LOW_CONFIDENCE" codes <->
      In (low_conf_code (low_confidence_fields self invoice)) codes).
Proof.
  cbv zeta. unfold low_conf_code.
  split; [|split; [|split; [|split; [|split]]]].
  - layout_cases invoice validation;
      repeat (constructor; [intros H; in_cases|]);
      try constructor.
  - layout_cases invoice validation; cbn [List.length]; lia.
  - layout_cases invoice validation; unfold low_conf_code, str_in;
      cbn [filter existsb];
      repeat (cbn [String.eqb Ascii.eqb Bool.eqb append orb andb];
              rewrite ?String.eqb_refl);
      reflexivity.
  - layout_cases invoice validation; intros H; in_cases;
      cbn [In]; auto.
  - layout_cases invoice validation; intros H; in_cases;
      cbn [In]; auto.
  - layout_cases invoice validation; split; intros H; in_cases;
      cbn [In]; auto 10.
Qed.

End ReasonCodeFacts.

Section RouteAfterValidate.

Context {C : Carrier} {F : PyFloatOps} {B : PyBuiltins}.

Variable self : Validator.

Ltac layout_cases invoice validation :=
  rewrite (route_reason_codes_layout self invoice validation);
  destruct (passed validation),
    (check_failed validation "reconciliation_pass"),
    (check_failed validation "required_fields_present"),
    (low_confidence_fields self invoice) as [|f0 l0],
    (check_failed validation "total_within_threshold"),
    (check_failed validation "po_present");
  cbn [negb app].

Ltac in_cases :=
  repeat match goal with
         | H : In _ (_ :: _) |- _ =>
             destruct H as [H | H];
             [try (unfold low_conf_code in H; cbn in H; discriminate H)|]
         | H : In _ [] |- _ => destruct H
         end.

(** Which test lets each fixed code in. *)
Lemma reason_code_tests (invoice : InvoiceSchema) (validation : ValidationResult) :
  let codes := route_reason_codes self invoice validation in
  (In "VALIDATION_FAILED" codes <-> passed validation = false)
  /\ (In "TOTAL_MISMATCH" codes <->
      passed validation = false
      /\ check_failed validation "reconciliation_pass" = true)
  /\ (In "MISSING_REQUIRED_FIELDS" codes <->
      passed validation = false
      /\ check_failed validation "required_fields_present" = true)
  /\ (In "HIGH_TOTAL" codes <->
      check_failed validation "total_within_threshold" = true)
  /\ (In "MISSING_PO" codes <-> check_failed validation "po_present" = true)
  /\ (codes = [] <->
      passed validation = true
      /\ low_confidence_fields self invoice = []
      /\ check_failed validation "total_within_threshold" = false
      /\ check_failed validation "po_present" = false).
Proof.
  cbv zeta.
  split; [|split; [|split; [|split; [|split]]]];
    layout_cases invoice validation;
    (split; intros H;
     [in_cases; try discriminate H; repeat split; auto; discriminate
     |repeat match goal with
             | H' : _ /\ _ |- _ => destruct H'
             end;
      try discriminate; cbn [In]; auto 10]).
Qed.

Lemma check_po_present_reads (invoice : InvoiceSchema) (warnings : list message)
    (b : bool) (warnings' : list message) :
  _check_po_present invoice warnings = Ok (b, warnings') ->
  b = negb (is_missing invoice "po_number").
Proof.
  unfold _check_po_present, is_missing.
  change (slot invoice "po_number") with (po_number invoice).
  destruct (po_number invoice) as [a|].
  - destruct (is_none (value a)); intros H; inversion H; reflexivity.
  - intros H; inversion H; reflexivity.
Qed.

Lemma check_total_threshold_reads (invoice : InvoiceSchema)
    (warnings : list message) (b : bool) (warnings' : list message) :
  _check_total_threshold self invoice warnings = Ok (b, warnings') ->
  (b = false <->
   exists a t, total invoice = Some a /\ value a <> PyNone
               /\ py_float (value a) = Ok t
               /\ f_gtb t (high_total_threshold self) = true).
Proof.
  unfold _check_total_threshold.
  destruct (total invoice) as [a|].
  - destruct (is_none (value a)) eqn:En.
    + intros H; inversion H; subst. split; [discriminate|].
      intros (a' & t & E & Hv & _). inversion E; subst a'.
      destruct (value a); try discriminate. congruence.
    + destruct (py_float (value a)) as [t|] eqn:Ef; cbn [bind];
        [|discriminate].
      destruct (f_gtb t (high_total_threshold self)) eqn:Eg;
        intros H; inversion H; subst.
      * split; [intros _|reflexivity].
        exists a, t. repeat split; try assumption.
        intros Hn. rewrite Hn in En. discriminate.
      * split; [discriminate|].
        intros (a' & t' & E & _ & Ef' & Eg'). inversion E; subst a'.
        rewrite Ef in Ef'. inversion Ef'; subst t'. congruence.
  - intros H; inversion H; subst. split; [discriminate|].
    intros (a & t & E & _). discriminate.
Qed.

Lemma check_reconciliation_reads (invoice : InvoiceSchema)
    (errors : list message) (b : bool) (errors' : list message) :
  _check_reconciliation self invoice errors = Ok (b, errors') ->
  (b = false <->
   exists s t tot x y z,
     subtotal invoice = Some s /\ tax invoice = Some t
     /\ total invoice = Some tot
     /\ float_or_zero (value s) = Ok x /\ float_or_zero (value t) = Ok y
     /\ float_or_zero (value tot) = Ok z
     /\ f_gtb (f_abs (f_sub (f_add x y) z))
          (tolerance_for self (reconciliation_currency invoice)) = true).
Proof.
  unfold _check_reconciliation.
  destruct (subtotal invoice) as [s|];
    [|intros H; inversion H; split; [discriminate|];
      intros (? & ? & ? & ? & ? & ? & E & _); discriminate].
  destruct (tax invoice) as [t|];
    [|intros H; inversion H; split; [discriminate|];
      intros (? & ? & ? & ? & ? & ? & _ & E & _); discriminate].
  destruct (total invoice) as [tot|];
    [|intros H; inversion H; split; [discriminate|];
      intros (? & ? & ? & ? & ? & ? & _ & _ & E & _); discriminate].
  destruct (float_or_zero (value s)) as [x|] eqn:Ex; cbn [bind]; [|discriminate].
  destruct (float_or_zero (value t)) as [y|] eqn:Ey; cbn [bind]; [|discriminate].
  destruct (float_or_zero (value tot)) as [z|] eqn:Ez; cbn [bind];
    [|discriminate].
  cbv zeta.
  destruct (f_gtb _ _) eqn:Eg; intros H; inversion H; subst.
  - split; [intros _|reflexivity].
    exists s, t, tot, x, y, z. repeat split; assumption.
  - split; [discriminate|].
    intros (s' & t' & tot' & x' & y' & z' & E1 & E2 & E3 & X1 & X2 & X3 & G).
    inversion E1; inversion E2; inversion E3; subst s' t' tot'.
    rewrite Ex in X1. rewrite Ey in X2. rewrite Ez in X3.
    inversion X1; inversion X2; inversion X3; subst. congruence.
Qed.

Lemma check_required_fields_reads (invoice : InvoiceSchema)
    (errors : list message) (b : bool) (errors' : list message) :
  _check_required_fields self invoice errors = Ok (b, errors') ->
  (b = false <-> filter (is_missing invoice) (required_fields self) <> []).
Proof.
  unfold _check_required_fields.
  destruct (required_loop invoice (required_fields self) []) as [m|] eqn:L;
    cbn [bind]; [|discriminate].
  apply required_loop_returned in L. cbn [app] in L. subst m.
  destruct (filter (is_missing invoice) (required_fields self));
    intros H; inversion H; subst; split; congruence.
Qed.

(** What the stored outcome of each check that [route] consults says
    about the invoice. *)
Lemma validate_reads (invoice : InvoiceSchema) (v : ValidationResult) :
  validate self invoice = Ok v ->
  (passed v = false <-> errors v <> [])
  /\ (check_failed v "required_fields_present" = true <->
      filter (is_missing invoice) (required_fields self) <> [])
  /\ (check_failed v "reconciliation_pass" = true <->
      exists s t tot x y z,
        subtotal invoice = Some s /\ tax invoice = Some t
        /\ total invoice = Some tot
        /\ float_or_zero (value s) = Ok x /\ float_or_zero (value t) = Ok y
        /\ float_or_zero (value tot) = Ok z
        /\ f_gtb (f_abs (f_sub (f_add x y) z))
             (tolerance_for self (reconciliation_currency invoice)) = true)
  /\ (check_failed v "total_within_threshold" = true <->
      exists a t, total invoice = Some a /\ value a <> PyNone
                  /\ py_float (value a) = Ok t
                  /\ f_gtb t (high_total_threshold self) = true)
  /\ (check_failed v "po_present" = true <->
      is_missing invoice "po_number" = true).
Proof.
  intros H.
  destruct (validate_inv self invoice v H)
    as (b1 & b2 & b3 & b4 & b5 & b6 & e1 & e2 & e3 & e4 & w1 & w2
        & H1 & H2 & H3 & H4 & H5 & H6 & ->).
  unfold check_failed. cbn.
  apply check_required_fields_reads in H1.
  apply check_reconciliation_reads in H4.
  apply check_total_threshold_reads in H5.
  apply check_po_present_reads in H6.
  split; [|split; [|split; [|split]]].
  - destruct e4; simpl; split; congruence.
  - rewrite <- H1. destruct b1; simpl; split; congruence.
  - rewrite <- H4. destruct b4; simpl; split; congruence.
  - rewrite <- H5. destruct b5; simpl; split; congruence.
  - subst b6. destruct (is_missing invoice "po_number"); simpl; split;
      congruence.
Qed.

(** X5: on the result of [validate], each fixed reason code of [route]
    says one thing about the invoice: MISSING_PO, that the PO slot is
    absent or null; MISSING_REQUIRED_FIELDS, that some required field is;
    HIGH_TOTAL, that the total is a number above [high_total_threshold];
    TOTAL_MISMATCH, that subtotal + tax is further from the total than the
    tolerance; VALIDATION_FAILED, that there is at least one error (so a
    bad date or an unknown currency shows as VALIDATION_FAILED alone). *)
Theorem reason_codes_describe_invoice (invoice : InvoiceSchema)
    (v : ValidationResult) :
  validate self invoice = Ok v ->
  let codes := route_reason_codes self invoice v in
  (In "VALIDATION_FAILED" codes <-> errors v <> [])
  /\ (In "MISSING_REQUIRED_FIELDS" codes <->
      filter (is_missing invoice) (required_fields self) <> [])
  /\ (In "TOTAL_MISMATCH" codes <->
      exists s t tot x y z,
        subtotal invoice = Some s /\ tax invoice = Some t
        /\ total invoice = Some tot
        /\ float_or_zero (value s) = Ok x /\ float_or_zero (value t) = Ok y
        /\ float_or_zero (value tot) = Ok z
        /\ f_gtb (f_abs (f_sub (f_add x y) z))
             (tolerance_for self (reconciliation_currency invoice)) = true)
  /\ (In "HIGH_TOTAL" codes <->
      exists a t, total invoice = Some a /\ value a <> PyNone
                  /\ py_float (value a) = Ok t
                  /\ f_gtb t (high_total_threshold self) = true)
  /\ (In "MISSING_PO" codes <-> is_missing invoice "po_number" = true).
Proof.
  intros H. cbv zeta.
  destruct (validate_reads invoice v H) as (R0 & R1 & R2 & R3 & R4).
  destruct (reason_code_tests invoice v) as (T0 & T1 & T2 & T3 & T4 & _).
  destruct (validate_hard_and_soft self invoice v H) as (_ & Hard & _).
  split; [rewrite T0; exact R0|].
  split; [rewrite T2, <- R1; split; [tauto|]; intros Hf; split; [|exact Hf];
          apply (Hard "required_fields_present"); [simpl; tauto | exact Hf]|].
  split; [rewrite T1, <- R2; split; [tauto|]; intros Hf; split; [|exact Hf];
          apply (Hard "reconciliation_pass"); [simpl; tauto | exact Hf]|].
  split; [rewrite T3; exact R3 | rewrite T4; exact R4].
Qed.

(** X6: an invoice that validates and is routed AUTO_POST is clean: the
    result has no error and no warning, all six checks are true, the PO
    number and every required field are present with a non-null value, no
    present critical field has a confidence below the threshold, and the
    score is at least the threshold. *)
Theorem auto_post_means_clean (invoice : InvoiceSchema) (v : ValidationResult)
    (d : RoutingDecision) :
  validate self invoice = Ok v ->
  route self invoice v = Ok d ->
  outcome d = "AUTO_POST" ->
  errors v = [] /\ warnings v = []
  /\ (forall name, In name check_names -> dict_get (checks v) name = Some true)
  /\ is_missing invoice "po_number" = false
  /\ (forall field, In field (required_fields self) ->
                    is_missing invoice field = false)
  /\ (forall field a, In field critical_fields -> slot invoice field = Some a ->
                      f_ltb (confidence a) (low_confidence_threshold self)
                      = false)
  /\ f_geb (confidence_score d) (low_confidence_threshold self) = true.
Proof.
  intros Hv Hd Ho.
  destruct (route_inv self invoice v d Hd) as (Eo & _ & Ec & _).
  rewrite Eo in Ho. unfold route_outcome in Ho.
  destruct (Nat.eqb _ 0) eqn:En; [|discriminate].
  destruct (f_geb (overall_confidence invoice) _) eqn:Eg; [|discriminate].
  apply length_zero_iff_nil in En.
  destruct (reason_code_tests invoice v) as (_ & _ & _ & _ & _ & Tnil).
  apply Tnil in En. destruct En as (Hp & Hl & Ht & Hpo).
  destruct (validate_reads invoice v Hv) as (R0 & R1 & _ & _ & R4).
  destruct (validate_hard_and_soft self invoice v Hv) as (Hpass & Hard & _).
  destruct (validate_inv self invoice v Hv)
    as (b1 & b2 & b3 & b4 & b5 & b6 & e1 & e2 & e3 & e4 & w1 & w2
        & H1 & H2 & H3 & H4 & H5 & H6 & Hr).
  assert (He : errors v = []).
  { destruct (errors v) eqn:E; [reflexivity|].
    assert (passed v = false) by (apply R0; discriminate). congruence. }
  pose proof (proj1 Hpass Hp) as Hall.
  subst v. unfold check_failed in Ht, Hpo. cbn in Ht, Hpo, He, Hp.
  destruct b5; [|discriminate]. destruct b6; [|discriminate].
  apply total_threshold_grows in H5. simpl in H5. subst w1.
  assert (G6 : grows true [] w2).
  { destruct (po_present_total invoice []) as (b & w & E & G).
    rewrite H6 in E. inversion E; subst. exact G. }
  simpl in G6. subst w2.
  split; [exact He|]. split; [reflexivity|]. split.
  - intros name Hin. unfold check_names, hard_checks, soft_checks in Hin.
    cbn [app] in Hin.
    destruct Hin as [<- | [<- | [<- | [<- | [<- | [<- | []]]]]]];
      try (apply Hall; simpl; tauto); reflexivity.
  - split.
    + destruct (is_missing invoice "po_number") eqn:Em; [|reflexivity].
      cbn in R4. destruct R4 as [_ R4]. specialize (R4 eq_refl). discriminate.
    + split; [|split].
      * intros field Hin.
        destruct (is_missing invoice field) eqn:Em; [|reflexivity].
        exfalso.
        assert (Hb1 : b1 = true)
          by (specialize (Hall "required_fields_present" ltac:(simpl; tauto));
              cbn in Hall; congruence).
        subst b1. cbn in R1. destruct R1 as [_ R1].
        assert (Hne : filter (is_missing invoice) (required_fields self) <> []).
        { intros Hnil.
          assert (Hf : In field (filter (is_missing invoice)
                                   (required_fields self)))
            by (apply filter_In; auto).
          rewrite Hnil in Hf. destruct Hf. }
        specialize (R1 Hne). discriminate.
      * intros field a Hin Hs.
        destruct (f_ltb (confidence a) (low_confidence_threshold self)) eqn:El;
          [|reflexivity].
        exfalso.
        assert (Hf : In field (low_confidence_fields self invoice)).
        { unfold low_confidence_fields. apply filter_In. split; [exact Hin|].
          unfold is_low_confidence. rewrite Hs. exact El. }
        rewrite Hl in Hf. destruct Hf.
      * rewrite Ec. exact Eg.
Qed.

End RouteAfterValidate.

(* ================================================================== *)
(** * The currency code used for the tolerance *)

Lemma upper_ascii_idempotent (c : ascii) :
  upper_ascii (upper_ascii c) = upper_ascii c.
Proof. destruct c as [[] [] [] [] [] [] [] []]; reflexivity. Qed.

Lemma upper_idempotent (s : string) : upper (upper s) = upper s.
Proof.
  induction s as [|c s IH]; simpl; [reflexivity|].
  rewrite upper_ascii_idempotent, IH. reflexivity.
Qed.

Lemma upper_ascii_below (c : ascii) :
  (nat_of_ascii (upper_ascii c) <? 128)%nat = (nat_of_ascii c <? 128)%nat.
Proof. destruct c as [[] [] [] [] [] [] [] []]; reflexivity. Qed.

Lemma is_ascii_upper (s : string) : is_ascii (upper s) = is_ascii s.
Proof.
  induction s as [|c s IH]; simpl; [reflexivity|].
  rewrite upper_ascii_below, IH. reflexivity.
Qed.

Lemma dict_get_filter_keys {V : Type} (p : string -> bool)
    (d : list (string * V)) (k : string) :
  p k = true -> dict_get (filter (fun kv => p (fst kv)) d) k = dict_get d k.
Proof.
  intros Hk. induction d as [|[k' v] d IH]; simpl; [reflexivity|].
  destruct (String.eqb k' k) eqn:E.
  - apply String.eqb_eq in E. subst k'. rewrite Hk. simpl.
    rewrite String.eqb_refl. reflexivity.
  - destruct (p k'); simpl; [rewrite E|]; exact IH.
Qed.

Section CurrencyFacts.

Context {C : Carrier} {F : PyFloatOps} {B : PyBuiltins}.

Variable self : Validator.

(** On ASCII text [s.upper()] is the a-z map, and its result is its own
    upper case. *)
Lemma str_upper_ascii (s : string) :
  is_ascii s = true ->
  str_upper s = upper s /\ str_upper (str_upper s) = str_upper s.
Proof.
  intros H. unfold str_upper. rewrite H, is_ascii_upper, H.
  split; [reflexivity | apply upper_idempotent].
Qed.

Lemma reconciliation_currency_upper (invoice : InvoiceSchema) :
  ascii_currency invoice ->
  str_upper (reconciliation_currency invoice) = reconciliation_currency invoice.
Proof.
  intros Hascii. unfold reconciliation_currency.
  destruct (currency invoice) as [a|] eqn:Ec; [|reflexivity].
  destruct (truthy (value a)) eqn:Et; [|reflexivity].
  exact (proj2 (str_upper_ascii _ (Hascii a Ec Et))).
Qed.

(** X7: the currency code [_check_reconciliation] looks the tolerance up
    with is USD when the currency is absent and when its value is false
    (null, an empty text), and the upper case of the currency's text
    otherwise.  For ASCII text that is the a-z map, so a currency given
    in lower case is looked up under its upper-case code, the code is its
    own upper case, and an entry of [currency_tolerance] under a key that
    is not its own upper case is never applied: the check gives the same
    result without such entries.  (The upper case of text with other
    characters is the library's and is left open.) *)
Theorem tolerance_lookup_is_upper_case (invoice : InvoiceSchema)
    (errors : list message) :
  (currency invoice = None -> reconciliation_currency invoice = "USD")
  /\ (forall a, currency invoice = Some a -> truthy (value a) = false ->
                reconciliation_currency invoice = "USD")
  /\ (forall a, currency invoice = Some a -> truthy (value a) = true ->
                reconciliation_currency invoice = str_upper (py_str (value a)))
  /\ (forall a s, currency invoice = Some a -> value a = PyStr s ->
                  s <> EmptyString -> is_ascii s = true ->
                  reconciliation_currency invoice = upper s)
  /\ (ascii_currency invoice ->
      str_upper (reconciliation_currency invoice)
      = reconciliation_currency invoice
      /\ _check_reconciliation
           (with_currency_tolerance self
              (upper_case_keys (currency_tolerance self)))
           invoice errors
         = _check_reconciliation self invoice errors).
Proof.
  split; [|split; [|split; [|split]]].
  - intros H. unfold reconciliation_currency. rewrite H. reflexivity.
  - intros a Ha Ht. unfold reconciliation_currency. rewrite Ha, Ht.
    reflexivity.
  - intros a Ha Ht. unfold reconciliation_currency. rewrite Ha, Ht.
    reflexivity.
  - intros a s Ha Hv Hs Hascii. unfold reconciliation_currency.
    rewrite Ha, Hv. cbn [truthy py_str].
    destruct s as [|c s]; [congruence|]. cbn [negb String.eqb].
    exact (proj1 (str_upper_ascii _ Hascii)).
  - intros Hascii. split; [apply reconciliation_currency_upper; exact Hascii|].
    unfold _check_reconciliation, tolerance_for, upper_case_keys.
    cbn [with_currency_tolerance currency_tolerance].
    rewrite (dict_get_filter_keys (fun k => String.eqb (str_upper k) k)
               (currency_tolerance self) (reconciliation_currency invoice));
      [reflexivity|].
    apply String.eqb_eq. apply reconciliation_currency_upper. exact Hascii.
Qed.

End CurrencyFacts.

(* ================================================================== *)
(** * Further facts about the normaliser *)

Section NormalizeInversion.

Context {C : Carrier} {F : PyFloatOps}.

Variable self : Normalizer.

Lemma new_FieldAudit_inv v c ev pv vv vfn a :
  new_FieldAudit v c ev pv vv vfn = Ok a ->
  exists x, pydantic_float c = Ok x /\ in_unit x = true
            /\ a = {| value := v; confidence := x; evidence := ev;
                      pipeline_version := pv; vendor_version := vv;
                      vendor_field_name := vfn |}.
Proof.
  unfold new_FieldAudit.
  destruct (pydantic_float c) as [x|]; cbn [bind]; [|discriminate].
  destruct (in_unit x) eqn:E; [|discriminate].
  intros H; inversion H; subst. eauto.
Qed.

(** What [create_field_audit] of vendor A returns, when it returns. *)
Lemma create_field_audit_a_inv (fields : PyVal) (vv field : string)
    (o : option FieldAudit) :
  create_field_audit_a self fields vv field None = Ok o ->
  (o = None /\ py_contains field fields = Ok false)
  \/ (exists d ed x,
        fields = PyDict d /\ dict_get d field = Some (PyDict ed)
        /\ pydantic_float (dict_get_default ed "confidence" (PyFloat f_zero))
           = Ok x
        /\ in_unit x = true
        /\ o = Some (stamped self vv field
                       (dict_get_default ed "value" PyNone) x)).
Proof.
  unfold create_field_audit_a.
  destruct (py_contains field fields) as [[|]|] eqn:Ec; cbn [bind negb];
    [| intros H; inversion H; auto | discriminate].
  destruct (py_getitem fields field) as [entry|] eqn:Eg; cbn [bind];
    [|discriminate].
  destruct entry as [| | | | | | |ed]; cbn [py_get bind]; try discriminate.
  destruct (new_FieldAudit _ _ _ _ _ _) as [a|] eqn:Ea; cbn [bind];
    [|discriminate].
  intros H; inversion H; subst o. right.
  apply new_FieldAudit_inv in Ea. destruct Ea as (x & Hx & Hu & ->).
  destruct fields as [| | | | | | |d]; try discriminate.
  simpl in Eg. destruct (dict_get d field) as [e|] eqn:Ed; [|discriminate].
  inversion Eg; subst e.
  exists d, ed, x. repeat split; assumption.
Qed.

(** What [create_field_audit] of vendor B returns, when it returns. *)
Lemma create_field_audit_b_inv (financial : PyVal) (vv vf cf : string)
    (o : option FieldAudit) :
  create_field_audit_b self financial vv vf cf = Ok o ->
  (o = None /\ py_contains vf financial = Ok false)
  \/ (exists d ed,
        financial = PyDict d /\ dict_get d vf = Some (PyDict ed)
        /\ ((o = None /\ str_in cf numeric_fields = true
             /\ (py_float (dict_get_default ed "text" PyNone) = Raise ValueError
                 \/ py_float (dict_get_default ed "text" PyNone)
                    = Raise TypeError))
            \/ (exists x v,
                  pydantic_float (dict_get_default ed "score" (PyFloat f_zero))
                  = Ok x
                  /\ in_unit x = true
                  /\ (if str_in cf numeric_fields
                      then exists y,
                          py_float (dict_get_default ed "text" PyNone) = Ok y
                          /\ v = PyFloat y
                      else v = dict_get_default ed "text" PyNone)
                  /\ o = Some (stamped self vv vf v x)))).
Proof.
  unfold create_field_audit_b.
  destruct (py_contains vf financial) as [[|]|] eqn:Ec; cbn [bind negb];
    [| intros H; inversion H; auto | discriminate].
  destruct (py_getitem financial vf) as [entry|] eqn:Eg; cbn [bind];
    [|discriminate].
  destruct entry as [| | | | | | |ed]; cbn [py_get bind]; try discriminate.
  destruct financial as [| | | | | | |d]; try discriminate.
  simpl in Eg. destruct (dict_get d vf) as [e|] eqn:Ed; [|discriminate].
  inversion Eg; subst e. clear Eg.
  intros H. right. exists d, ed. split; [reflexivity|]. split; [exact Ed|].
  destruct (str_in cf numeric_fields) eqn:Hn.
  - destruct (py_float (dict_get_default ed "text" PyNone)) as [y|e] eqn:Ef;
      cbn [bind except_value_type] in H.
    + destruct (new_FieldAudit _ _ _ _ _ _) as [a|] eqn:Ea; cbn [bind] in H;
        [|discriminate].
      inversion H; subst o. right.
      apply new_FieldAudit_inv in Ea. destruct Ea as (x & Hx & Hu & ->).
      exists x, (PyFloat y). repeat split; eauto.
    + destruct e; cbn [bind] in H; try discriminate;
        inversion H; subst o; left; auto.
  - destruct (new_FieldAudit _ _ _ _ _ _) as [a|] eqn:Ea; cbn [bind] in H;
      [|discriminate].
    inversion H; subst o. right.
    apply new_FieldAudit_inv in Ea. destruct Ea as (x & Hx & Hu & ->).
    exists x, (dict_get_default ed "text" PyNone). repeat split; eauto.
Qed.

(** The record [_normalize_vendor_a] returns, slot by slot. *)
Lemma normalize_vendor_a_slots (now : datetime) (output : pydict) (doc : PyVal)
    (vn vv : string) (r : InvoiceSchema) :
  _normalize_vendor_a self now output doc vn vv = Ok r ->
  (forall field, In field slot_names ->
     create_field_audit_a self (dict_get_default output "fields" (PyDict []))
       vv field None = Ok (slot r field))
  /\ line_items_a self vv output = Ok (line_items r)
  /\ doc = PyStr (doc_id r)
  /\ vendor_name r = vn
  /\ raw_vendor_output r = output
  /\ extraction_timestamp r = now.
Proof.
  unfold _normalize_vendor_a.
  fold (line_items_a self vv output).
  destruct (line_items_a self vv output) as [li|]; cbn [bind]; [|discriminate].
  repeat match goal with
         | |- bind (create_field_audit_a ?s ?f ?v ?n None) _ = _ -> _ =>
             let o := fresh "o" in
             let E := fresh "E" in
             destruct (create_field_audit_a s f v n None) as [o|] eqn:E;
             cbn [bind]; [|discriminate]
         end.
  unfold new_InvoiceSchema.
  destruct doc as [| | | |s| | |]; cbn [pydantic_str bind]; try discriminate.
  intros H; inversion H; subst r; clear H.
  split; [|repeat split; reflexivity].
  intros field Hin. simpl in Hin.
  destruct Hin as [<- | [<- | [<- | [<- | [<- | [<- | [<- | [<- | [<- | []]]]]]]]]];
    assumption.
Qed.

Lemma loop_keeps_other_keys (financial : PyVal) (vv : string)
    (mapping : list (string * string)) :
  forall nf nf' k,
    normalized_fields_loop self financial vv mapping nf = Ok nf' ->
    ~ In k (map snd mapping) -> dict_get nf' k = dict_get nf k.
Proof.
  induction mapping as [|[vf cf] rest IH]; intros nf nf' k; simpl.
  - intros H _; inversion H; reflexivity.
  - destruct (create_field_audit_b self financial vv vf cf) as [o|];
      cbn [bind]; [|discriminate].
    intros H Hk. rewrite (IH _ _ k H); [|tauto].
    destruct o as [a|]; [|reflexivity].
    rewrite dict_get_set. destruct (String.eqb cf k) eqn:E; [|reflexivity].
    apply String.eqb_eq in E. tauto.
Qed.

Lemma loop_fills_each_key (financial : PyVal) (vv : string)
    (mapping : list (string * string)) :
  NoDup (map snd mapping) ->
  forall nf nf',
    (forall cf, In cf (map snd mapping) -> dict_get nf cf = None) ->
    normalized_fields_loop self financial vv mapping nf = Ok nf' ->
    forall vf cf, In (vf, cf) mapping ->
      create_field_audit_b self financial vv vf cf = Ok (dict_get nf' cf).
Proof.
  induction mapping as [|[vf0 cf0] rest IH]; intros Hnd nf nf' Hnone; simpl;
    [intros _ vf cf []|].
  inversion Hnd as [|? ? Hnotin Hnd']; subst.
  destruct (create_field_audit_b self financial vv vf0 cf0) as [o|] eqn:E;
    cbn [bind]; [|discriminate].
  intros H vf cf [Heq | Hin].
  - inversion Heq; subst vf0 cf0.
    rewrite (loop_keeps_other_keys _ _ _ _ _ cf H Hnotin).
    destruct o as [a|].
    + rewrite dict_get_set, String.eqb_refl. exact E.
    + rewrite (Hnone cf (or_introl eq_refl)). exact E.
  - eapply IH; [exact Hnd' | | exact H | exact Hin].
    intros cf' Hin'. destruct o as [a|].
    + rewrite dict_get_set. destruct (String.eqb cf0 cf') eqn:E'.
      * apply String.eqb_eq in E'. subst cf'. tauto.
      * apply Hnone. right. exact Hin'.
    + apply Hnone. right. exact Hin'.
Qed.

(** The record [_normalize_vendor_b] returns, slot by slot. *)
Lemma normalize_vendor_b_slots (now : datetime) (output : pydict) (doc : PyVal)
    (vn vv : string) (r : InvoiceSchema) :
  _normalize_vendor_b self now output doc vn vv = Ok r ->
  exists financial,
    py_get (dict_get_default output "extracted_data" (PyDict []))
      "financial" (PyDict []) = Ok financial
    /\ (forall vf cf, In (vf, cf) field_mapping ->
          create_field_audit_b self financial vv vf cf = Ok (slot r cf))
    /\ line_items_b self vv output = Ok (line_items r)
    /\ doc = PyStr (doc_id r)
    /\ vendor_name r = vn
    /\ raw_vendor_output r = output
    /\ extraction_timestamp r = now.
Proof.
  unfold _normalize_vendor_b.
  destruct (py_get _ "financial" _) as [financial|]; cbn [bind];
    [|discriminate].
  destruct (normalized_fields_loop self financial vv field_mapping [])
    as [nf|] eqn:L; cbn [bind]; [|discriminate].
  unfold line_items_b.
  destruct (py_get _ "items" _) as [items|]; cbn [bind]; [|discriminate].
  match goal with
  | |- bind ?i _ = _ -> _ => destruct i as [li|]; cbn [bind]; [|discriminate]
  end.
  unfold new_InvoiceSchema.
  destruct doc as [| | | |s| | |]; cbn [pydantic_str bind]; try discriminate.
  intros H; inversion H; subst r; clear H.
  exists financial. split; [reflexivity|].
  split; [|repeat split; reflexivity].
  intros vf cf Hin.
  assert (Hnd : NoDup (map snd field_mapping)).
  { simpl. repeat (constructor; [simpl; intuition discriminate|]).
    constructor. }
  pose proof (loop_fills_each_key financial vv field_mapping Hnd [] nf
                (fun _ _ => eq_refl) L vf cf Hin) as Hc.
  rewrite Hc. f_equal. simpl in Hin.
  destruct Hin as [E | [E | [E | [E | [E | [E | [E | [E | [E | []]]]]]]]]];
    inversion E; subst; reflexivity.
Qed.

End NormalizeInversion.

Section NormalizeFacts.

Context {C : Carrier} {F : PyFloatOps}.

Variable self : Normalizer.

Lemma mapM_Forall2 {A B : Type} (f : A -> result B) (l : list A) :
  forall ys, mapM f l = Ok ys -> Forall2 (fun x y => f x = Ok y) l ys.
Proof.
  induction l as [|a l IH]; intros ys; simpl.
  - intros H; inversion H; constructor.
  - destruct (f a) as [b|] eqn:E; cbn [bind]; [|discriminate].
    destruct (mapM f l) as [bs|]; cbn [bind]; [|discriminate].
    intros H; inversion H; subst. constructor; auto.
Qed.

Lemma line_item_of_reads (kd kq ku ka kc vv : string) (item : PyVal)
    (li : LineItem) :
  line_item_of self kd kq ku ka kc vv item = Ok li ->
  reads_item self kd kq ku ka kc vv item li.
Proof.
  unfold line_item_of, reads_item.
  destruct item as [| | | | | | |d]; cbn [py_get bind]; try discriminate.
  destruct (new_FieldAudit _ _ _ _ _ _) as [a|] eqn:Ea; cbn [bind];
    [|discriminate].
  apply new_FieldAudit_inv in Ea. destruct Ea as (x & Hx & Hu & ->).
  unfold new_LineItem.
  destruct (pydantic_str _) as [s|] eqn:Es; cbn [bind]; [|discriminate].
  destruct (pydantic_opt_float (dict_get_default d kq PyNone)) as [q|] eqn:Eq;
    cbn [bind]; [|discriminate].
  destruct (pydantic_opt_float (dict_get_default d ku PyNone)) as [u|] eqn:Eu;
    cbn [bind]; [|discriminate].
  destruct (pydantic_float (dict_get_default d ka (PyFloat f_zero))) as [am|] eqn:Eam;
    cbn [bind]; [|discriminate].
  intros H; inversion H; subst li; clear H.
  cbn [description quantity unit_price amount audit confidence].
  exists d. repeat split; auto.
Qed.

Lemma reads_item_in_unit (kd kq ku ka kc vv : string) (item : PyVal)
    (li : LineItem) :
  line_item_of self kd kq ku ka kc vv item = Ok li ->
  in_unit (confidence (audit li)) = true.
Proof.
  unfold line_item_of.
  destruct item as [| | | | | | |d]; cbn [py_get bind]; try discriminate.
  destruct (new_FieldAudit _ _ _ _ _ _) as [a|] eqn:Ea; cbn [bind];
    [|discriminate].
  apply new_FieldAudit_inv in Ea. destruct Ea as (x & Hx & Hu & ->).
  unfold new_LineItem.
  destruct (pydantic_str _) as [s|]; cbn [bind]; [|discriminate].
  destruct (pydantic_opt_float (dict_get_default d kq PyNone)) as [q|];
    cbn [bind]; [|discriminate].
  destruct (pydantic_opt_float (dict_get_default d ku PyNone)) as [u|];
    cbn [bind]; [|discriminate].
  destruct (pydantic_float (dict_get_default d ka (PyFloat f_zero))) as [am|];
    cbn [bind]; [|discriminate].
  intros H; inversion H; subst li; clear H. exact Hu.
Qed.

(** The branch [normalize] takes. *)
Lemma normalize_branch (now : datetime) (out : pydict) (vn vv : string) :
  normalize self now out vn vv
  = if String.eqb vn "vendor_b"
    then _normalize_vendor_b self now out (picked_doc_id out) vn vv
    else _normalize_vendor_a self now out (picked_doc_id out) vn vv.
Proof.
  unfold normalize, picked_doc_id.
  destruct (String.eqb vn "vendor_a") eqn:Ea.
  - apply String.eqb_eq in Ea. subst vn. reflexivity.
  - reflexivity.
Qed.

(** The line items of vendor A, when its block returns. *)
Lemma line_items_a_inv (vv : string) (out : pydict)
    (o : option (list LineItem)) :
  line_items_a self vv out = Ok o ->
  (o = None /\ dict_has out "line_items" = false)
  \/ (exists container raw items,
        dict_get out "line_items" = Some container
        /\ py_iter container = Ok raw
        /\ mapM (line_item_a self vv) raw = Ok items
        /\ o = Some items).
Proof.
  unfold line_items_a, dict_has. simpl py_getitem.
  destruct (dict_get out "line_items") as [container|]; cbn [bind];
    [|intros H; inversion H; auto].
  destruct (py_iter container) as [raw|] eqn:Ei; cbn [bind]; [|discriminate].
  destruct (mapM _ raw) as [items|] eqn:Em; cbn [bind]; [|discriminate].
  intros H; inversion H; subst. right. exists container, raw, items. auto.
Qed.

(** The line items of vendor B, when its block returns. *)
Lemma line_items_b_inv (vv : string) (out : pydict)
    (o : option (list LineItem)) :
  line_items_b self vv out = Ok o ->
  exists container,
    vendor_b_items out = Ok container
    /\ ((o = None /\ truthy container = false)
        \/ (exists raw items,
              truthy container = true
              /\ py_iter container = Ok raw
              /\ mapM (line_item_b self vv) raw = Ok items
              /\ o = Some items)).
Proof.
  unfold line_items_b, vendor_b_items.
  destruct (py_get _ "items" _) as [container|]; cbn [bind]; [|discriminate].
  intros H. exists container. split; [reflexivity|].
  destruct (truthy container) eqn:Et.
  - destruct (py_iter container) as [raw|] eqn:Ei; cbn [bind] in H;
      [|discriminate].
    destruct (mapM _ raw) as [items|] eqn:Em; cbn [bind] in H; [|discriminate].
    inversion H; subst. right. exists raw, items. auto.
  - inversion H; auto.
Qed.

(** Every line item of a returned record was built by the line-item
    loop of one of the two vendors. *)
Lemma normalize_line_items_built (now : datetime) (out : pydict)
    (vn vv : string) (r : InvoiceSchema) (items : list LineItem) :
  normalize self now out vn vv = Ok r ->
  line_items r = Some items ->
  exists raw kd kq ku ka kc,
    Forall2 (fun x y => line_item_of self kd kq ku ka kc vv x = Ok y) raw items.
Proof.
  rewrite normalize_branch. intros H Hl.
  destruct (String.eqb vn "vendor_b").
  - apply normalize_vendor_b_slots in H.
    destruct H as (fin & _ & _ & Hli & _).
    apply line_items_b_inv in Hli.
    destruct Hli as (c & _ & [[Hn _] | (raw & its & _ & _ & Hm & Hs)]);
      [congruence|].
    rewrite Hl in Hs. inversion Hs; subst its.
    exists raw, "desc", "qty", "price", "line_total", "score".
    exact (mapM_Forall2 _ _ _ Hm).
  - apply normalize_vendor_a_slots in H.
    destruct H as (_ & Hli & _).
    apply line_items_a_inv in Hli.
    destruct Hli as [[Hn _] | (c & raw & its & _ & _ & Hm & Hs)];
      [congruence|].
    rewrite Hl in Hs. inversion Hs; subst its.
    exists raw, "description", "quantity", "unit_price", "amount", "confidence".
    exact (mapM_Forall2 _ _ _ Hm).
Qed.

Lemma Forall2_In_r {A B : Type} (R : A -> B -> Prop) (l : list A)
    (l' : list B) (y : B) :
  Forall2 R l l' -> In y l' -> exists x, In x l /\ R x y.
Proof.
  induction 1 as [|a b l l' Hab _ IH]; simpl; [tauto|].
  intros [<- | Hin].
  - exists a. auto.
  - destruct (IH Hin) as (x & Hx & HR). exists x. auto.
Qed.

(** Each slot name has its vendor-B key in the mapping. *)
Lemma field_mapping_covers (cf : string) :
  In cf slot_names ->
  exists vf, In (vf, cf) field_mapping /\ vendor_b_key cf = Some vf.
Proof.
  simpl.
  intros [<- | [<- | [<- | [<- | [<- | [<- | [<- | [<- | [<- | []]]]]]]]]];
    eexists; (split; [|reflexivity]); simpl; tauto.
Qed.

(** Every slot of a returned record was built by [create_field_audit] of
    one of the two vendors, and so validated by the schema. *)
Lemma normalize_slot_built (now : datetime) (out : pydict)
    (vn vv : string) (r : InvoiceSchema) (field : string) (a : FieldAudit) :
  normalize self now out vn vv = Ok r ->
  slot r field = Some a ->
  exists v,
    a = stamped self vv
          (if String.eqb vn "vendor_b"
           then match vendor_b_key field with Some k => k | None => field end
           else field) v (confidence a)
    /\ in_unit (confidence a) = true.
Proof.
  rewrite normalize_branch. intros H Hs.
  pose proof (slot_some_in_names _ _ _ Hs) as Hin.
  destruct (String.eqb vn "vendor_b").
  - apply normalize_vendor_b_slots in H.
    destruct H as (fin & _ & Hc & _).
    destruct (field_mapping_covers field Hin) as (vf & Hm & Hk).
    rewrite Hk. specialize (Hc vf field Hm). rewrite Hs in Hc.
    apply create_field_audit_b_inv in Hc.
    destruct Hc as [[Hn _] | (d & ed & _ & _ & [[Hn _] | (x & v & _ & Hu & _ & Ha)])];
      try discriminate.
    inversion Ha; subst a. exists v. split; [reflexivity | exact Hu].
  - apply normalize_vendor_a_slots in H.
    destruct H as (Hc & _). specialize (Hc field Hin). rewrite Hs in Hc.
    apply create_field_audit_a_inv in Hc.
    destruct Hc as [[Hn _] | (d & ed & x & _ & _ & _ & Hu & Ha)];
      [discriminate|].
    inversion Ha; subst a. eexists. split; [reflexivity | exact Hu].
Qed.

(** X10: the metadata of a returned record.  [doc_id] is the text under
    "document_id"; the text under "id" when "document_id" is missing or
    falsy (an empty text, [None]); "unknown" when both keys are missing.
    The vendor name and the vendor output are stored as passed, and the
    timestamp is the clock reading. *)
Theorem normalize_metadata (now : datetime) (out : pydict)
    (vn vv : string) (r : InvoiceSchema) :
  normalize self now out vn vv = Ok r ->
  (forall s, picked_doc_id out = PyStr s -> doc_id r = s)
  /\ (dict_get out "document_id" = None -> dict_get out "id" = None ->
      doc_id r = "unknown")
  /\ (forall s, dict_get out "document_id" = Some (PyStr s) -> s <> "" ->
                doc_id r = s)
  /\ (forall v s, dict_get out "document_id" = Some v -> truthy v = false ->
                  dict_get out "id" = Some (PyStr s) -> doc_id r = s)
  /\ (forall s, dict_get out "document_id" = None ->
                dict_get out "id" = Some (PyStr s) -> doc_id r = s)
  /\ vendor_name r = vn
  /\ raw_vendor_output r = out
  /\ extraction_timestamp r = now.
Proof.
  intros H.
  assert (Hd : picked_doc_id out = PyStr (doc_id r)
               /\ vendor_name r = vn
               /\ raw_vendor_output r = out
               /\ extraction_timestamp r = now).
  { rewrite normalize_branch in H.
    destruct (String.eqb vn "vendor_b").
    - apply normalize_vendor_b_slots in H.
      destruct H as (fin & _ & _ & _ & Hdoc & Hv & Hr & Ht). auto.
    - apply normalize_vendor_a_slots in H.
      destruct H as (_ & _ & Hdoc & Hv & Hr & Ht). auto. }
  destruct Hd as (Hdoc & Hv & Hr & Ht).
  assert (Hs : forall s, picked_doc_id out = PyStr s -> doc_id r = s).
  { intros s E. rewrite E in Hdoc. inversion Hdoc; reflexivity. }
  split; [exact Hs|].
  repeat split; auto.
  - intros E1 E2. apply Hs. unfold picked_doc_id, py_or, dict_get_default.
    rewrite E1, E2. reflexivity.
  - intros s E1 Hne. apply Hs. unfold picked_doc_id, py_or, dict_get_default.
    rewrite E1. cbn [truthy].
    destruct (String.eqb s "") eqn:E; [apply String.eqb_eq in E; tauto|].
    reflexivity.
  - intros v s E1 Et E2. apply Hs.
    unfold picked_doc_id, py_or, dict_get_default.
    rewrite E1, Et, E2. reflexivity.
  - intros s E1 E2. apply Hs. unfold picked_doc_id, py_or, dict_get_default.
    rewrite E1, E2. reflexivity.
Qed.

(** X11: a slot of vendor A (and of the fallback for other vendor names)
    mirrors the vendor's entry.  The slot is absent exactly when the
    field's key is not in "fields"; otherwise its value is what the entry
    holds under "value", uncoerced ([None] when the key is missing), and
    its confidence is what the schema converts from "confidence", 0.0
    when that key is missing. *)
Theorem vendor_a_slot_mirrors_entry (now : datetime) (out : pydict)
    (vn vv : string) (r : InvoiceSchema) (field : string) :
  String.eqb vn "vendor_b" = false ->
  normalize self now out vn vv = Ok r ->
  In field slot_names ->
  match slot r field with
  | None => py_contains field (vendor_a_fields out) = Ok false
  | Some a =>
      exists d ed,
        vendor_a_fields out = PyDict d
        /\ dict_get d field = Some (PyDict ed)
        /\ value a = dict_get_default ed "value" PyNone
        /\ pydantic_float (dict_get_default ed "confidence" (PyFloat f_zero))
           = Ok (confidence a)
  end.
Proof.
  intros Hvn H Hin. rewrite normalize_branch, Hvn in H.
  apply normalize_vendor_a_slots in H. destruct H as (Hc & _).
  specialize (Hc field Hin). apply create_field_audit_a_inv in Hc.
  unfold vendor_a_fields.
  destruct Hc as [[-> Hn] | (d & ed & x & Hf & Hg & Hx & _ & ->)];
    [exact Hn|].
  exists d, ed. cbn. auto.
Qed.

(** X12: a slot of vendor B mirrors the vendor's entry under the mapped
    key.  The slot is absent when the key is not in "financial", or when
    the field is numeric and [float] of the text raises [ValueError] or
    [TypeError]; otherwise its confidence is what the schema converts
    from "score" (0.0 when missing) and its value is the text, converted
    by [float] for subtotal, tax and total and as it is for the other
    fields. *)
Theorem vendor_b_slot_mirrors_entry (now : datetime) (out : pydict)
    (vv : string) (r : InvoiceSchema) (vf cf : string) :
  normalize self now out "vendor_b" vv = Ok r ->
  In (vf, cf) field_mapping ->
  exists financial,
    vendor_b_financial out = Ok financial
    /\ match slot r cf with
       | None =>
           py_contains vf financial = Ok false
           \/ (exists ed,
                 py_getitem financial vf = Ok (PyDict ed)
                 /\ str_in cf numeric_fields = true
                 /\ (py_float (dict_get_default ed "text" PyNone)
                     = Raise ValueError
                     \/ py_float (dict_get_default ed "text" PyNone)
                        = Raise TypeError))
       | Some a =>
           exists ed,
             py_getitem financial vf = Ok (PyDict ed)
             /\ pydantic_float (dict_get_default ed "score" (PyFloat f_zero))
                = Ok (confidence a)
             /\ (if str_in cf numeric_fields
                 then exists x,
                     py_float (dict_get_default ed "text" PyNone) = Ok x
                     /\ value a = PyFloat x
                 else value a = dict_get_default ed "text" PyNone)
       end.
Proof.
  intros H Hin. rewrite normalize_branch in H. cbn [String.eqb Ascii.eqb] in H.
  change (String.eqb "vendor_b" "vendor_b") with true in H. cbn iota in H.
  apply normalize_vendor_b_slots in H.
  destruct H as (fin & Hfin & Hc & _).
  exists fin. split; [exact Hfin|].
  specialize (Hc vf cf Hin). apply create_field_audit_b_inv in Hc.
  destruct Hc as [[-> Hn] | (d & ed & -> & Hg & [(-> & Hnum & Hr) | (x & v & Hx & _ & Hv & ->)])].
  - left; exact Hn.
  - right. exists ed. simpl. rewrite Hg. auto.
  - exists ed. simpl py_getitem. rewrite Hg. cbn [stamped value confidence].
    split; [reflexivity|]. split; [exact Hx|].
    destruct (str_in cf numeric_fields).
    + destruct Hv as (y & Hy & ->). exists y. auto.
    + exact Hv.
Qed.

Lemma truthy_iter_nonempty (c : PyVal) (raw : list PyVal) :
  truthy c = true -> py_iter c = Ok raw -> raw <> [].
Proof.
  destruct c as [| | | |s| |l|d]; simpl; try discriminate.
  - destruct s; simpl; [discriminate|]. intros _ H; inversion H; discriminate.
  - destruct l; [discriminate|]. intros _ H; inversion H; discriminate.
  - destruct d; [discriminate|]. intros _ H; inversion H; discriminate.
Qed.

Lemma Forall2_impl {A B : Type} (R R' : A -> B -> Prop) (l : list A)
    (l' : list B) :
  (forall x y, R x y -> R' x y) -> Forall2 R l l' -> Forall2 R' l l'.
Proof.
  intros HR. induction 1; constructor; auto.
Qed.

(** X13: the line items follow the vendor's list, item by item and in
    order, each built from the item's keys with the defaults for missing
    ones.  Vendor A (and the fallback) has no line items exactly when the
    key "line_items" is missing, so an empty list gives an empty list;
    vendor B has none exactly when "items" is missing or empty, so its
    list of line items is never empty. *)
Theorem line_items_follow_vendor_list (now : datetime) (out : pydict)
    (vn vv : string) (r : InvoiceSchema) :
  normalize self now out vn vv = Ok r ->
  if String.eqb vn "vendor_b" then
    exists container,
      vendor_b_items out = Ok container
      /\ (line_items r = None <-> truthy container = false)
      /\ (forall items,
            line_items r = Some items ->
            items <> []
            /\ exists raw,
                py_iter container = Ok raw
                /\ Forall2 (reads_item self "desc" "qty" "price" "line_total"
                              "score" vv) raw items)
  else
    (line_items r = None <-> dict_has out "line_items" = false)
    /\ (forall items,
          line_items r = Some items ->
          exists container raw,
            dict_get out "line_items" = Some container
            /\ py_iter container = Ok raw
            /\ Forall2 (reads_item self "description" "quantity" "unit_price"
                          "amount" "confidence" vv) raw items).
Proof.
  rewrite normalize_branch. intros H.
  destruct (String.eqb vn "vendor_b").
  - apply normalize_vendor_b_slots in H.
    destruct H as (fin & _ & _ & Hli & _).
    apply line_items_b_inv in Hli.
    destruct Hli as (c & Hc & [[Hn Ht] | (raw & its & Ht & Hi & Hm & Hs)]);
      exists c; (split; [exact Hc|]).
    + split; [tauto|]. intros items Hl. congruence.
    + split; [split; congruence|].
      intros items Hl. rewrite Hl in Hs. inversion Hs; subst its.
      pose proof (mapM_Forall2 _ _ _ Hm) as Hf.
      split.
      * intros ->. inversion Hf; subst.
        exact (truthy_iter_nonempty _ _ Ht Hi eq_refl).
      * exists raw. split; [exact Hi|].
        eapply Forall2_impl; [|exact Hf].
        intros x y. apply line_item_of_reads.
  - apply normalize_vendor_a_slots in H.
    destruct H as (_ & Hli & _).
    apply line_items_a_inv in Hli.
    destruct Hli as [[Hn Hh] | (c & raw & its & Hg & Hi & Hm & Hs)].
    + split; [tauto|]. intros items Hl. congruence.
    + split.
      * unfold dict_has. rewrite Hg. split; congruence.
      * intros items Hl. rewrite Hl in Hs. inversion Hs; subst its.
        exists c, raw. repeat split; auto.
        eapply Forall2_impl; [|exact (mapM_Forall2 _ _ _ Hm)].
        intros x y. apply line_item_of_reads.
Qed.

Lemma normalize_vendor_a_name (now : datetime) (out : pydict) (doc : PyVal)
    (vn vn' vv : string) :
  _normalize_vendor_a self now out doc vn vv
  = result_map (with_vendor_name vn)
      (_normalize_vendor_a self now out doc vn' vv).
Proof.
  unfold _normalize_vendor_a.
  match goal with
  | |- bind ?i _ = _ => destruct i as [li|]; cbn [bind result_map];
                        [|reflexivity]
  end.
  repeat match goal with
         | |- bind (create_field_audit_a ?s ?f ?v ?n None) _ = _ =>
             destruct (create_field_audit_a s f v n None);
             cbn [bind result_map]; [|reflexivity]
         end.
  unfold new_InvoiceSchema.
  destruct (pydantic_str doc); cbn [bind result_map]; reflexivity.
Qed.

(** X14: a vendor name other than "vendor_a" and "vendor_b" is read as
    vendor A: [normalize] raises what it raises under the name
    "vendor_a", or returns the same record with the passed name stored
    in [vendor_name]. *)
Theorem unknown_vendor_is_read_as_vendor_a (now : datetime) (out : pydict)
    (vn vv : string) :
  String.eqb vn "vendor_b" = false ->
  normalize self now out vn vv
  = result_map (with_vendor_name vn) (normalize self now out "vendor_a" vv).
Proof.
  intros Hvn. rewrite !normalize_branch, Hvn.
  change (String.eqb "vendor_a" "vendor_b") with false. cbn iota.
  apply normalize_vendor_a_name.
Qed.

End NormalizeFacts.

(* ================================================================== *)
(** * What normalize lets through, and what it refuses *)

Section NormalizeOutcomes.

Context {C : Carrier} {F : PyFloatOps}.

Variable self : Normalizer.

Lemma Forall2_In_l {A B : Type} (R : A -> B -> Prop) (l : list A)
    (l' : list B) (x : A) :
  Forall2 R l l' -> In x l -> exists y, In y l' /\ R x y.
Proof.
  induction 1 as [|a b l l' Hab _ IH]; simpl; [tauto|].
  intros [<- | Hin].
  - exists b. auto.
  - destruct (IH Hin) as (y & Hy & HR). exists y. auto.
Qed.

(** The audited values of the line items built from a list are the
    items of that list, in order. *)
Lemma line_items_audit_values (kd kq ku ka kc vv : string)
    (raw : list PyVal) (items : list LineItem) :
  Forall2 (fun x y => line_item_of self kd kq ku ka kc vv x = Ok y) raw items ->
  map (fun li => value (audit li)) items = raw
  /\ Forall (fun v => exists d, v = PyDict d) raw.
Proof.
  induction 1 as [|x y raw items Hxy _ [IHm IHd]]; [split; constructor|].
  apply line_item_of_reads in Hxy.
  destruct Hxy as (d & -> & _ & _ & _ & _ & _ & Ha).
  split.
  - simpl. rewrite Ha, IHm. reflexivity.
  - constructor; [exists d; reflexivity | exact IHd].
Qed.

(** An item of the list with a confidence outside [0, 1] is not
    built. *)
Lemma line_item_out_of_range (kd kq ku ka kc vv : string) (item : pydict)
    (c : PyVal) (x : num) (li : LineItem) :
  dict_get item kc = Some c -> pydantic_float c = Ok x -> in_unit x = false ->
  line_item_of self kd kq ku ka kc vv (PyDict item) <> Ok li.
Proof.
  intros Hc Hx Hu H.
  pose proof (reads_item_in_unit _ _ _ _ _ _ _ _ _ H) as Hin.
  apply line_item_of_reads in H.
  destruct H as (d & Hd & _ & _ & _ & _ & Hconf & _).
  inversion Hd; subst d.
  unfold dict_get_default in Hconf. rewrite Hc, Hx in Hconf.
  inversion Hconf; subst. congruence.
Qed.

(** A vendor-A entry under a field name, with a confidence outside
    [0, 1]: [normalize] returns no record. *)
Lemma normalize_raises_entry_a (now : datetime) (out : pydict)
    (vn vv : string) (fields : pydict) (field : string) (entry : pydict)
    (c : PyVal) (x : num) :
  String.eqb vn "vendor_b" = false ->
  dict_get out "fields" = Some (PyDict fields) ->
  In field slot_names ->
  dict_get fields field = Some (PyDict entry) ->
  dict_get entry "confidence" = Some c ->
  pydantic_float c = Ok x -> in_unit x = false ->
  exists e, normalize self now out vn vv = Raise e.
Proof.
  intros Hvn Hf Hin He Hc Hx Hu.
  destruct (normalize self now out vn vv) as [r|e] eqn:E; [exfalso|eauto].
  rewrite normalize_branch, Hvn in E.
  apply normalize_vendor_a_slots in E. destruct E as (Hs & _).
  specialize (Hs field Hin). unfold dict_get_default in Hs. rewrite Hf in Hs.
  apply create_field_audit_a_inv in Hs.
  destruct Hs as [[_ Hn] | (d & ed & x' & Hd & Hg & Hx' & Hu' & _)].
  - simpl in Hn. unfold dict_has in Hn. rewrite He in Hn. discriminate.
  - inversion Hd; subst d. rewrite He in Hg. inversion Hg; subst ed.
    unfold dict_get_default in Hx'. rewrite Hc, Hx in Hx'.
    inversion Hx'; subst. congruence.
Qed.

(** A vendor-B entry under a mapped key that is not dropped, with a
    score outside [0, 1]: [normalize] returns no record. *)
Lemma normalize_raises_entry_b (now : datetime) (out : pydict)
    (vv : string) (extracted financial : pydict)
    (vendor_field canonical_field : string) (entry : pydict)
    (c : PyVal) (x : num) :
  dict_get out "extracted_data" = Some (PyDict extracted) ->
  dict_get extracted "financial" = Some (PyDict financial) ->
  In (vendor_field, canonical_field) field_mapping ->
  dict_get financial vendor_field = Some (PyDict entry) ->
  dict_get entry "score" = Some c ->
  pydantic_float c = Ok x -> in_unit x = false ->
  (str_in canonical_field numeric_fields = true ->
   py_float (dict_get_default entry "text" PyNone) <> Raise ValueError
   /\ py_float (dict_get_default entry "text" PyNone) <> Raise TypeError) ->
  exists e, normalize self now out "vendor_b" vv = Raise e.
Proof.
  intros Hx0 Hf Hin He Hc Hx Hu Hkept.
  destruct (normalize self now out "vendor_b" vv) as [r|e] eqn:E;
    [exfalso|eauto].
  rewrite normalize_branch in E. cbn [String.eqb Ascii.eqb Bool.eqb] in E.
  apply normalize_vendor_b_slots in E.
  destruct E as (fin & Hfin & Hs & _).
  unfold dict_get_default in Hfin. rewrite Hx0 in Hfin.
  cbn [py_get] in Hfin. unfold dict_get_default in Hfin.
  rewrite Hf in Hfin. inversion Hfin; subst fin.
  specialize (Hs vendor_field canonical_field Hin).
  apply create_field_audit_b_inv in Hs.
  destruct Hs as [[_ Hn] | (d & ed & Hd & Hg & Hcase)].
  - simpl in Hn. unfold dict_has in Hn. rewrite He in Hn. discriminate.
  - inversion Hd; subst d. rewrite He in Hg. inversion Hg; subst ed.
    destruct Hcase as [(_ & Hnum & Hdrop) | (x' & v & Hx' & Hu' & _)].
    + destruct (Hkept Hnum) as [A1 A2]. destruct Hdrop; contradiction.
    + unfold dict_get_default in Hx'. rewrite Hc, Hx in Hx'.
      inversion Hx'; subst. congruence.
Qed.

(** A vendor-A line item with a confidence outside [0, 1]: [normalize]
    returns no record. *)
Lemma normalize_raises_item_a (now : datetime) (out : pydict)
    (vn vv : string) (container : PyVal) (raw : list PyVal) (item : pydict)
    (c : PyVal) (x : num) :
  String.eqb vn "vendor_b" = false ->
  dict_get out "line_items" = Some container ->
  py_iter container = Ok raw -> In (PyDict item) raw ->
  dict_get item "confidence" = Some c ->
  pydantic_float c = Ok x -> in_unit x = false ->
  exists e, normalize self now out vn vv = Raise e.
Proof.
  intros Hvn Hg Hi Hin Hc Hx Hu.
  destruct (normalize self now out vn vv) as [r|e] eqn:E; [exfalso|eauto].
  rewrite normalize_branch, Hvn in E.
  apply normalize_vendor_a_slots in E. destruct E as (_ & Hli & _).
  apply line_items_a_inv in Hli.
  destruct Hli as [[_ Hh] | (c' & raw' & its & Hg' & Hi' & Hm & _)].
  - unfold dict_has in Hh. rewrite Hg in Hh. discriminate.
  - rewrite Hg in Hg'. inversion Hg'; subst c'.
    rewrite Hi in Hi'. inversion Hi'; subst raw'.
    destruct (Forall2_In_l _ _ _ _ (mapM_Forall2 _ _ _ Hm) Hin)
      as (li & _ & Hli).
    exact (line_item_out_of_range _ _ _ _ _ _ _ _ _ _ Hc Hx Hu Hli).
Qed.

(** A vendor-B line item with a score outside [0, 1]: [normalize]
    returns no record. *)
Lemma normalize_raises_item_b (now : datetime) (out : pydict)
    (vv : string) (container : PyVal) (raw : list PyVal) (item : pydict)
    (c : PyVal) (x : num) :
  vendor_b_items out = Ok container -> truthy container = true ->
  py_iter container = Ok raw -> In (PyDict item) raw ->
  dict_get item "score" = Some c ->
  pydantic_float c = Ok x -> in_unit x = false ->
  exists e, normalize self now out "vendor_b" vv = Raise e.
Proof.
  intros Hg Ht Hi Hin Hc Hx Hu.
  destruct (normalize self now out "vendor_b" vv) as [r|e] eqn:E;
    [exfalso|eauto].
  rewrite normalize_branch in E. cbn [String.eqb Ascii.eqb Bool.eqb] in E.
  apply normalize_vendor_b_slots in E.
  destruct E as (fin & _ & _ & Hli & _).
  apply line_items_b_inv in Hli.
  destruct Hli as (c' & Hg' & [[_ Ht'] | (raw' & its & _ & Hi' & Hm & _)]);
    rewrite Hg in Hg'; inversion Hg'; subst c'.
  - congruence.
  - rewrite Hi in Hi'. inversion Hi'; subst raw'.
    destruct (Forall2_In_l _ _ _ _ (mapM_Forall2 _ _ _ Hm) Hin)
      as (li & _ & Hli).
    exact (line_item_out_of_range _ _ _ _ _ _ _ _ _ _ Hc Hx Hu Hli).
Qed.

(** The line items of a returned record were built from the list the
    vendor's container iterates to. *)
Lemma normalize_line_items_from (now : datetime) (out : pydict)
    (vn vv : string) (r : InvoiceSchema) (items : list LineItem) :
  normalize self now out vn vv = Ok r ->
  line_items r = Some items ->
  exists container raw kd kq ku ka kc,
    (if String.eqb vn "vendor_b" then vendor_b_items out = Ok container
     else dict_get out "line_items" = Some container)
    /\ py_iter container = Ok raw
    /\ Forall2 (fun x y => line_item_of self kd kq ku ka kc vv x = Ok y)
         raw items.
Proof.
  rewrite normalize_branch. intros H Hl.
  destruct (String.eqb vn "vendor_b").
  - apply normalize_vendor_b_slots in H.
    destruct H as (fin & _ & _ & Hli & _).
    apply line_items_b_inv in Hli.
    destruct Hli as (c & Hc & [[Hn _] | (raw & its & _ & Hi & Hm & Hs)]);
      [congruence|].
    rewrite Hl in Hs. inversion Hs; subst its.
    exists c, raw, "desc", "qty", "price", "line_total", "score".
    repeat split; [exact Hc | exact Hi | exact (mapM_Forall2 _ _ _ Hm)].
  - apply normalize_vendor_a_slots in H.
    destruct H as (_ & Hli & _).
    apply line_items_a_inv in Hli.
    destruct Hli as [[Hn _] | (c & raw & its & Hg & Hi & Hm & Hs)];
      [congruence|].
    rewrite Hl in Hs. inversion Hs; subst its.
    exists c, raw, "description", "quantity", "unit_price", "amount",
      "confidence".
    repeat split; [exact Hg | exact Hi | exact (mapM_Forall2 _ _ _ Hm)].
Qed.
(** X8: every confidence of a record [normalize] returns lies within
    [0, 1]: that of each of the nine field slots and that of each line
    item's audit, for either vendor.  Conversely [normalize] raises,
    returning no record, when an entry it reads and keeps carries a
    confidence that validates to a float outside [0, 1]: for vendor A and
    the fallback an entry under one of the nine field names or an item of
    the line-item list; for vendor B an entry under one of the nine
    mapped keys, unless its field is numeric and [float] refuses its text
    with [ValueError] or [TypeError] (the entry is then dropped), or an
    item of a non-empty item list. *)
Theorem normalize_confidences_in_unit (now : datetime) (out : pydict)
    (vn vv : string) :
  (forall r, normalize self now out vn vv = Ok r ->
     (forall field a, slot r field = Some a -> in_unit (confidence a) = true)
     /\ (forall items li,
           line_items r = Some items -> In li items ->
           in_unit (confidence (audit li)) = true))
  /\ (forall fields field entry c x,
        String.eqb vn "vendor_b" = false ->
        dict_get out "fields" = Some (PyDict fields) ->
        In field slot_names ->
        dict_get fields field = Some (PyDict entry) ->
        dict_get entry "confidence" = Some c ->
        pydantic_float c = Ok x -> in_unit x = false ->
        exists e, normalize self now out vn vv = Raise e)
  /\ (forall container raw item c x,
        String.eqb vn "vendor_b" = false ->
        dict_get out "line_items" = Some container ->
        py_iter container = Ok raw -> In (PyDict item) raw ->
        dict_get item "confidence" = Some c ->
        pydantic_float c = Ok x -> in_unit x = false ->
        exists e, normalize self now out vn vv = Raise e)
  /\ (forall extracted financial vendor_field canonical_field entry c x,
        vn = "vendor_b" ->
        dict_get out "extracted_data" = Some (PyDict extracted) ->
        dict_get extracted "financial" = Some (PyDict financial) ->
        In (vendor_field, canonical_field) field_mapping ->
        dict_get financial vendor_field = Some (PyDict entry) ->
        dict_get entry "score" = Some c ->
        pydantic_float c = Ok x -> in_unit x = false ->
        (str_in canonical_field numeric_fields = true ->
         py_float (dict_get_default entry "text" PyNone) <> Raise ValueError
         /\ py_float (dict_get_default entry "text" PyNone)
            <> Raise TypeError) ->
        exists e, normalize self now out vn vv = Raise e)
  /\ (forall container raw item c x,
        vn = "vendor_b" ->
        vendor_b_items out = Ok container -> truthy container = true ->
        py_iter container = Ok raw -> In (PyDict item) raw ->
        dict_get item "score" = Some c ->
        pydantic_float c = Ok x -> in_unit x = false ->
        exists e, normalize self now out vn vv = Raise e).
Proof.
  split; [|split; [|split; [|split]]].
  - intros r H. split.
    + intros field a Hs.
      destruct (normalize_slot_built _ _ _ _ _ _ _ _ H Hs) as (v & _ & Hu).
      exact Hu.
    + intros items li Hl Hin.
      destruct (normalize_line_items_built _ _ _ _ _ _ _ H Hl)
        as (raw & kd & kq & ku & ka & kc & Hf).
      destruct (Forall2_In_r _ _ _ _ Hf Hin) as (x & _ & Hx).
      exact (reads_item_in_unit _ _ _ _ _ _ _ _ _ Hx).
  - intros fields field entry c x. apply normalize_raises_entry_a.
  - intros container raw item c x. apply normalize_raises_item_a.
  - intros extracted financial vendor_field canonical_field entry c x ->.
    apply normalize_raises_entry_b.
  - intros container raw item c x ->. apply normalize_raises_item_b.
Qed.

(** X9: every audit of a returned record carries the normaliser's
    pipeline version, the vendor version passed to [normalize] and the
    evidence of page 1.  The vendor field name of a slot is the vendor's
    own key: the canonical name for vendor A and the fallback, the key of
    the field mapping for vendor B; that of a line item is "line_item".
    The audited values of the line items are the vendor's items
    themselves, one by one and in order: the elements of the list that
    the vendor's line-item container (under "line_items" for vendor A
    and the fallback, under "items" of "extracted_data" for vendor B)
    iterates to, each of them a dict. *)
Theorem normalize_stamps_provenance (now : datetime) (out : pydict)
    (vn vv : string) (r : InvoiceSchema) :
  normalize self now out vn vv = Ok r ->
  (forall field a,
      slot r field = Some a ->
      pipeline_version a = self_pipeline_version self
      /\ vendor_version a = vv
      /\ evidence a = Some (Evidence_page 1)
      /\ vendor_field_name a
         = if String.eqb vn "vendor_b" then vendor_b_key field
           else Some field)
  /\ (forall items li,
        line_items r = Some items -> In li items ->
        pipeline_version (audit li) = self_pipeline_version self
        /\ vendor_version (audit li) = vv
        /\ evidence (audit li) = Some (Evidence_page 1)
        /\ vendor_field_name (audit li) = Some "line_item"
        /\ exists d, value (audit li) = PyDict d)
  /\ (forall items,
        line_items r = Some items ->
        exists container raw,
          (if String.eqb vn "vendor_b" then vendor_b_items out = Ok container
           else dict_get out "line_items" = Some container)
          /\ py_iter container = Ok raw
          /\ map (fun li => value (audit li)) items = raw
          /\ Forall (fun v => exists d, v = PyDict d) raw).
Proof.
  intros H. split; [|split].
  - intros field a Hs.
    destruct (normalize_slot_built _ _ _ _ _ _ _ _ H Hs) as (v & Ha & _).
    rewrite Ha. cbn. repeat split.
    destruct (String.eqb vn "vendor_b"); [|reflexivity].
    destruct (field_mapping_covers field (slot_some_in_names _ _ _ Hs))
      as (vf & _ & Hk).
    rewrite Hk. reflexivity.
  - intros items li Hl Hin.
    destruct (normalize_line_items_built _ _ _ _ _ _ _ H Hl)
      as (raw & kd & kq & ku & ka & kc & Hf).
    destruct (Forall2_In_r _ _ _ _ Hf Hin) as (x & _ & Hx).
    apply line_item_of_reads in Hx.
    destruct Hx as (d & -> & _ & _ & _ & _ & _ & Ha).
    rewrite Ha. cbn. repeat split. exists d. reflexivity.
  - intros items Hl.
    destruct (normalize_line_items_from _ _ _ _ _ _ H Hl)
      as (container & raw & kd & kq & ku & ka & kc & Hc & Hi & Hf).
    exists container, raw.
    destruct (line_items_audit_values _ _ _ _ _ _ _ _ Hf) as [Hm Hd].
    auto.
Qed.
End NormalizeOutcomes.

(* ================================================================== *)
(** * The core pipeline: when it returns and when it raises *)

Section RequiredAttribute.

Context {C : Carrier} {F : PyFloatOps} {B : PyBuiltins}.

Variable self : Validator.

(** The loop over the required fields raises as soon as one of them
    names an attribute that is no audit. *)
Lemma required_loop_raises_on_other (invoice : InvoiceSchema) (field : string)
    (fields : list string) :
  In field fields -> getattr invoice field = AttrOther ->
  forall missing,
    required_loop invoice fields missing = Raise AttributeError.
Proof.
  intros Hin Hother.
  induction fields as [|f rest IH]; [destruct Hin|].
  intros missing. cbn [required_loop]. unfold required_step.
  destruct (getattr invoice f) as [a| |] eqn:Eg.
  - destruct Hin as [-> | Hin]; [congruence|].
    destruct (is_none (value a)); cbn [bind]; apply IH; exact Hin.
  - destruct Hin as [-> | Hin]; [congruence|].
    cbn [bind]. apply IH; exact Hin.
  - reflexivity.
Qed.

Lemma validate_raises_on_other_attribute (invoice : InvoiceSchema)
    (field : string) :
  In field (required_fields self) -> getattr invoice field = AttrOther ->
  validate self invoice = Raise AttributeError.
Proof.
  intros Hin Hother. unfold validate, _check_required_fields.
  rewrite (required_loop_raises_on_other invoice field _ Hin Hother). reflexivity.
Qed.

End RequiredAttribute.

(** C1, as the code has it.  On every vendor output that is well formed
    for the shape its vendor name selects (entries are mappings,
    confidences validate as floats within [0, 1], numeric values are null
    or convertible by [float], line items are well typed, the document
    identifier is a str), and with required fields that each name one of
    the nine field slots, normalise, validate and route all return and
    the pipeline ends in a [RoutingDecision] whose outcome is [AUTO_POST]
    or [NEEDS_REVIEW].  Outside these conditions the pipeline can raise.
    The schema refuses a confidence that validates to a float outside
    [0, 1]: building the [FieldAudit] raises [ValidationError], and
    [normalize] raises, returning no record, when such a confidence sits
    on an entry it reads and keeps: for vendor A and the fallback an
    entry under one of the nine field names or an item of the line-item
    list; for vendor B an entry under one of the nine mapped keys, unless
    its field is numeric and [float] refuses its text with [ValueError]
    or [TypeError], or an item of a non-empty item list.  Such a
    confidence does not make [normalize] raise on an entry that is
    dropped (vendor B, total text "abc", score 1.5) or never read
    (vendor A, under the key "notes").  And [validate] raises
    [AttributeError] when a required field names an attribute of the
    record that is no audit, as "doc_id" does. *)
Theorem core_pipeline_returns_on_well_formed_output :
  (forall (C : Carrier) (F : PyFloatOps) (B : PyBuiltins) (L : PyFloatLaws F)
          (normalizer : Normalizer) (validator : Validator) (now : datetime)
          (vendor_output : pydict) (vendor_name vendor_version : string),
      (required_fields_are_slots validator ->
       well_formed vendor_name vendor_output ->
       exists normalized validation routing,
         normalize normalizer now vendor_output vendor_name vendor_version
         = Ok normalized
         /\ validate validator normalized = Ok validation
         /\ route validator normalized validation = Ok routing
         /\ core_pipeline normalizer validator now vendor_output vendor_name
              vendor_version
            = Ok (normalized, validation, routing)
         /\ (outcome routing = "AUTO_POST"
             \/ outcome routing = "NEEDS_REVIEW"))
      /\ (forall v c x ev pv vv vfn,
            pydantic_float c = Ok x -> in_unit x = false ->
            new_FieldAudit v c ev pv vv vfn = Raise ValidationError)
      /\ (forall fields field entry c x,
            String.eqb vendor_name "vendor_b" = false ->
            dict_get vendor_output "fields" = Some (PyDict fields) ->
            In field slot_names ->
            dict_get fields field = Some (PyDict entry) ->
            dict_get entry "confidence" = Some c ->
            pydantic_float c = Ok x -> in_unit x = false ->
            exists e,
              normalize normalizer now vendor_output vendor_name
                vendor_version = Raise e
              /\ core_pipeline normalizer validator now vendor_output
                   vendor_name vendor_version = Raise e)
      /\ (forall container raw item c x,
            String.eqb vendor_name "vendor_b" = false ->
            dict_get vendor_output "line_items" = Some container ->
            py_iter container = Ok raw -> In (PyDict item) raw ->
            dict_get item "confidence" = Some c ->
            pydantic_float c = Ok x -> in_unit x = false ->
            exists e,
              normalize normalizer now vendor_output vendor_name
                vendor_version = Raise e
              /\ core_pipeline normalizer validator now vendor_output
                   vendor_name vendor_version = Raise e)
      /\ (forall extracted financial vendor_field canonical_field entry c x,
            vendor_name = "vendor_b" ->
            dict_get vendor_output "extracted_data" = Some (PyDict extracted) ->
            dict_get extracted "financial" = Some (PyDict financial) ->
            In (vendor_field, canonical_field) field_mapping ->
            dict_get financial vendor_field = Some (PyDict entry) ->
            dict_get entry "score" = Some c ->
            pydantic_float c = Ok x -> in_unit x = false ->
            (str_in canonical_field numeric_fields = true ->
             py_float (dict_get_default entry "text" PyNone)
             <> Raise ValueError
             /\ py_float (dict_get_default entry "text" PyNone)
                <> Raise TypeError) ->
            exists e,
              normalize normalizer now vendor_output vendor_name
                vendor_version = Raise e
              /\ core_pipeline normalizer validator now vendor_output
                   vendor_name vendor_version = Raise e)
      /\ (forall container raw item c x,
            vendor_name = "vendor_b" ->
            vendor_b_items vendor_output = Ok container ->
            truthy container = true ->
            py_iter container = Ok raw -> In (PyDict item) raw ->
            dict_get item "score" = Some c ->
            pydantic_float c = Ok x -> in_unit x = false ->
            exists e,
              normalize normalizer now vendor_output vendor_name
                vendor_version = Raise e
              /\ core_pipeline normalizer validator now vendor_output
                   vendor_name vendor_version = Raise e)
      /\ (forall normalized field,
            normalize normalizer now vendor_output vendor_name vendor_version
            = Ok normalized ->
            In field (required_fields validator) ->
            getattr normalized field = AttrOther ->
            validate validator normalized = Raise AttributeError
            /\ core_pipeline normalizer validator now vendor_output
                 vendor_name vendor_version = Raise AttributeError)
      /\ (forall normalized, getattr normalized "doc_id" = AttrOther))
  /\ result_map (fun r => (total r, doc_id r))
       (normalize (F:=Float64) default_Normalizer 0%Z
          (vendor_b_output (F:=Float64) (PyStr "abc") (f64 15 1))
          "vendor_b" "v1")
     = Ok (None, "doc-1")
  /\ result_map (fun r => (invoice_number r, doc_id r))
       (normalize (F:=Float64) default_Normalizer 0%Z vendor_a_unread_entry
          "vendor_a" "v1")
     = Ok (Some {| value := PyStr "INV-001"; confidence := f64 9 1;
                   evidence := Some (Evidence_page 1);
                   pipeline_version := "1.0.0"; vendor_version := "v1";
                   vendor_field_name := Some "invoice_number" |}, "doc-1").
Proof.
  split; [|split; vm_compute; reflexivity].
  intros C F B L normalizer validator now vendor_output vendor_name
    vendor_version.
  assert (Hpipe : forall e,
             normalize normalizer now vendor_output vendor_name vendor_version
             = Raise e ->
             core_pipeline normalizer validator now vendor_output vendor_name
               vendor_version = Raise e).
  { intros e He. unfold core_pipeline. rewrite He. reflexivity. }
  assert (Hboth : (exists e,
             normalize normalizer now vendor_output vendor_name vendor_version
             = Raise e) ->
           exists e,
             normalize normalizer now vendor_output vendor_name vendor_version
             = Raise e
             /\ core_pipeline normalizer validator now vendor_output
                  vendor_name vendor_version = Raise e).
  { intros [e He]. exists e. split; [exact He | exact (Hpipe e He)]. }
  split; [|split; [|split; [|split; [|split; [|split; [|split]]]]]].
  - intros Hreq Hw.
    destruct (normalize_returns normalizer now vendor_output vendor_name
                vendor_version Hw) as (r & Hn & Hu & Ha).
    destruct (validate_returns validator r Hreq Ha) as [v Hv].
    destruct (route_returns validator r v (overall_confidence_in_unit r Hu))
      as [d Hd].
    exists r, v, d. unfold core_pipeline. rewrite Hn. cbn [bind].
    rewrite Hv. cbn [bind]. rewrite Hd. cbn [bind].
    repeat split; try reflexivity.
    destruct (route_inv validator r v d Hd) as (Ho & _).
    rewrite Ho. unfold route_outcome.
    destruct (_ && _); auto.
  - intros v c x ev pv vv vfn Hc Hx. unfold new_FieldAudit.
    rewrite Hc. cbn [bind]. rewrite Hx. reflexivity.
  - intros fields field entry c x H1 H2 H3 H4 H5 H6 H7. apply Hboth.
    exact (normalize_raises_entry_a normalizer now vendor_output vendor_name
             vendor_version fields field entry c x H1 H2 H3 H4 H5 H6 H7).
  - intros container raw item c x H1 H2 H3 H4 H5 H6 H7. apply Hboth.
    exact (normalize_raises_item_a normalizer now vendor_output vendor_name
             vendor_version container raw item c x H1 H2 H3 H4 H5 H6 H7).
  - intros extracted financial vendor_field canonical_field entry c x
      Hvn H2 H3 H4 H5 H6 H7 H8 H9. apply Hboth. subst vendor_name.
    exact (normalize_raises_entry_b normalizer now vendor_output
             vendor_version extracted financial vendor_field canonical_field
             entry c x H2 H3 H4 H5 H6 H7 H8 H9).
  - intros container raw item c x Hvn H2 H3 H4 H5 H6 H7 H8. apply Hboth.
    subst vendor_name.
    exact (normalize_raises_item_b normalizer now vendor_output
             vendor_version container raw item c x H2 H3 H4 H5 H6 H7 H8).
  - intros normalized field Hn Hin Hother.
    pose proof (validate_raises_on_other_attribute validator normalized field
                  Hin Hother) as Hv.
    split; [exact Hv|].
    unfold core_pipeline. rewrite Hn. cbn [bind]. rewrite Hv. reflexivity.
  - intros normalized. reflexivity.
Qed.

(** C1 as stated fails: a vendor-A output whose total carries the
    confidence 1.5 makes [normalize] raise, so the pipeline ends in
    pydantic's [ValidationError] and not in a routing decision. *)
Lemma confidence_out_of_range_aborts_pipeline :
  normalize (F:=Float64) default_Normalizer 0%Z
    (vendor_a_output (F:=Float64) (PyFloat (f64 10800 2)) (f64 15 1))
    "vendor_a" "prebuilt-invoice"
  = Raise ValidationError
  /\ core_pipeline (F:=Float64) (B:=DateOnly) default_Normalizer validator64 0%Z
       (vendor_a_output (F:=Float64) (PyFloat (f64 10800 2)) (f64 15 1))
       "vendor_a" "prebuilt-invoice"
     = Raise ValidationError.
Proof. split; vm_compute; reflexivity. Qed.

Lemma vendor_a_output_well_formed :
  well_formed (F:=Float64) "azure_document_intelligence"
    (vendor_a_output (F:=Float64) (PyFloat (f64 10800 2)) (f64 9 1)).
Proof.
  split; [exists "doc-1"; reflexivity|].
  cbn [String.eqb Ascii.eqb Bool.eqb]. split; [|exact I].
  cbn. eexists. split; [reflexivity|].
  intros field Hin. simpl in Hin.
  destruct Hin as [<- | [<- | [<- | [<- | [<- | [<- | [<- | [<- | [<- | []]]]]]]]]];
    cbn; try exact I;
    (eexists; split; [reflexivity|]; split;
     [eexists; split; [reflexivity | vm_compute; reflexivity]
     | first [ intros H; discriminate H
             | intros _; right; eexists; reflexivity ]]).
Qed.

Lemma core_pipeline_returns_on_well_formed_output_witness :
  (exists normalized validation routing,
      core_pipeline (F:=Float64) (B:=DateOnly) default_Normalizer validator64
        0%Z (vendor_a_output (F:=Float64) (PyFloat (f64 10800 2)) (f64 9 1))
        "azure_document_intelligence" "prebuilt-invoice"
      = Ok (normalized, validation, routing))
  /\ (exists e,
        core_pipeline (F:=Float64) (B:=DateOnly) default_Normalizer validator64
          0%Z (vendor_a_output (F:=Float64) (PyFloat (f64 10800 2)) (f64 15 1))
          "azure_document_intelligence" "prebuilt-invoice"
        = Raise e)
  /\ (exists e,
        core_pipeline (F:=Float64) (B:=DateOnly) default_Normalizer validator64
          0%Z (vendor_b_output (F:=Float64) (PyStr "108.00") (f64 15 1))
          "vendor_b" "v1"
        = Raise e)
  /\ core_pipeline (F:=Float64) (B:=DateOnly) default_Normalizer
       validator_doc_id64 0%Z
       (vendor_a_output (F:=Float64) (PyFloat (f64 10800 2)) (f64 9 1))
       "azure_document_intelligence" "prebuilt-invoice"
     = Raise AttributeError.
Proof.
  destruct core_pipeline_returns_on_well_formed_output as [G _].
  split; [|split; [|split]].
  - destruct (proj1 (G binary64 Float64 DateOnly Float64_laws
                       default_Normalizer validator64 0%Z
                       (vendor_a_output (F:=Float64) (PyFloat (f64 10800 2))
                          (f64 9 1))
                       "azure_document_intelligence" "prebuilt-invoice")
                ltac:(repeat constructor) vendor_a_output_well_formed)
      as (r & v & d & _ & _ & _ & H & _).
    exists r, v, d. exact H.
  - destruct (G binary64 Float64 DateOnly Float64_laws
                default_Normalizer validator64 0%Z
                (vendor_a_output (F:=Float64) (PyFloat (f64 10800 2))
                   (f64 15 1))
                "azure_document_intelligence" "prebuilt-invoice")
      as (_ & _ & H & _).
    destruct (H _ "total" _ (PyFloat (f64 15 1)) (f64 15 1)
                eq_refl eq_refl ltac:(simpl; tauto) eq_refl eq_refl
                eq_refl eq_refl) as (e & _ & He).
    exists e. exact He.
  - destruct (G binary64 Float64 DateOnly Float64_laws
                default_Normalizer validator64 0%Z
                (vendor_b_output (F:=Float64) (PyStr "108.00") (f64 15 1))
                "vendor_b" "v1")
      as (_ & _ & _ & _ & H & _).
    destruct (H _ _ "amount_due" "total" _ (PyFloat (f64 15 1)) (f64 15 1)
                eq_refl eq_refl eq_refl ltac:(simpl; tauto) eq_refl eq_refl
                eq_refl eq_refl
                ltac:(intros _; split; vm_compute; discriminate))
      as (e & _ & He).
    exists e. exact He.
  - destruct (G binary64 Float64 DateOnly Float64_laws
                default_Normalizer validator_doc_id64 0%Z
                (vendor_a_output (F:=Float64) (PyFloat (f64 10800 2))
                   (f64 9 1))
                "azure_document_intelligence" "prebuilt-invoice")
      as (_ & _ & _ & _ & _ & _ & H & _).
    destruct (normalize (F:=Float64) default_Normalizer 0%Z
                (vendor_a_output (F:=Float64) (PyFloat (f64 10800 2))
                   (f64 9 1))
                "azure_document_intelligence" "prebuilt-invoice")
      as [r|e] eqn:E; [|vm_compute in E; discriminate E].
    exact (proj2 (H r "doc_id" eq_refl ltac:(simpl; tauto) eq_refl)).
Defined.



(* ================================================================== *)
(** * The order of binary64 and of the rationals *)

Lemma SFcompare_lt_trans (a b c : spec_float) :
  SFcompare a b = Some Lt -> SFcompare b c = Some Lt ->
  SFcompare a c = Some Lt.
Proof.
  destruct a as [sa|sa| |sa ma ea], b as [sb|sb| |sb mb eb],
           c as [sc|sc| |sc mc ec];
    try destruct sa; try destruct sb; try destruct sc;
    cbn; try discriminate; try reflexivity;
    destruct (Z.compare_spec ea eb), (Z.compare_spec eb ec),
             (Z.compare_spec ea ec);
    try discriminate; try reflexivity; try lia; subst;
    change (PosDef.Pos.compare_cont Eq) with Pos.compare;
    destruct (Pos.compare_spec ma mb), (Pos.compare_spec mb mc),
             (Pos.compare_spec ma mc);
    cbn; try discriminate; try reflexivity; try lia.
Qed.

Lemma SFcompare_lt_eq_trans (a b c : spec_float) :
  SFcompare a b = Some Lt -> SFcompare b c = Some Eq ->
  SFcompare a c = Some Lt.
Proof.
  destruct a as [sa|sa| |sa ma ea], b as [sb|sb| |sb mb eb],
           c as [sc|sc| |sc mc ec];
    try destruct sa; try destruct sb; try destruct sc;
    cbn; try discriminate; try reflexivity;
    destruct (Z.compare_spec ea eb), (Z.compare_spec eb ec),
             (Z.compare_spec ea ec);
    try discriminate; try reflexivity; try lia; subst;
    change (PosDef.Pos.compare_cont Eq) with Pos.compare;
    destruct (Pos.compare_spec ma mb), (Pos.compare_spec mb mc),
             (Pos.compare_spec ma mc);
    cbn; try discriminate; try reflexivity; try lia.
Qed.

Lemma float_ltb_trans (a b c : float) :
  PrimFloat.ltb a b = true -> PrimFloat.ltb b c = true ->
  PrimFloat.ltb a c = true.
Proof.
  rewrite !FloatAxioms.ltb_spec. unfold SFltb.
  destruct (SFcompare (Prim2SF a) (Prim2SF b)) as [[]|] eqn:E1;
    try discriminate.
  destruct (SFcompare (Prim2SF b) (Prim2SF c)) as [[]|] eqn:E2;
    try discriminate.
  rewrite (SFcompare_lt_trans _ _ _ E1 E2). reflexivity.
Qed.

Lemma float_ltb_leb_trans (a b c : float) :
  PrimFloat.ltb a b = true -> PrimFloat.leb b c = true ->
  PrimFloat.ltb a c = true.
Proof.
  rewrite !FloatAxioms.ltb_spec, FloatAxioms.leb_spec. unfold SFltb, SFleb.
  destruct (SFcompare (Prim2SF a) (Prim2SF b)) as [[]|] eqn:E1;
    try discriminate.
  destruct (SFcompare (Prim2SF b) (Prim2SF c)) as [[]|] eqn:E2;
    try discriminate.
  - rewrite (SFcompare_lt_eq_trans _ _ _ E1 E2). reflexivity.
  - rewrite (SFcompare_lt_trans _ _ _ E1 E2). reflexivity.
Qed.

Lemma Float64_order : PyOrderLaws Float64.
Proof.
  split.
  - exact float_ltb_trans.
  - exact float_ltb_leb_trans.
  - vm_compute. reflexivity.
Qed.

Lemma Qc_leb_false (x y : Qc) : Qc_leb x y = false <-> (y < x)%Q.
Proof.
  unfold Qc_leb. split.
  - intros H. apply Qnot_le_lt. intros Hle.
    apply Qle_bool_iff in Hle. congruence.
  - intros H. destruct (Qle_bool x y) eqn:E; [|reflexivity].
    apply Qle_bool_iff in E. exfalso. exact (Qlt_not_le _ _ H E).
Qed.

Lemma Exact_order : PyOrderLaws Exact.
Proof.
  split; cbn.
  - intros a b c H1 H2.
    apply negb_true_iff in H1, H2. apply negb_true_iff.
    apply Qc_leb_false in H1, H2. apply Qc_leb_false.
    exact (Qlt_trans _ _ _ H1 H2).
  - intros a b c H1 H2.
    apply negb_true_iff in H1. apply negb_true_iff.
    apply Qc_leb_false in H1. apply Qc_leb_false.
    unfold Qc_leb in H2. apply Qle_bool_iff in H2.
    exact (Qlt_le_trans _ _ _ H1 H2).
  - vm_compute. reflexivity.
Qed.

(* ================================================================== *)
(** * The levels of the business analysis *)

Section AnalysisFacts.

Context {C : Carrier} {F : PyFloatOps}.

Lemma py_gt_int_number (v : PyVal) (n : Z) :
  is_number v = true -> exists b, py_gt_int v n = Ok b.
Proof. destruct v; simpl; try discriminate; eauto. Qed.

Lemma py_gt_int_raises (v : PyVal) (n : Z) :
  is_number v = false -> py_gt_int v n = Raise TypeError.
Proof. destruct v; simpl; try discriminate; reflexivity. Qed.

Lemma py_gt_int_chain {L : PyOrderLaws F} (v : PyVal) :
  py_gt_int v 100000 = Ok true -> py_gt_int v 50000 = Ok true.
Proof.
  destruct v as [|b|z|x| | | |]; simpl; try discriminate.
  - destruct b; discriminate.
  - intros H. injection H as H'. f_equal.
    apply Z.ltb_lt in H'. apply Z.ltb_lt. lia.
  - intros H. injection H as H'. f_equal.
    eapply ltb_trans; [exact critical_below_urgent | exact H'].
Qed.

Lemma analysis_total_truthy_or_zero (d : pydict) :
  truthy (analysis_total d) = true \/ analysis_total d = PyInt 0.
Proof.
  unfold analysis_total, py_or.
  destruct (truthy (dict_get_default d "total" PyNone)) eqn:E; auto.
Qed.

Lemma analysis_total_non_number_truthy (d : pydict) :
  is_number (analysis_total d) = false -> truthy (analysis_total d) = true.
Proof.
  destruct (analysis_total_truthy_or_zero d) as [H | H]; [auto|].
  rewrite H. discriminate.
Qed.

(** X15: the urgency follows the priority.  On every input dict the two
    raise together ([TypeError], when the total is present, truthy and
    not a number), and when they return, the priority is CRITICAL exactly
    when the urgency is URGENT or NORMAL: an urgent invoice is never
    below the critical priority. *)
Theorem urgency_follows_priority {L : PyOrderLaws F} (invoice_data : pydict) :
  let total := analysis_total invoice_data in
  (forall e, _calculate_priority total invoice_data = Raise e <->
             _determine_urgency invoice_data = Raise e)
  /\ (forall e, _determine_urgency invoice_data = Raise e ->
                e = TypeError /\ is_number total = false)
  /\ (forall p u,
        _calculate_priority total invoice_data = Ok p ->
        _determine_urgency invoice_data = Ok u ->
        (p = "CRITICAL" <-> u = "URGENT" \/ u = "NORMAL")).
Proof.
  cbv zeta. unfold _determine_urgency, _calculate_priority.
  fold (analysis_total invoice_data).
  destruct (is_number (analysis_total invoice_data)) eqn:En.
  - destruct (py_gt_int_number _ 100000 En) as (b1 & E1).
    destruct (py_gt_int_number _ 50000 En) as (b2 & E2).
    destruct (py_gt_int_number _ 10000 En) as (b3 & E3).
    destruct (py_gt_int_number _ 1000 En) as (b4 & E4).
    assert (Hc : b1 = true -> b2 = true).
    { intros ->. apply py_gt_int_chain in E1. congruence. }
    assert (Hz : truthy (analysis_total invoice_data) = false -> b2 = false).
    { intros Ht. destruct (analysis_total_truthy_or_zero invoice_data) as [H|H];
        [congruence|].
      rewrite H in E2. simpl in E2. inversion E2. reflexivity. }
    rewrite E1, E2, E3, E4. cbn [bind].
    destruct (truthy (analysis_total invoice_data)); cbn [negb].
    + destruct b1, b2, b3, b4; try (specialize (Hc eq_refl); discriminate);
        (split; [intros e; split; discriminate|]);
        (split; [intros e; discriminate|]);
        intros p u Hp Hu; inversion Hp; inversion Hu; subst;
        split; intros H; try discriminate; auto;
        destruct H as [H|H]; discriminate.
    + rewrite (Hz eq_refl) in *.
      assert (b1 = false) by (destruct b1; [specialize (Hc eq_refl)|]; congruence).
      subst b1.
      split; [intros e; split; discriminate|].
      split; [intros e; discriminate|].
      intros p u Hp Hu; inversion Hp; inversion Hu; subst.
      split; intros H; try discriminate. destruct H as [H|H]; discriminate.
  - rewrite (analysis_total_non_number_truthy _ En). cbn [negb].
    rewrite !(py_gt_int_raises _ _ En). cbn [bind].
    split; [intros e; tauto|].
    split; [intros e H; inversion H; auto|].
    intros p u Hp; discriminate.
Qed.

Lemma insights_total (invoice : InvoiceSchema) (v : ValidationResult) :
  analysis_total (insights_input invoice v)
  = py_or (value_or_none (total invoice)) (PyInt 0).
Proof. reflexivity. Qed.

Lemma assess_risk_of_insights (invoice : InvoiceSchema) (v : ValidationResult)
    (t : PyVal) :
  _assess_risk (insights_input invoice v) t
  = if negb (passed v) then Ok "HIGH"
    else
      low <- py_lt_0_7 (confidence_or_0 (total invoice)) ;;
      if low then Ok "HIGH"
      else
        large <- py_gt_int t 100000 ;;
        if large then Ok "MEDIUM" else Ok "LOW".
Proof. reflexivity. Qed.

(** X16: the analysis of step 5 raises exactly on a total that is not a
    number.  On the dict [process_invoice] builds, the three levels
    raise [TypeError] when the total's value is truthy and neither a
    float, an int nor a bool (a text that vendor A left uncoerced, which
    [validate] reads with [float]), and return otherwise; they raise
    nothing else. *)
Theorem analysis_raises_exactly_on_non_numeric_total (invoice : InvoiceSchema)
    (v : ValidationResult) :
  let d := insights_input invoice v in
  (is_number (analysis_total d) = false ->
   analyze_invoice_levels d = Raise TypeError)
  /\ (is_number (analysis_total d) = true ->
      exists p u r, analyze_invoice_levels d = Ok (p, u, r))
  /\ (forall s a, total invoice = Some a -> value a = PyStr s -> s <> "" ->
                  analyze_invoice_levels d = Raise TypeError).
Proof.
  cbv zeta.
  assert (Hraise : is_number (analysis_total (insights_input invoice v)) = false ->
                   analyze_invoice_levels (insights_input invoice v)
                   = Raise TypeError).
  { intros En. unfold analyze_invoice_levels, _calculate_priority.
    rewrite (analysis_total_non_number_truthy _ En). cbn [negb].
    rewrite (py_gt_int_raises _ _ En). reflexivity. }
  split; [exact Hraise|]. split.
  - intros En. unfold analyze_invoice_levels.
    unfold _calculate_priority, _determine_urgency.
    fold (analysis_total (insights_input invoice v)).
    rewrite assess_risk_of_insights.
    destruct (py_gt_int_number _ 100000 En) as (b1 & E1).
    destruct (py_gt_int_number _ 50000 En) as (b2 & E2).
    destruct (py_gt_int_number _ 10000 En) as (b3 & E3).
    destruct (py_gt_int_number _ 1000 En) as (b4 & E4).
    rewrite E1, E2, E3, E4. cbn [bind].
    assert (Hl : exists l, py_lt_0_7 (confidence_or_0 (total invoice)) = Ok l)
      by (destruct (total invoice); simpl; eauto).
    destruct Hl as (l & ->). cbn [bind].
    destruct (negb (truthy _)), b1, b2, b3, b4, (negb (passed v)), l;
      cbn [bind]; eauto.
  - intros s a Ht Hv Hs. apply Hraise.
    rewrite insights_total, Ht. cbn [value_or_none]. rewrite Hv.
    unfold py_or. cbn [truthy].
    destruct (String.eqb s "") eqn:E; [apply String.eqb_eq in E; tauto|].
    reflexivity.
Qed.

End AnalysisFacts.

Section RiskAfterRouting.

Context {C : Carrier} {F : PyFloatOps} {B : PyBuiltins} {L : PyOrderLaws F}.

Variable self : Validator.

(** X17: an invoice routed AUTO_POST is never rated HIGH risk, when the
    total is a required field and the routing threshold is at least the
    0.7 of the risk rule: its validation passed, its total is present
    and its confidence is not below 0.7, so [_assess_risk] returns LOW or
    MEDIUM on a numeric total (and raises [TypeError] on any other). *)
Theorem auto_post_is_not_high_risk (invoice : InvoiceSchema)
    (v : ValidationResult) (d : RoutingDecision) :
  In "total" (required_fields self) ->
  f_leb (f_dec 7 1) (low_confidence_threshold self) = true ->
  validate self invoice = Ok v ->
  route self invoice v = Ok d ->
  outcome d = "AUTO_POST" ->
  let data := insights_input invoice v in
  _assess_risk data (analysis_total data) <> Ok "HIGH"
  /\ (is_number (analysis_total data) = true ->
      _assess_risk data (analysis_total data) = Ok "LOW"
      \/ _assess_risk data (analysis_total data) = Ok "MEDIUM")
  /\ (is_number (analysis_total data) = false ->
      _assess_risk data (analysis_total data) = Raise TypeError).
Proof.
  intros Hreq Hthr Hv Hd Ho. cbv zeta.
  destruct (route_inv self invoice v d Hd) as (Eo & _ & _ & _).
  rewrite Eo in Ho. unfold route_outcome in Ho.
  destruct (Nat.eqb _ 0) eqn:En; [|discriminate].
  apply length_zero_iff_nil in En.
  destruct (reason_code_tests self invoice v) as (_ & _ & _ & _ & _ & Tnil).
  apply Tnil in En. destruct En as (Hp & Hl & _ & _).
  destruct (validate_reads self invoice v Hv) as (_ & R1 & _).
  destruct (validate_hard_and_soft self invoice v Hv) as (Hpass & _).
  pose proof (proj1 Hpass Hp "required_fields_present"
                ltac:(simpl; tauto)) as Hc.
  assert (Hm : is_missing invoice "total" = false).
  { destruct (is_missing invoice "total") eqn:Em; [|reflexivity].
    exfalso.
    assert (Hne : filter (is_missing invoice) (required_fields self) <> []).
    { intros Hnil.
      assert (Hf : In "total" (filter (is_missing invoice)
                                 (required_fields self)))
        by (apply filter_In; auto).
      rewrite Hnil in Hf. destruct Hf. }
    apply R1 in Hne. unfold check_failed in Hne. rewrite Hc in Hne.
    discriminate. }
  unfold is_missing in Hm. change (slot invoice "total") with (total invoice) in Hm.
  destruct (total invoice) as [a|] eqn:Et; [|discriminate].
  assert (Hlow : f_ltb (confidence a) (low_confidence_threshold self) = false).
  { destruct (f_ltb (confidence a) (low_confidence_threshold self)) eqn:El;
      [|reflexivity].
    exfalso.
    assert (Hf : In "total" (low_confidence_fields self invoice)).
    { unfold low_confidence_fields. apply filter_In.
      split; [simpl; tauto|].
      unfold is_low_confidence.
      change (slot invoice "total") with (total invoice).
      rewrite Et. exact El. }
    rewrite Hl in Hf. destruct Hf. }
  assert (H07 : f_ltb (confidence a) (f_dec 7 1) = false).
  { destruct (f_ltb (confidence a) (f_dec 7 1)) eqn:E7; [|reflexivity].
    rewrite (ltb_leb_trans _ _ _ E7 Hthr) in Hlow. discriminate. }
  rewrite assess_risk_of_insights, Hp, Et. cbn [negb confidence_or_0 py_lt_0_7 bind].
  rewrite H07.
  destruct (is_number (analysis_total (insights_input invoice v))) eqn:En.
  - destruct (py_gt_int_number _ 100000 En) as (b & ->). cbn [bind].
    destruct b; (split; [discriminate|]); (split; [auto|discriminate]).
  - rewrite (py_gt_int_raises _ _ En). cbn [bind].
    split; [discriminate|]. split; [discriminate|reflexivity].
Qed.

End RiskAfterRouting.

(* ================================================================== *)
(** * What validation and routing never read *)

Section ProvenanceIsNotRead.

Context {C : Carrier} {F : PyFloatOps} {B : PyBuiltins}.

Variable self : Validator.

Variables i j : InvoiceSchema.

Hypothesis Hsame : same_readings i j.

Lemma reading_inv (x y : option FieldAudit) :
  reading x = reading y ->
  match x, y with
  | Some a, Some b => value a = value b /\ confidence a = confidence b
  | None, None => True
  | _, _ => False
  end.
Proof.
  destruct x as [a|], y as [b|]; simpl; try discriminate; auto.
  intros H; inversion H; auto.
Qed.

Lemma same_getattr_step (missing : list string) (field : string) :
  required_step i missing field = required_step j missing field.
Proof.
  unfold required_step, getattr.
  destruct (str_in field slot_names).
  - pose proof (reading_inv _ _ (proj1 Hsame field)) as E.
    destruct (slot i field) as [a|], (slot j field) as [b|];
      try (exfalso; exact E); [|reflexivity].
    destruct E as [-> _]. reflexivity.
  - destruct (String.eqb field "line_items").
    + destruct Hsame as [_ Hl].
      destruct (line_items i), (line_items j); try reflexivity.
      * discriminate (proj2 Hl eq_refl).
      * discriminate (proj1 Hl eq_refl).
    + reflexivity.
Qed.

Lemma same_required_loop (fields missing : list string) :
  required_loop i fields missing = required_loop j fields missing.
Proof.
  revert missing. induction fields as [|f rest IH]; intros missing; simpl;
    [reflexivity|].
  rewrite same_getattr_step.
  destruct (required_step j missing f); cbn [bind]; auto.
Qed.

Lemma same_slot_field (name : string) :
  match slot i name, slot j name with
  | Some a, Some b => value a = value b /\ confidence a = confidence b
  | None, None => True
  | _, _ => False
  end.
Proof. exact (reading_inv _ _ (proj1 Hsame name)). Qed.

Lemma same_check_required (errors : list message) :
  _check_required_fields self i errors = _check_required_fields self j errors.
Proof. unfold _check_required_fields. rewrite same_required_loop. reflexivity. Qed.

Lemma same_check_date (errors : list message) :
  _check_date_format i errors = _check_date_format j errors.
Proof.
  unfold _check_date_format.
  pose proof (same_slot_field "invoice_date") as E.
  change (slot i "invoice_date") with (invoice_date i) in E.
  change (slot j "invoice_date") with (invoice_date j) in E.
  destruct (invoice_date i) as [a|], (invoice_date j) as [b|];
    try (exfalso; exact E); [|reflexivity].
  destruct E as [-> _]. reflexivity.
Qed.

Lemma same_check_currency (errors : list message) :
  _check_currency i errors = _check_currency j errors.
Proof.
  unfold _check_currency.
  pose proof (same_slot_field "currency") as E.
  change (slot i "currency") with (currency i) in E.
  change (slot j "currency") with (currency j) in E.
  destruct (currency i) as [a|], (currency j) as [b|];
    try (exfalso; exact E); [|reflexivity].
  destruct E as [-> _]. reflexivity.
Qed.

Lemma same_reconciliation_currency :
  reconciliation_currency i = reconciliation_currency j.
Proof.
  unfold reconciliation_currency.
  pose proof (same_slot_field "currency") as E.
  change (slot i "currency") with (currency i) in E.
  change (slot j "currency") with (currency j) in E.
  destruct (currency i) as [a|], (currency j) as [b|];
    try (exfalso; exact E); [|reflexivity].
  destruct E as [-> _]. reflexivity.
Qed.

Lemma same_check_reconciliation (errors : list message) :
  _check_reconciliation self i errors = _check_reconciliation self j errors.
Proof.
  unfold _check_reconciliation. rewrite same_reconciliation_currency.
  pose proof (same_slot_field "subtotal") as E1.
  pose proof (same_slot_field "tax") as E2.
  pose proof (same_slot_field "total") as E3.
  change (slot i "subtotal") with (subtotal i) in E1.
  change (slot j "subtotal") with (subtotal j) in E1.
  change (slot i "tax") with (tax i) in E2.
  change (slot j "tax") with (tax j) in E2.
  change (slot i "total") with (total i) in E3.
  change (slot j "total") with (total j) in E3.
  destruct (subtotal i) as [a1|], (subtotal j) as [b1|];
    try (exfalso; exact E1); [|reflexivity].
  destruct (tax i) as [a2|], (tax j) as [b2|];
    try (exfalso; exact E2); [|reflexivity].
  destruct (total i) as [a3|], (total j) as [b3|];
    try (exfalso; exact E3); [|reflexivity].
  destruct E1 as [-> _], E2 as [-> _], E3 as [-> _]. reflexivity.
Qed.

Lemma same_check_total (warnings : list message) :
  _check_total_threshold self i warnings
  = _check_total_threshold self j warnings.
Proof.
  unfold _check_total_threshold.
  pose proof (same_slot_field "total") as E.
  change (slot i "total") with (total i) in E.
  change (slot j "total") with (total j) in E.
  destruct (total i) as [a|], (total j) as [b|];
    try (exfalso; exact E); [|reflexivity].
  destruct E as [-> _]. reflexivity.
Qed.

Lemma same_check_po (warnings : list message) :
  _check_po_present i warnings = _check_po_present j warnings.
Proof.
  unfold _check_po_present.
  pose proof (same_slot_field "po_number") as E.
  change (slot i "po_number") with (po_number i) in E.
  change (slot j "po_number") with (po_number j) in E.
  destruct (po_number i) as [a|], (po_number j) as [b|];
    try (exfalso; exact E); [|reflexivity].
  destruct E as [-> _]. reflexivity.
Qed.

Lemma same_is_low_confidence (field : string) :
  is_low_confidence self i field = is_low_confidence self j field.
Proof.
  unfold is_low_confidence.
  pose proof (same_slot_field field) as E.
  destruct (slot i field) as [a|], (slot j field) as [b|];
    try (exfalso; exact E); [|reflexivity].
  destruct E as [_ ->]. reflexivity.
Qed.

Lemma same_confidence_scores : confidence_scores i = confidence_scores j.
Proof.
  unfold confidence_scores.
  induction critical_fields as [|f rest IH]; [reflexivity|].
  cbn [flat_map]. rewrite IH. f_equal.
  pose proof (same_slot_field f) as E.
  destruct (slot i f) as [a|], (slot j f) as [b|];
    try (exfalso; exact E); [|reflexivity].
  destruct E as [_ ->]. reflexivity.
Qed.

(** X18: validation and routing read only the value and the confidence
    of each slot.  Two records that agree on these (and both have, or
    both lack, line items) get the same validation result, or the same
    exception, and the same routing decision: the provenance stamps, the
    evidence, the document identifier, the timestamp, the vendor name,
    the raw vendor output and the content of the line items are never
    read. *)
Theorem validation_and_routing_ignore_provenance :
  validate self i = validate self j
  /\ (forall v, route self i v = route self j v).
Proof.
  split.
  - unfold validate.
    rewrite same_check_required.
    destruct (_check_required_fields self j []) as [[b1 e1]|]; cbn [bind];
      [|reflexivity].
    rewrite same_check_date.
    destruct (_check_date_format j e1) as [[b2 e2]|]; cbn [bind];
      [|reflexivity].
    rewrite same_check_currency.
    destruct (_check_currency j e2) as [[b3 e3]|]; cbn [bind]; [|reflexivity].
    rewrite same_check_reconciliation.
    destruct (_check_reconciliation self j e3) as [[b4 e4]|]; cbn [bind];
      [|reflexivity].
    rewrite same_check_total.
    destruct (_check_total_threshold self j []) as [[b5 w1]|]; cbn [bind];
      [|reflexivity].
    rewrite same_check_po. reflexivity.
  - intros v.
    assert (Hl : low_confidence_fields self i = low_confidence_fields self j).
    { unfold low_confidence_fields. apply filter_ext.
      intros f. apply same_is_low_confidence. }
    assert (Hc : route_reason_codes self i v = route_reason_codes self j v).
    { unfold route_reason_codes, confidence_reason_codes. rewrite Hl.
      reflexivity. }
    assert (Ho : overall_confidence i = overall_confidence j).
    { unfold overall_confidence. rewrite same_confidence_scores. reflexivity. }
    unfold route, route_outcome. rewrite Hc, Ho. reflexivity.
Qed.

End ProvenanceIsNotRead.

(* ================================================================== *)
(** * The configuration the constructor stores *)

Section ConstructorFacts.

Context {C : Carrier} {F : PyFloatOps} {B : PyBuiltins}.

(** X19: [Validator.__init__] replaces an empty list of required fields,
    like a missing one, by the four default fields, and an empty
    tolerance table by the default table; the two thresholds are stored
    as passed.  So no constructed validator has an empty list of
    required fields, and none passes a record with every slot absent:
    on such a record [validate] raises or returns [passed = False]. *)
Theorem empty_configuration_falls_back_to_defaults
    (tolerance : option (list (string * num))) (high low : num)
    (fields : option (list string)) :
  let self := Validator_init tolerance high low fields in
  required_fields self <> []
  /\ currency_tolerance self <> []
  /\ (fields = Some [] -> required_fields self = default_required_fields)
  /\ (tolerance = Some [] ->
      currency_tolerance self = default_currency_tolerance)
  /\ high_total_threshold self = high
  /\ low_confidence_threshold self = low
  /\ (forall invoice v,
        (forall field, slot invoice field = None) ->
        validate self invoice = Ok v -> passed v = false).
Proof.
  cbv zeta.
  assert (Hne : required_fields (Validator_init tolerance high low fields)
                <> []).
  { unfold Validator_init. cbn [required_fields].
    destruct fields as [[|f l]|]; discriminate. }
  split; [exact Hne|].
  split; [unfold Validator_init; cbn [currency_tolerance];
          destruct tolerance as [[|e d]|]; discriminate|].
  split; [intros ->; reflexivity|].
  split; [intros ->; reflexivity|].
  split; [reflexivity|]. split; [reflexivity|].
  intros invoice v Hnone Hv.
  destruct (validate_reads _ invoice v Hv) as (_ & R1 & _).
  destruct (validate_hard_and_soft _ invoice v Hv) as (_ & Hard & _).
  apply (Hard "required_fields_present"); [simpl; tauto|].
  apply R1.
  destruct (required_fields (Validator_init tolerance high low fields))
    as [|f l]; [congruence|].
  cbn [filter]. unfold is_missing at 1. rewrite Hnone. discriminate.
Qed.

End ConstructorFacts.

Lemma empty_configuration_falls_back_to_defaults_witness :
  required_fields
    (Validator_init (F:=Float64) (Some []) (f64 100000 0) (f64 7 1) (Some []))
  = ["invoice_number"; "invoice_date"; "supplier_name"; "total"]
  /\ exists v : ValidationResult (C:=binary64),
      validate (F:=Float64) (B:=DateOnly)
        (Validator_init (F:=Float64) (Some []) (f64 100000 0) (f64 7 1)
           (Some []))
        empty_invoice = Ok v
      /\ passed v = false.
Proof.
  destruct (empty_configuration_falls_back_to_defaults (F:=Float64)
              (B:=DateOnly) (Some []) (f64 100000 0) (f64 7 1) (Some []))
    as (_ & _ & Hf & _ & _ & _ & Hv).
  split; [exact (Hf eq_refl)|].
  destruct (validate (F:=Float64) (B:=DateOnly)
              (Validator_init (F:=Float64) (Some []) (f64 100000 0) (f64 7 1)
                 (Some []))
              empty_invoice) as [v|e] eqn:E;
    [|vm_compute in E; discriminate E].
  exists v. split; [reflexivity|].
  apply (Hv empty_invoice v); [|exact E].
  intros field. unfold slot.
  repeat match goal with
         | |- (if ?b then _ else _) = None => destruct b; [reflexivity|]
         end.
  reflexivity.
Defined.

(* ================================================================== *)
(** * What a passed validation vouches for *)

Section PassedValidation.

Context {C : Carrier} {F : PyFloatOps} {B : PyBuiltins}.

Variable self : Validator.

Lemma check_date_format_reads (invoice : InvoiceSchema)
    (errors errors' : list message) (b : bool) :
  _check_date_format invoice errors = Ok (b, errors') ->
  (b = true <->
   forall a, invoice_date invoice = Some a ->
             match value a with
             | PyNone | PyDateTime _ => True
             | PyStr s =>
                 fromisoformat_ok (replace_Z s) = true
                 \/ strptime_ymd_ok s = true
             | _ => False
             end).
Proof.
  unfold _check_date_format.
  destruct (invoice_date invoice) as [a|];
    [|intros H; inversion H; split; [intros _ a0 Ha; discriminate | reflexivity]].
  destruct (value a) as [|vb|vz|vx|s|t|l|d] eqn:Ev;
    try (intros H; inversion H; subst;
         (split; [intros Hb; try discriminate Hb;
                  intros a0 Ha; inversion Ha; subst a0; rewrite Ev; exact I
                 |intros Hall; try reflexivity;
                  specialize (Hall a eq_refl); rewrite Ev in Hall;
                  destruct Hall])).
  destruct (fromisoformat_ok (replace_Z s)) eqn:E1.
  - intros H; inversion H; subst. split; [|reflexivity].
    intros _ a0 Ha; inversion Ha; subst a0. rewrite Ev. auto.
  - destruct (strptime_ymd_ok s) eqn:E2; intros H; inversion H; subst.
    + split; [|reflexivity].
      intros _ a0 Ha; inversion Ha; subst a0. rewrite Ev. auto.
    + split; [discriminate|].
      intros Hall. specialize (Hall a eq_refl). rewrite Ev, E1, E2 in Hall.
      destruct Hall; discriminate.
Qed.

Lemma check_currency_reads (invoice : InvoiceSchema)
    (errors errors' : list message) (b : bool) :
  _check_currency invoice errors = Ok (b, errors') ->
  (b = true <->
   forall a, currency invoice = Some a -> value a <> PyNone ->
             str_in (str_upper (py_str (value a))) valid_currencies = true).
Proof.
  unfold _check_currency.
  destruct (currency invoice) as [a|];
    [|intros H; inversion H; split; [intros _ a0 Ha; discriminate | reflexivity]].
  destruct (is_none (value a)) eqn:En.
  - intros H; inversion H; subst. split; [|reflexivity].
    intros _ a0 Ha Hv; inversion Ha; subst a0.
    destruct (value a); try discriminate. elim Hv; reflexivity.
  - destruct (str_in (str_upper (py_str (value a))) valid_currencies) eqn:Es;
      cbn [negb]; intros H; inversion H; subst.
    + split; [|reflexivity]. intros _ a0 Ha _; inversion Ha; subst a0. exact Es.
    + split; [discriminate|].
      intros Hall.
      assert (Hv : value a <> PyNone)
        by (intros E; rewrite E in En; discriminate).
      rewrite (Hall a eq_refl Hv) in Es. discriminate.
Qed.

(** X20: what a passed validation vouches for in the date and the
    currency.  When [validate] returns [passed = True], a present,
    non-null invoice date is a datetime or a text that one of the two
    date parsers accepts, and the text of a present, non-null currency
    is, once [upper()] is applied, one of the eight recognised codes; and conversely the two
    checks are false exactly when these fail.  An absent or null date or
    currency passes both checks: only the required-fields check can
    object to it. *)
Theorem passed_validation_vouches_for_date_and_currency
    (invoice : InvoiceSchema) (v : ValidationResult) :
  validate self invoice = Ok v ->
  (check_failed v "date_format_valid" = false <->
   forall a, invoice_date invoice = Some a ->
             match value a with
             | PyNone | PyDateTime _ => True
             | PyStr s =>
                 fromisoformat_ok (replace_Z s) = true
                 \/ strptime_ymd_ok s = true
             | _ => False
             end)
  /\ (check_failed v "currency_valid" = false <->
      forall a, currency invoice = Some a -> value a <> PyNone ->
                In (str_upper (py_str (value a))) valid_currencies)
  /\ (passed v = true ->
      check_failed v "date_format_valid" = false
      /\ check_failed v "currency_valid" = false
      /\ (In "invoice_date" (required_fields self) ->
          exists a, invoice_date invoice = Some a /\ value a <> PyNone)).
Proof.
  intros Hv.
  destruct (validate_reads self invoice v Hv) as (_ & R1 & _).
  destruct (validate_hard_and_soft self invoice v Hv) as (Hpass & _).
  destruct (validate_inv self invoice v Hv)
    as (b1 & b2 & b3 & b4 & b5 & b6 & e1 & e2 & e3 & e4 & w1 & w2
        & H1 & H2 & H3 & H4 & H5 & H6 & Hr).
  apply check_date_format_reads in H2.
  apply check_currency_reads in H3.
  assert (D : check_failed v "date_format_valid" = negb b2)
    by (subst v; reflexivity).
  assert (Cu : check_failed v "currency_valid" = negb b3)
    by (subst v; reflexivity).
  split; [rewrite D, negb_false_iff; exact H2|].
  split.
  - rewrite Cu, negb_false_iff, H3. split; intros Hall a Ha Hn.
    + apply str_in_In. exact (Hall a Ha Hn).
    + apply str_in_In. exact (Hall a Ha Hn).
  - intros Hp. pose proof (proj1 Hpass Hp) as Hall.
    assert (A2 : dict_get (checks v) "date_format_valid" = Some true)
      by (apply Hall; simpl; tauto).
    assert (A3 : dict_get (checks v) "currency_valid" = Some true)
      by (apply Hall; simpl; tauto).
    assert (A1 : dict_get (checks v) "required_fields_present" = Some true)
      by (apply Hall; simpl; tauto).
    unfold check_failed. rewrite A2, A3. split; [reflexivity|].
    split; [reflexivity|].
    intros Hin.
    destruct (is_missing invoice "invoice_date") eqn:Em.
    + exfalso.
      assert (Hne : filter (is_missing invoice) (required_fields self) <> []).
      { intros Hnil.
        assert (Hf : In "invoice_date" (filter (is_missing invoice)
                                          (required_fields self)))
          by (apply filter_In; auto).
        rewrite Hnil in Hf. destruct Hf. }
      apply R1 in Hne. unfold check_failed in Hne. rewrite A1 in Hne.
      discriminate.
    + unfold is_missing in Em.
      change (slot invoice "invoice_date") with (invoice_date invoice) in Em.
      destruct (invoice_date invoice) as [a|]; [|discriminate].
      exists a. split; [reflexivity|].
      intros E. rewrite E in Em. discriminate.
Qed.

End PassedValidation.

Lemma passed_validation_vouches_for_date_and_currency_witness :
  validate (F:=Float64) (B:=DateOnly) validator64 (sample64 10800 90 true)
  = Ok all_passed
  /\ check_failed (all_passed (C:=binary64)) "date_format_valid" = false
  /\ check_failed (all_passed (C:=binary64)) "currency_valid" = false
  /\ exists a, invoice_date (sample64 10800 90 true) = Some a
               /\ value a <> PyNone.
Proof.
  assert (Hv : validate (F:=Float64) (B:=DateOnly) validator64
                 (sample64 10800 90 true) = Ok all_passed)
    by (vm_compute; reflexivity).
  split; [exact Hv|].
  destruct (proj2 (proj2 (passed_validation_vouches_for_date_and_currency
                            (F:=Float64) (B:=DateOnly) validator64 _ _ Hv))
              eq_refl) as (Hd & Hc & Hi).
  split; [exact Hd|]. split; [exact Hc|].
  apply Hi. simpl. tauto.
Defined.

(* ================================================================== *)
(** * The facts above on sample documents *)

Lemma check_required_fields_lists_missing_witness :
  required_fields_are_slots validator64
  /\ _check_required_fields (B:=DateOnly) validator64
       (without_invoice_date (sample64 10800 90 true)) []
     = Ok (false, [MissingRequiredFields ["invoice_date"]]).
Proof.
  assert (H : required_fields_are_slots validator64) by (repeat constructor).
  split; [exact H|].
  exact (proj2 (check_required_fields_lists_missing (B:=DateOnly) validator64
                  (without_invoice_date (sample64 10800 90 true)) []) H).
Defined.

Lemma validate_one_message_per_failed_check_witness :
  validate (F:=Float64) (B:=DateOnly) validator64 (sample64 10800 90 false)
  = Ok passed_without_po
  /\ List.length (errors passed_without_po)
     = count_failed passed_without_po hard_checks
  /\ List.length (warnings passed_without_po)
     = count_failed passed_without_po soft_checks.
Proof.
  assert (H : validate (F:=Float64) (B:=DateOnly) validator64
                (sample64 10800 90 false) = Ok passed_without_po)
    by (vm_compute; reflexivity).
  split; [exact H|].
  exact (proj2 (validate_one_message_per_failed_check (F:=Float64)
                  (B:=DateOnly) validator64 _ _ H)).
Defined.

Lemma validate_raises_only_on_unreadable_amount_witness :
  validate (F:=Float64) (B:=DateOnly) validator64
    (invoice_100_8 (F:=Float64) (PyStr "abc") (f64 90 2) true)
  = Raise ValueError
  /\ ((ValueError = AttributeError /\ ~ required_fields_are_slots validator64)
      \/ (exists field a,
            In field numeric_fields
            /\ slot (invoice_100_8 (F:=Float64) (PyStr "abc") (f64 90 2) true)
                 field = Some a
            /\ value a <> PyNone
            /\ py_float (F:=Float64) (value a) = Raise ValueError)).
Proof.
  assert (H : validate (F:=Float64) (B:=DateOnly) validator64
                (invoice_100_8 (F:=Float64) (PyStr "abc") (f64 90 2) true)
              = Raise ValueError)
    by (vm_compute; reflexivity).
  split; [exact H|].
  exact (validate_raises_only_on_unreadable_amount (F:=Float64) (B:=DateOnly)
           validator64 _ _ H).
Defined.

Lemma reason_codes_describe_invoice_witness :
  validate (F:=Float64) (B:=DateOnly) validator64 (sample64 10800 90 false)
  = Ok passed_without_po
  /\ (In "MISSING_PO"
        (route_reason_codes (F:=Float64) validator64 (sample64 10800 90 false)
           passed_without_po)
      <-> is_missing (sample64 10800 90 false) "po_number" = true).
Proof.
  assert (H : validate (F:=Float64) (B:=DateOnly) validator64
                (sample64 10800 90 false) = Ok passed_without_po)
    by (vm_compute; reflexivity).
  split; [exact H|].
  exact (proj2 (proj2 (proj2 (proj2
           (reason_codes_describe_invoice (F:=Float64) (B:=DateOnly)
              validator64 _ _ H))))).
Defined.

Lemma auto_post_means_clean_witness :
  validate (F:=Float64) (B:=DateOnly) validator64 (sample64 10800 90 true)
  = Ok all_passed
  /\ route (F:=Float64) validator64 (sample64 10800 90 true) all_passed
     = Ok (sample_decision 90 "AUTO_POST")
  /\ errors (all_passed (C:=binary64)) = []
  /\ warnings (all_passed (C:=binary64)) = []
  /\ is_missing (sample64 10800 90 true) "po_number" = false.
Proof.
  assert (Hv : validate (F:=Float64) (B:=DateOnly) validator64
                 (sample64 10800 90 true) = Ok all_passed)
    by (vm_compute; reflexivity).
  assert (Hd : route (F:=Float64) validator64 (sample64 10800 90 true)
                 all_passed = Ok (sample_decision 90 "AUTO_POST"))
    by (vm_compute; reflexivity).
  split; [exact Hv|]. split; [exact Hd|].
  destruct (auto_post_means_clean (F:=Float64) (B:=DateOnly) validator64
              _ _ _ Hv Hd eq_refl) as (He & Hw & _ & Hpo & _).
  repeat split; assumption.
Defined.

Lemma tolerance_lookup_is_upper_case_witness :
  reconciliation_currency (F:=Float64) (B:=DateOnly) (sample64_in "eur" 10802)
  = "EUR"
  /\ reconciliation_currency (F:=Float64) (B:=DateOnly)
       (sample64_in EmptyString 10802)
     = "USD"
  /\ _check_reconciliation (F:=Float64) (B:=DateOnly)
       (with_currency_tolerance validator_eur64
          (upper_case_keys (B:=DateOnly) (currency_tolerance validator_eur64)))
       (sample64_in "eur" 10802) []
     = _check_reconciliation (F:=Float64) (B:=DateOnly) validator_eur64
         (sample64_in "eur" 10802) [].
Proof.
  destruct (tolerance_lookup_is_upper_case (F:=Float64) (B:=DateOnly)
              validator_eur64 (sample64_in "eur" 10802) [])
    as (_ & _ & _ & H4 & H5).
  destruct (tolerance_lookup_is_upper_case (F:=Float64) (B:=DateOnly)
              validator_eur64 (sample64_in EmptyString 10802) [])
    as (_ & H2 & _).
  split; [exact (H4 _ "eur" eq_refl eq_refl ltac:(discriminate) eq_refl)|].
  split; [exact (H2 _ eq_refl eq_refl)|].
  refine (proj2 (H5 _)).
  intros a Ha _. inversion Ha; subst a. reflexivity.
Defined.

Lemma normalize_confidences_in_unit_witness :
  (exists r : InvoiceSchema (C:=binary64),
      normalize (F:=Float64) default_Normalizer 0%Z
        (with_items_a (vendor_a_output (F:=Float64) (PyFloat (f64 10800 2))
                         (f64 9 1))
           [item_a (F:=Float64); PyDict []])
        "vendor_a" "v1" = Ok r
      /\ (forall field a, slot r field = Some a ->
                          in_unit (F:=Float64) (confidence a) = true)
      /\ (forall items li, line_items r = Some items -> In li items ->
                           in_unit (F:=Float64) (confidence (audit li)) = true))
  /\ (exists e,
        normalize (F:=Float64) default_Normalizer 0%Z
          (vendor_b_output (F:=Float64) (PyStr "108.00") (f64 15 1))
          "vendor_b" "v1" = Raise e)
  /\ (exists e,
        normalize (F:=Float64) default_Normalizer 0%Z
          (with_items_a (vendor_a_output (F:=Float64) (PyFloat (f64 10800 2))
                           (f64 9 1))
             [item_a (F:=Float64); PyDict [("confidence", PyInt 2)]])
          "vendor_a" "v1" = Raise e).
Proof.
  split; [|split].
  - destruct (normalize (F:=Float64) default_Normalizer 0%Z
                (with_items_a (vendor_a_output (F:=Float64)
                                 (PyFloat (f64 10800 2)) (f64 9 1))
                   [item_a (F:=Float64); PyDict []])
                "vendor_a" "v1") as [r|e] eqn:E;
      [|vm_compute in E; discriminate E].
    exists r. split; [reflexivity|].
    refine (proj1 (normalize_confidences_in_unit (F:=Float64)
                     default_Normalizer 0%Z _ "vendor_a" "v1") r _).
    exact E.
  - destruct (normalize_confidences_in_unit (F:=Float64) default_Normalizer
                0%Z (vendor_b_output (F:=Float64) (PyStr "108.00") (f64 15 1))
                "vendor_b" "v1") as (_ & _ & _ & H & _).
    exact (H _ _ "amount_due" "total" _ (PyFloat (f64 15 1)) (f64 15 1)
             eq_refl eq_refl eq_refl ltac:(simpl; tauto) eq_refl eq_refl
             eq_refl eq_refl
             ltac:(intros _; split; vm_compute; discriminate)).
  - destruct (normalize_confidences_in_unit (F:=Float64) default_Normalizer
                0%Z
                (with_items_a (vendor_a_output (F:=Float64)
                                 (PyFloat (f64 10800 2)) (f64 9 1))
                   [item_a (F:=Float64); PyDict [("confidence", PyInt 2)]])
                "vendor_a" "v1") as (_ & _ & H & _).
    exact (H _ _ [("confidence", PyInt 2)] (PyInt 2) (f64 2 0)
             eq_refl eq_refl eq_refl ltac:(simpl; tauto) eq_refl
             eq_refl eq_refl).
Defined.

Lemma normalize_stamps_provenance_witness :
  exists r : InvoiceSchema (C:=binary64),
    normalize (F:=Float64) default_Normalizer 0%Z
      (with_items_b (vendor_b_output (F:=Float64) (PyStr "108.00") (f64 9 1))
         [item_b (F:=Float64); PyDict []])
      "vendor_b" "v2" = Ok r
    /\ (forall field a,
          slot r field = Some a ->
          pipeline_version a = "1.0.0"
          /\ audit_vendor_version a = "v2"
          /\ evidence a = Some (Evidence_page 1)
          /\ vendor_field_name a = vendor_b_key field)
    /\ (forall items,
          line_items r = Some items ->
          map (fun li => value (audit li)) items
          = [item_b (F:=Float64); PyDict []]).
Proof.
  destruct (normalize (F:=Float64) default_Normalizer 0%Z
              (with_items_b (vendor_b_output (F:=Float64) (PyStr "108.00")
                               (f64 9 1))
                 [item_b (F:=Float64); PyDict []])
              "vendor_b" "v2") as [r|e] eqn:E;
    [|vm_compute in E; discriminate E].
  exists r. split; [reflexivity|].
  destruct (normalize_stamps_provenance (F:=Float64) default_Normalizer
              _ _ _ _ r E) as (H1 & _ & H3).
  split; [exact H1|].
  intros items Hl.
  destruct (H3 items Hl) as (container & raw & Hc & Hi & Hm & _).
  cbn [String.eqb Ascii.eqb Bool.eqb] in Hc.
  rewrite Hm.
  assert (Hc' : vendor_b_items
                  (with_items_b (vendor_b_output (F:=Float64) (PyStr "108.00")
                                   (f64 9 1))
                     [item_b (F:=Float64); PyDict []])
                = Ok (PyList [item_b (F:=Float64); PyDict []]))
    by reflexivity.
  rewrite Hc' in Hc. inversion Hc; subst container.
  cbn [py_iter] in Hi. inversion Hi. reflexivity.
Defined.

Lemma normalize_metadata_witness :
  exists r : InvoiceSchema (C:=binary64),
    normalize (F:=Float64) default_Normalizer 1700000000%Z
      (vendor_b_output (F:=Float64) (PyStr "108.00") (f64 9 1))
      "vendor_b" "v2" = Ok r
    /\ doc_id r = "doc-1"
    /\ record_vendor_name r = "vendor_b"
    /\ extraction_timestamp r = 1700000000%Z.
Proof.
  destruct (normalize (F:=Float64) default_Normalizer 1700000000%Z
              (vendor_b_output (F:=Float64) (PyStr "108.00") (f64 9 1))
              "vendor_b" "v2") as [r|e] eqn:E;
    [|vm_compute in E; discriminate E].
  exists r. split; [reflexivity|].
  destruct (normalize_metadata (F:=Float64) default_Normalizer
              1700000000%Z
              (vendor_b_output (F:=Float64) (PyStr "108.00") (f64 9 1))
              "vendor_b" "v2" r E)
    as (_ & _ & _ & _ & Hd & Hv & _ & Ht).
  split; [exact (Hd "doc-1" eq_refl eq_refl)|].
  split; assumption.
Defined.

Lemma vendor_a_slot_mirrors_entry_witness :
  exists r : InvoiceSchema (C:=binary64),
    normalize (F:=Float64) default_Normalizer 0%Z
      (vendor_a_output (F:=Float64) (PyStr "108.00") (f64 9 1))
      "azure_document_intelligence" "prebuilt-invoice" = Ok r
    /\ match slot r "total" with
       | Some a =>
           exists d ed,
             vendor_a_fields
               (vendor_a_output (F:=Float64) (PyStr "108.00") (f64 9 1))
             = PyDict d
             /\ dict_get d "total" = Some (PyDict ed)
             /\ value a = dict_get_default ed "value" PyNone
             /\ pydantic_float (F:=Float64)
                  (dict_get_default ed "confidence" (PyFloat (f_zero (PyFloatOps:=Float64))))
                = Ok (confidence a)
       | None =>
           py_contains "total"
             (vendor_a_fields
                (vendor_a_output (F:=Float64) (PyStr "108.00") (f64 9 1)))
           = Ok false
       end
    /\ match slot r "supplier_id" with
       | Some a => False
       | None =>
           py_contains "supplier_id"
             (vendor_a_fields
                (vendor_a_output (F:=Float64) (PyStr "108.00") (f64 9 1)))
           = Ok false
       end.
Proof.
  destruct (normalize (F:=Float64) default_Normalizer 0%Z
              (vendor_a_output (F:=Float64) (PyStr "108.00") (f64 9 1))
              "azure_document_intelligence" "prebuilt-invoice")
    as [r|e] eqn:E;
    [|vm_compute in E; discriminate E].
  exists r. split; [reflexivity|]. split.
  - exact (vendor_a_slot_mirrors_entry (F:=Float64) default_Normalizer 0%Z
             (vendor_a_output (F:=Float64) (PyStr "108.00") (f64 9 1))
             "azure_document_intelligence" "prebuilt-invoice"
             r "total" eq_refl E ltac:(simpl; tauto)).
  - pose proof (vendor_a_slot_mirrors_entry (F:=Float64) default_Normalizer
                  0%Z
                  (vendor_a_output (F:=Float64) (PyStr "108.00") (f64 9 1))
                  "azure_document_intelligence" "prebuilt-invoice"
                  r "supplier_id" eq_refl E ltac:(simpl; tauto)) as H.
    destruct (slot r "supplier_id") as [a|]; [|exact H].
    destruct H as (d & ed & Hd & Hg & _).
    vm_compute in Hd. inversion Hd; subst d. vm_compute in Hg. discriminate Hg.
Defined.

Lemma vendor_b_slot_mirrors_entry_witness :
  exists (r : InvoiceSchema (C:=binary64)) financial,
    normalize (F:=Float64) default_Normalizer 0%Z
      (vendor_b_output (F:=Float64) (PyStr "abc") (f64 9 1))
      "vendor_b" "v2" = Ok r
    /\ vendor_b_financial
         (vendor_b_output (F:=Float64) (PyStr "abc") (f64 9 1))
       = Ok financial
    /\ match slot r "total" with
       | Some a =>
           exists ed,
             py_getitem financial "amount_due" = Ok (PyDict ed)
             /\ pydantic_float (F:=Float64)
                  (dict_get_default ed "score" (PyFloat (f_zero (PyFloatOps:=Float64))))
                = Ok (confidence a)
             /\ exists x,
                 py_float (F:=Float64) (dict_get_default ed "text" PyNone)
                 = Ok x
                 /\ value a = PyFloat x
       | None =>
           py_contains "amount_due" financial = Ok false
           \/ exists ed,
               py_getitem financial "amount_due" = Ok (PyDict ed)
               /\ str_in "total" numeric_fields = true
               /\ (py_float (F:=Float64) (dict_get_default ed "text" PyNone)
                   = Raise ValueError
                   \/ py_float (F:=Float64)
                        (dict_get_default ed "text" PyNone)
                      = Raise TypeError)
       end.
Proof.
  destruct (normalize (F:=Float64) default_Normalizer 0%Z
              (vendor_b_output (F:=Float64) (PyStr "abc") (f64 9 1))
              "vendor_b" "v2") as [r|e] eqn:E;
    [|vm_compute in E; discriminate E].
  destruct (vendor_b_slot_mirrors_entry (F:=Float64) default_Normalizer _ _ _
              r "amount_due" "total" E ltac:(simpl; tauto))
    as (financial & Hf & H).
  exists r, financial. split; [reflexivity|]. split; [exact Hf|exact H].
Defined.

Lemma line_items_follow_vendor_list_witness :
  exists r : InvoiceSchema (C:=binary64),
    normalize (F:=Float64) default_Normalizer 0%Z
      (with_items_a (vendor_a_output (F:=Float64) (PyFloat (f64 10800 2))
                       (f64 9 1))
         [item_a (F:=Float64); PyDict []])
      "vendor_a" "v1" = Ok r
    /\ (forall items,
          line_items r = Some items ->
          exists container raw,
            dict_get
              (with_items_a (vendor_a_output (F:=Float64)
                               (PyFloat (f64 10800 2)) (f64 9 1))
                 [item_a (F:=Float64); PyDict []])
              "line_items" = Some container
            /\ py_iter container = Ok raw
            /\ Forall2
                 (reads_item (F:=Float64) default_Normalizer "description"
                    "quantity" "unit_price" "amount" "confidence" "v1")
                 raw items).
Proof.
  destruct (normalize (F:=Float64) default_Normalizer 0%Z
              (with_items_a (vendor_a_output (F:=Float64)
                               (PyFloat (f64 10800 2)) (f64 9 1))
                 [item_a (F:=Float64); PyDict []])
              "vendor_a" "v1") as [r|e] eqn:E;
    [|vm_compute in E; discriminate E].
  exists r. split; [reflexivity|].
  exact (proj2 (line_items_follow_vendor_list (F:=Float64) default_Normalizer
                  _ _ _ _ r E)).
Defined.

Lemma unknown_vendor_is_read_as_vendor_a_witness :
  normalize (F:=Float64) default_Normalizer 0%Z
    (vendor_a_output (F:=Float64) (PyStr "108.00") (f64 9 1))
    "azure_document_intelligence" "prebuilt-invoice"
  = result_map (with_vendor_name "azure_document_intelligence")
      (normalize (F:=Float64) default_Normalizer 0%Z
         (vendor_a_output (F:=Float64) (PyStr "108.00") (f64 9 1))
         "vendor_a" "prebuilt-invoice").
Proof.
  exact (unknown_vendor_is_read_as_vendor_a (F:=Float64) default_Normalizer
           0%Z (vendor_a_output (F:=Float64) (PyStr "108.00") (f64 9 1))
           "azure_document_intelligence" "prebuilt-invoice" eq_refl).
Defined.

Lemma urgency_follows_priority_witness :
  _calculate_priority (F:=Float64) (PyFloat (f64 25000000 2))
    [("total", PyFloat (f64 25000000 2))] = Ok "CRITICAL"
  /\ _determine_urgency (F:=Float64) [("total", PyFloat (f64 25000000 2))]
     = Ok "URGENT"
  /\ ("CRITICAL" = "CRITICAL" <-> "URGENT" = "URGENT" \/ "URGENT" = "NORMAL").
Proof.
  assert (Hp : _calculate_priority (F:=Float64) (PyFloat (f64 25000000 2))
                 [("total", PyFloat (f64 25000000 2))] = Ok "CRITICAL")
    by (vm_compute; reflexivity).
  assert (Hu : _determine_urgency (F:=Float64)
                 [("total", PyFloat (f64 25000000 2))] = Ok "URGENT")
    by (vm_compute; reflexivity).
  split; [exact Hp|]. split; [exact Hu|].
  exact (proj2 (proj2 (urgency_follows_priority (F:=Float64) (L:=Float64_order)
                         [("total", PyFloat (f64 25000000 2))]))
           "CRITICAL" "URGENT" Hp Hu).
Defined.

Lemma analysis_raises_exactly_on_non_numeric_total_witness :
  validate (F:=Float64) (B:=DateOnly) validator64
    (invoice_100_8 (F:=Float64) (PyStr "108.00") (f64 90 2) true)
  = Ok all_passed
  /\ analyze_invoice_levels (F:=Float64)
       (insights_input
          (invoice_100_8 (F:=Float64) (PyStr "108.00") (f64 90 2) true)
          all_passed)
     = Raise TypeError.
Proof.
  split; [vm_compute; reflexivity|].
  exact (proj2 (proj2 (analysis_raises_exactly_on_non_numeric_total
                         (F:=Float64)
                         (invoice_100_8 (F:=Float64) (PyStr "108.00")
                            (f64 90 2) true) all_passed))
           "108.00" _ eq_refl eq_refl ltac:(discriminate)).
Defined.

Lemma auto_post_is_not_high_risk_witness :
  validate (F:=Float64) (B:=DateOnly) validator64 (sample64 10800 90 true)
  = Ok all_passed
  /\ route (F:=Float64) validator64 (sample64 10800 90 true) all_passed
     = Ok (sample_decision 90 "AUTO_POST")
  /\ _assess_risk (F:=Float64)
       (insights_input (sample64 10800 90 true) all_passed)
       (analysis_total (F:=Float64)
          (insights_input (sample64 10800 90 true) all_passed))
     <> Ok "HIGH".
Proof.
  assert (Hv : validate (F:=Float64) (B:=DateOnly) validator64
                 (sample64 10800 90 true) = Ok all_passed)
    by (vm_compute; reflexivity).
  assert (Hd : route (F:=Float64) validator64 (sample64 10800 90 true)
                 all_passed = Ok (sample_decision 90 "AUTO_POST"))
    by (vm_compute; reflexivity).
  split; [exact Hv|]. split; [exact Hd|].
  exact (proj1 (auto_post_is_not_high_risk (F:=Float64) (B:=DateOnly)
                  (L:=Float64_order) validator64 (sample64 10800 90 true)
                  all_passed (sample_decision 90 "AUTO_POST")
                  ltac:(simpl; tauto) ltac:(vm_compute; reflexivity)
                  Hv Hd eq_refl)).
Defined.

Lemma validation_and_routing_ignore_provenance_witness :
  same_readings (sample64 10800 90 true)
    (with_vendor_name "azure_document_intelligence"
       (with_timestamp 1700000000%Z (sample64 10800 90 true)))
  /\ validate (F:=Float64) (B:=DateOnly) validator64
       (with_vendor_name "azure_document_intelligence"
          (with_timestamp 1700000000%Z (sample64 10800 90 true)))
     = validate (F:=Float64) (B:=DateOnly) validator64
         (sample64 10800 90 true).
Proof.
  assert (H : same_readings (sample64 10800 90 true)
                (with_vendor_name "azure_document_intelligence"
                   (with_timestamp 1700000000%Z (sample64 10800 90 true))))
    by (split; [intros field; reflexivity | split; intros _; reflexivity]).
  split; [exact H|].
  symmetry.
  exact (proj1 (validation_and_routing_ignore_provenance (F:=Float64)
                  (B:=DateOnly) validator64 _ _ H)).
Defined.
